(** * Adi: the container launcher (launch-claude-container-standalone.py)

    A shallow embedding of [ClaudeContainerLauncher]: the methods of the
    class are state-and-exception monad computations over the mutable
    attributes of the launcher object, the host file system and the log of
    everything the script did to the outside world (processes spawned with
    [subprocess.run], lines printed, files copied, written and unlinked,
    directory changes).

    What the outside world answers is a parameter: a [Host] gives the exit
    status and standard output of every spawned command (and what the command
    did to the file system), the home directory, the numeric user, and so on.
    Theorems quantify over every host; the evaluations at the end fix one.

    Scope of the model.  A path is the string the script builds (no
    normalisation of dots or links); a path exists when that string, resolved
    against the process directory if relative, is in the file set.  Launching
    a command always yields a [CompletedProcess] (the executables are
    installed), and a file primitive applied to a path that was just checked
    does not raise.  In [prepare_claude_config] the host also says what copying
    the credentials, parsing the two JSON files and writing the result come
    to, exceptions that the method does not catch included; what the method
    makes of the parsed values is computed. *)

From Stdlib Require Import ZArith NArith String Ascii List Lia Bool.
From Stdlib Require Import DecimalString.
From stdpp Require Import base decidable option list gmap sets strings.

Import ListNotations.
Local Open Scope Z_scope.

(** ** Python strings *)

Module Str.

(** [str.isspace] on the ASCII range. *)
Definition isspace (c : ascii) : bool :=
  let n := nat_of_ascii c in
  ((9 <=? n)%nat && (n <=? 13)%nat) || ((28 <=? n)%nat && (n <=? 32)%nat).

Fixpoint lstrip (s : string) : string :=
  match s with
  | EmptyString => EmptyString
  | String c s' => if isspace c then lstrip s' else s
  end.

(** [rstrip] keeps a character when it is not a space or when something
    is kept after it. *)
Fixpoint rstrip (s : string) : string :=
  match s with
  | EmptyString => EmptyString
  | String c s' =>
      match rstrip s' with
      | EmptyString => if isspace c then EmptyString else String c EmptyString
      | r => String c r
      end
  end.

Definition strip (s : string) : string := rstrip (lstrip s).

(** Truth value of a [str]: the empty string is false. *)
Definition truthy (s : string) : bool :=
  match s with EmptyString => false | _ => true end.

(** [needle in hay]. *)
Fixpoint contains (needle hay : string) : bool :=
  String.prefix needle hay ||
  match hay with
  | EmptyString => false
  | String _ hay' => contains needle hay'
  end.

(** The double quote character. *)
Definition dquote : string := String (ascii_of_nat 34) EmptyString.

(** [str(n)] of a non-negative [int]. *)
Definition of_N (n : N) : string := NilZero.string_of_uint (N.to_uint n).

End Str.

(** Truth value of an [Optional[str]]: [None] and [""] are false. *)
Definition opt_truthy (o : option string) : bool :=
  match o with
  | Some s => Str.truthy s
  | None => false
  end.

(** ** Paths (pathlib) *)

Module Path.

(** [p / c]. *)
Definition join (p c : string) : string :=
  if String.eqb p "/" then "/" +:+ c else p +:+ "/" +:+ c.

Definition is_absolute (p : string) : bool := String.prefix "/" p.

(** What the operating system does with a path given to a system call. *)
Definition resolve (pwd p : string) : string :=
  if is_absolute p then p else join pwd p.

End Path.

(** ** JSON values and the profile update of [prepare_claude_config]

    Lines 302 to 316 of the script, on the values that [json.load] returned
    for the profile of the user and for the template.  A [dict] is the list
    of its items in insertion order. *)

(** [s.replace(old, new)] for a non-empty [old]: the occurrences of [old]
    are replaced from the left, without overlap.  [skip] counts the
    characters of the occurrence being replaced that are still to drop. *)
Fixpoint replace_from (old new : string) (skip : nat) (s : string) : string :=
  match s with
  | EmptyString => EmptyString
  | String c s' =>
      match skip with
      | S k => replace_from old new k s'
      | O =>
          if String.prefix old s
          then new +:+ replace_from old new (String.length old - 1) s'
          else String c (replace_from old new 0 s')
      end
  end.

Definition replace (old new s : string) : string := replace_from old new 0 s.

(** A Python [float]. *)
Inductive PyFloat :=
| Finite (m e : Z)        (* m * 2^e *)
| Infinite (negative : bool)
| NaN.

(** What [json.load] returns. *)
Inductive Json :=
| JNull
| JBool (b : bool)
| JInt (z : Z)
| JFloat (f : PyFloat)
| JStr (s : string)
| JList (l : list Json)
| JDict (d : list (string * Json)).

(** Truth value of a Python object. *)
Definition json_truthy (v : Json) : bool :=
  match v with
  | JNull => false
  | JBool b => b
  | JInt z => negb (z =? 0)
  | JFloat (Finite m _) => negb (m =? 0)
  | JFloat _ => true
  | JStr s => Str.truthy s
  | JList l => match l with [] => false | _ => true end
  | JDict d => match d with [] => false | _ => true end
  end.

(** [d.get(k)] on the items of a [dict]. *)
Fixpoint dict_get (k : string) (d : list (string * Json)) : option Json :=
  match d with
  | [] => None
  | (k', v) :: d' => if String.eqb k k' then Some v else dict_get k d'
  end.

(** [d[k] = v]: a key that is there keeps its place, a new one goes last. *)
Fixpoint dict_set (k : string) (v : Json) (d : list (string * Json))
  : list (string * Json) :=
  match d with
  | [] => [(k, v)]
  | (k', v') :: d' =>
      if String.eqb k k' then (k, v) :: d' else (k', v') :: dict_set k v d'
  end.

Definition dict_keys (d : list (string * Json)) : list string := map fst d.

(** The exceptions of the update; [prepare_claude_config] catches neither. *)
Inductive update_error :=
| AttributeError     (* .get or .items on something that is not a dict *)
| TypeError.         (* item assignment on something that is not a dict *)

(** [user_data.get("userID") or user_data.get("userId", "")]. *)
Definition user_id (user : list (string * Json)) : Json :=
  match dict_get "userID" user with
  | Some v => if json_truthy v then v else default (JStr "") (dict_get "userId" user)
  | None => default (JStr "") (dict_get "userId" user)
  end.

(** [user_data.get("oauthAccount", {})]. *)
Definition oauth_account (user : list (string * Json)) : Json :=
  default (JDict []) (dict_get "oauthAccount" user).

(** [for key, value in template_data["projects"].items():
       updated_projects[key.replace("$USER_NAME", self.user_name)] = value]. *)
Definition updated_projects (user_name : string) (projects : list (string * Json))
  : list (string * Json) :=
  fold_left
    (fun updated kv => dict_set (replace "$USER_NAME" user_name (fst kv)) (snd kv) updated)
    projects [].

Definition update_template (user_name : string) (user_data template_data : Json)
  : update_error + Json :=
  match user_data with
  | JDict user =>
      match template_data with
      | JDict template =>
          let template := dict_set "userID" (user_id user) template in
          let template := dict_set "oauthAccount" (oauth_account user) template in
          match dict_get "projects" template with
          | Some (JDict projects) =>
              inr (JDict (dict_set "projects" (JDict (updated_projects user_name projects))
                            template))
          | Some _ => inl AttributeError
          | None => inr (JDict template)
          end
      | _ => inl TypeError
      end
  | _ => inl AttributeError
  end.

(** The settings of the project of the template. *)
Definition project_settings : Json :=
  JDict
    [("allowedTools", JList []);
     ("history", JList []);
     ("mcpContextUris", JList []);
     ("mcpServers", JDict []);
     ("enabledMcpjsonServers", JList []);
     ("disabledMcpjsonServers", JList []);
     ("hasTrustDialogAccepted", JBool true);
     ("projectOnboardingSeenCount", JInt 1);
     ("hasClaudeMdExternalIncludesApproved", JBool false);
     ("hasClaudeMdExternalIncludesWarningShown", JBool false)].

(** [TEMPLATE_CONTENT], as [json.load] reads it. *)
Definition TEMPLATE_CONTENT : Json :=
  JDict
    [("numStartups", JInt 1);
     ("installMethod", JStr "unknown");
     ("autoUpdates", JBool true);
     ("tipsHistory", JDict [("new-user-warmup", JInt 1)]);
     ("userID", JStr "");
     ("projects", JDict [("/home/$USER_NAME/dev", project_settings)]);
     ("oauthAccount", JDict []);
     ("hasCompletedOnboarding", JBool true);
     ("mcpServers",
      JDict
        [("context7",
          JDict [("type", JStr "sse"); ("url", JStr "https://mcp.context7.com/sse")]);
         ("github",
          JDict
            [("type", JStr "http");
             ("url", JStr "https://api.githubcopilot.com/mcp/");
             ("headers",
              JDict [("Authorization", JStr "Bearer YOUR_GITHUB_TOKEN_HERE")])]);
         ("playwright",
          JDict
            [("command", JStr "npx");
             ("args", JList [JStr "@playwright/mcp@latest"])])])].

(** ** The world the script acts on *)

Record CompletedProcess := mkCompleted {
  returncode : Z;
  stdout : string
}.

Inductive Event :=
| Spawn (cmd : list string) (r : CompletedProcess)
| Stderr (line : string)
| Stdout (line : string)
| Copy (src dst : string)
| WriteFile (p : string)
| Unlink (p : string)
| Rmtree (p : string)
| Chdir (p : string).

(** The three attributes of the launcher that change after [__init__], the
    file system, the process directory and the log. *)
Record State := mkState {
  worktree_path : option string;
  worktree_created : bool;
  cleanup_worktree : bool;
  files : gset string;
  pwd : string;
  trace : list Event
}.

Definition set_worktree_path (v : option string) (s : State) : State :=
  mkState v (worktree_created s) (cleanup_worktree s) (files s) (pwd s) (trace s).
Definition set_worktree_created (v : bool) (s : State) : State :=
  mkState (worktree_path s) v (cleanup_worktree s) (files s) (pwd s) (trace s).
Definition set_cleanup_worktree (v : bool) (s : State) : State :=
  mkState (worktree_path s) (worktree_created s) v (files s) (pwd s) (trace s).
Definition set_files (v : gset string) (s : State) : State :=
  mkState (worktree_path s) (worktree_created s) (cleanup_worktree s) v (pwd s) (trace s).
Definition set_pwd (v : string) (s : State) : State :=
  mkState (worktree_path s) (worktree_created s) (cleanup_worktree s) (files s) v (trace s).
Definition log (e : Event) (s : State) : State :=
  mkState (worktree_path s) (worktree_created s) (cleanup_worktree s) (files s) (pwd s)
          (trace s ++ [e]).

(** What [shutil.copy2] comes to: the copy, or an exception (nothing in the
    script catches it), the destination being there or not by then. *)
Inductive copied :=
| Copied
| CopyRaises (name : string) (created : bool).

(** What opening and parsing a JSON file comes to: the value, an exception
    that [prepare_claude_config] catches ([json.JSONDecodeError] or
    [IOError], with its text), or one that it does not catch (such as
    [UnicodeDecodeError], by its name). *)
Inductive loaded :=
| Loaded (v : Json)
| LoadCaught (e : string)
| LoadRaises (name : string).

(** What opening a file for writing and dumping a JSON value to it comes
    to: the file written, or an [IOError] (with its text), the file being
    there or not by then. *)
Inductive dumped :=
| Dumped
| DumpCaught (e : string) (created : bool).

(** The outside world. *)
Record Host := mkHost {
  home : string;                      (* Path.home() *)
  script_parent : string;             (* Path(__file__).parent.absolute() *)
  mkdtemp : string;                   (* tempfile.mkdtemp() *)
  getuid : N;
  getgid : N;
  environ_USER : option string;
  strftime : State -> string;         (* time.strftime('%Y-%m-%d %H:%M:%S') *)
  subprocess : State -> list string -> CompletedProcess * gset string;
  copy2_answer : State -> string -> string -> copied;   (* shutil.copy2(src, dst) *)
  json_load : State -> string -> loaded;                (* json.load(open(p)) *)
  json_dump : State -> string -> Json -> dumped         (* json.dump(v, open(p, "w")) *)
}.

(** The attributes [__init__] sets once. *)
Record Launcher := mkLauncher {
  script_dir : string;
  temp_dir : string;
  dockerfile : string;
  template_file : string;
  image_name : string;
  container_name : string;
  user_uid : N;
  user_gid : N;
  user_name : string;
  cwd : string
}.

(** The parsed command line ([argparse.Namespace]). *)
Record Args := mkArgs {
  message : option string;
  no_cache : bool;
  permission_mode : option string;
  worktree_branch : option string;
  keep_worktree : bool;
  no_worktree : bool;
  arg_worktree_path : option string
}.

(** ** Exceptions and the monad *)

(** [Error] stands for every other exception, by the name of its class: the
    script has no handler for one outside [prepare_claude_config], so it
    ends the process with a traceback. *)
Inductive exn :=
| SystemExit (code : Z)
| CalledProcessError (rc : Z) (cmd : list string)
| Error (name : string).

Inductive outcome (A : Type) :=
| Ret (a : A)
| Raise (e : exn).
Arguments Ret {A} a.
Arguments Raise {A} e.

Definition M (A : Type) : Type := State -> outcome A * State.

Definition ret {A} (a : A) : M A := fun s => (Ret a, s).
Definition raise {A} (e : exn) : M A := fun s => (Raise e, s).
Definition bind {A B} (m : M A) (k : A -> M B) : M B :=
  fun s => match m s with
           | (Ret a, s') => k a s'
           | (Raise e, s') => (Raise e, s')
           end.

Declare Scope py_scope.
Delimit Scope py_scope with py.
Notation "x <- m ;; k" := (bind m (fun x => k))
  (at level 100, m at next level, right associativity) : py_scope.
Notation "m ;; k" := (bind m (fun _ => k))
  (at level 100, right associativity) : py_scope.
Local Open Scope py_scope.

(** [try: body finally: fin]: [fin] runs on both exits; an exception of
    [fin] replaces the one in flight. *)
Definition try_finally {A} (body : M A) (fin : M unit) : M A :=
  fun s => match body s with
           | (r, s') =>
               match fin s' with
               | (Ret _, s'') => (r, s'')
               | (Raise e, s'') => (Raise e, s'')
               end
           end.

(** [try: body except subprocess.CalledProcessError: handler]. *)
Definition try_except_cpe {A} (body : M A) (handler : M A) : M A :=
  fun s => match body s with
           | (Raise (CalledProcessError _ _), s') => handler s'
           | other => other
           end.

Definition when (b : bool) (m : M unit) : M unit := if b then m else ret tt.

Definition get {A} (f : State -> A) : M A := fun s => (Ret (f s), s).
Definition modify (f : State -> State) : M unit := fun s => (Ret tt, f s).
Definition emit (e : Event) : M unit := modify (log e).

(** ** Primitives *)

Module Colors.
Definition ESC : string := String (ascii_of_nat 27) EmptyString.
Definition GREEN : string := ESC +:+ "[0;32m".
Definition BLUE : string := ESC +:+ "[0;34m".
Definition YELLOW : string := ESC +:+ "[1;33m".
Definition NC : string := ESC +:+ "[0m".
End Colors.

Definition print_colored (message color : string) : M unit :=
  emit (Stderr (color +:+ message +:+ Colors.NC)).

Definition print (line : string) : M unit := emit (Stdout line).

Definition sys_exit {A} (code : Z) : M A := raise (SystemExit code).

(** [subprocess.run(cmd, check=check)]: the host answers, the command is
    logged, and with [check=True] a non-zero status raises. *)
Definition subprocess_run (h : Host) (check : bool) (cmd : list string)
  : M CompletedProcess :=
  fun s =>
    let out := subprocess h s cmd in
    let s' := log (Spawn cmd (fst out)) (set_files (snd out) s) in
    if check && negb (returncode (fst out) =? 0)
    then (Raise (CalledProcessError (returncode (fst out)) cmd), s')
    else (Ret (fst out), s').

Definition exists_on (fs : gset string) (dir p : string) : bool :=
  bool_decide (Path.resolve dir p ∈ fs).

(** [p.exists()]. *)
Definition path_exists (p : string) : M bool :=
  get (fun s => exists_on (files s) (pwd s) p).

(** [shutil.copy2(src, dst)]. *)
Definition copy2 (h : Host) (src dst : string) : M unit :=
  answer <- get (fun s => copy2_answer h s src dst) ;;
  match answer with
  | Copied =>
      modify (fun s => set_files ({[ Path.resolve (pwd s) dst ]} ∪ files s) s) ;;
      emit (Copy src dst)
  | CopyRaises name created =>
      when created
        (modify (fun s => set_files ({[ Path.resolve (pwd s) dst ]} ∪ files s) s) ;;
         emit (Copy src dst)) ;;
      raise (Error name)
  end.

(** Creating or overwriting the file [p]. *)
Definition write_file (p : string) : M unit :=
  modify (fun s => set_files ({[ Path.resolve (pwd s) p ]} ∪ files s) s) ;;
  emit (WriteFile p).

(** [p.unlink()]. *)
Definition unlink (p : string) : M unit :=
  modify (fun s => set_files (files s ∖ {[ Path.resolve (pwd s) p ]}) s) ;;
  emit (Unlink p).

Definition under (dir p : string) : bool :=
  String.eqb p dir || String.prefix (dir +:+ "/") p.

(** [shutil.rmtree(p, ignore_errors=True)]. *)
Definition rmtree (p : string) : M unit :=
  modify (fun s =>
    set_files (filter (fun q => under (Path.resolve (pwd s) p) q = false) (files s)) s) ;;
  emit (Rmtree p).

(** [os.chdir(p)]. *)
Definition chdir (p : string) : M unit :=
  modify (fun s => set_pwd (Path.resolve (pwd s) p) s) ;;
  emit (Chdir p).

(** [for x in xs: body(x)]. *)
Fixpoint for_each {A} (xs : list A) (body : A -> M unit) : M unit :=
  match xs with
  | [] => ret tt
  | x :: xs' => body x ;; for_each xs' body
  end.

(** ** ClaudeContainerLauncher *)

Definition __init__ (h : Host) : M Launcher :=
  let temp_dir := mkdtemp h in
  let dockerfile := Path.join temp_dir "claude-code-ubuntu.dockerfile" in
  let template_file := Path.join temp_dir "claude.template.json" in
  modify (fun s => set_files ({[ temp_dir ]} ∪ files s) s) ;;
  write_file dockerfile ;;
  write_file template_file ;;
  cwd <- get pwd ;;
  modify (set_worktree_path None) ;;
  modify (set_worktree_created false) ;;
  modify (set_cleanup_worktree true) ;;
  ret (mkLauncher (script_parent h) temp_dir dockerfile template_file
         "claude-code-ubuntu" "claude-code-dev"
         (getuid h) (getgid h) (default "user" (environ_USER h)) cwd).

Section Methods.

Variable h : Host.
Variable self : Launcher.

Definition is_git_repo : M bool :=
  try_except_cpe
    (subprocess_run h true ["git"; "rev-parse"; "--git-dir"] ;;
     ret true)
    (ret false).

Definition create_worktree (branch_or_commit : string) : M string :=
  repo <- is_git_repo ;;
  (if negb repo
   then print_colored
          "Error: Not in a git repository. Worktree requires a git repository."
          Colors.YELLOW ;;
        sys_exit 1
   else ret tt) ;;
  let worktree_path := Path.join (cwd self) "claude_wt" in
  print_colored
    ("Creating git worktree 'claude_wt' from '" +:+ branch_or_commit +:+ "'...")
    Colors.GREEN ;;
  try_except_cpe
    (subprocess_run h true ["git"; "worktree"; "add"; "-b"; "claude_wt"; "wt_temp/"] ;;
     print_colored ("Worktree created at: " +:+ worktree_path) Colors.BLUE ;;
     modify (set_worktree_created true) ;;
     ret worktree_path)
    (print_colored "Failed to create worktree. Using current directory instead."
       Colors.YELLOW ;;
     ret (cwd self)).

Definition cleanup_worktree_if_needed : M unit :=
  wp <- get worktree_path ;;
  cleanup <- get cleanup_worktree ;;
  created <- get worktree_created ;;
  match wp with
  | Some p =>
      when (cleanup && created)
        (print_colored "Cleaning up worktree..." Colors.GREEN ;;
         try_except_cpe
           (result <- subprocess_run h false ["git"; "worktree"; "list"; "--porcelain"] ;;
            when (Str.contains p (stdout result))
              (subprocess_run h false ["git"; "worktree"; "remove"; p; "--force"] ;;
               ret tt))
           (ret tt))
  | None => ret tt
  end.

(** The [except] clause of [prepare_claude_config]. *)
Definition config_error {A} (e : string) : M A :=
  print_colored ("Error processing configuration: " +:+ e) Colors.YELLOW ;;
  sys_exit 1.

(** The exception that a failed update raises. *)
Definition update_error_name (e : update_error) : string :=
  match e with
  | AttributeError => "AttributeError"
  | TypeError => "TypeError"
  end.

Definition prepare_claude_config : M unit :=
  print_colored "Preparing Claude configuration files..." Colors.GREEN ;;
  let credentials_src := Path.join (Path.join (home h) ".claude") ".credentials.json" in
  let credentials_dest := Path.join (script_dir self) ".credentials.json" in
  have_credentials <- path_exists credentials_src ;;
  (if have_credentials
   then copy2 h credentials_src credentials_dest ;;
        print_colored "Copied credentials file" Colors.BLUE
   else print_colored "Warning: ~/.claude/.credentials.json not found" Colors.YELLOW ;;
        sys_exit 1) ;;
  let user_config := Path.join (home h) ".claude.json" in
  have_config <- path_exists user_config ;;
  have_template <- path_exists (template_file self) ;;
  if have_config && have_template
  then
    user <- get (fun s => json_load h s user_config) ;;
    match user with
    | Loaded user_data =>
        template <- get (fun s => json_load h s (template_file self)) ;;
        match template with
        | Loaded template_data =>
            match update_template (user_name self) user_data template_data with
            | inr template_data =>
                let config_dest := Path.join (script_dir self) ".claude.json" in
                written <- get (fun s => json_dump h s config_dest template_data) ;;
                match written with
                | Dumped =>
                    write_file config_dest ;;
                    print_colored "Created .claude.json with user configuration"
                      Colors.BLUE
                | DumpCaught e created =>
                    when created (write_file config_dest) ;;
                    config_error e
                end
            | inl e => raise (Error (update_error_name e))
            end
        | LoadCaught e => config_error e
        | LoadRaises name => raise (Error name)
        end
    | LoadCaught e => config_error e
    | LoadRaises name => raise (Error name)
    end
  else
    print_colored "Warning: ~/.claude.json or template file not found" Colors.YELLOW ;;
    sys_exit 1.

Definition should_build_image (no_cache : bool) : M bool :=
  if no_cache then ret true else
  result <- subprocess_run h false ["podman"; "image"; "exists"; image_name self] ;;
  if negb (returncode result =? 0) then ret true else
  early <- try_except_cpe
    (result <- subprocess_run h false
                 ["podman"; "image"; "inspect"; image_name self;
                  "--format"; "{{.Created}}"] ;;
     if returncode result =? 0
     then present <- path_exists (dockerfile self) ;; ret (Some present)
     else ret None)
    (ret None) ;;
  match early with
  | Some b => ret b
  | None => ret false
  end.

Definition build_args (no_cache : bool) : list string :=
  ["podman"; "build";
   "-f"; dockerfile self;
   "--build-arg"; "USER_ID=" +:+ Str.of_N (user_uid self);
   "--build-arg"; "GROUP_ID=" +:+ Str.of_N (user_gid self);
   "--build-arg"; "USER_NAME=" +:+ user_name self;
   "-t"; image_name self]
  ++ (if no_cache then ["--no-cache"] else [])
  ++ [script_dir self].

Definition build_image (no_cache : bool) : M unit :=
  print_colored "Building Claude Code Ubuntu image..." Colors.GREEN ;;
  subprocess_run h true (build_args no_cache) ;;
  ret tt.

Definition temp_files : list string :=
  [Path.join (script_dir self) ".credentials.json";
   Path.join (script_dir self) ".claude.json"].

Definition cleanup_temp_files : M unit :=
  print_colored "Cleaning up temporary files..." Colors.GREEN ;;
  for_each temp_files (fun temp_file =>
    present <- path_exists temp_file ;;
    when present (unlink temp_file)).

Definition stop_existing_container : M unit :=
  result <- subprocess_run h false ["podman"; "container"; "exists"; container_name self] ;;
  when (returncode result =? 0)
    (print_colored "Stopping existing container..." Colors.YELLOW ;;
     subprocess_run h false ["podman"; "stop"; container_name self] ;;
     subprocess_run h false ["podman"; "rm"; container_name self] ;;
     ret tt).

Definition claude_cmd (message : string) (permission_mode : option string) : string :=
  "claude"
  +:+ (match permission_mode with
       | Some mode =>
           if Str.truthy mode
           then " --permission-mode " +:+ mode
           else " --dangerously-skip-permissions"
       | None => " --dangerously-skip-permissions"
       end)
  +:+ " -p " +:+ Str.dquote +:+ message +:+ Str.dquote
  +:+ " --output-format stream-json --verbose".

Definition run_args (mount_path : string) : list string :=
  ["podman"; "run"; "-it";
   "--name"; container_name self;
   "--hostname"; "claude-dev";
   "--user"; Str.of_N (user_uid self) +:+ ":" +:+ Str.of_N (user_gid self);
   "--volume"; mount_path +:+ ":/home/" +:+ user_name self +:+ "/dev:Z";
   "--userns=keep-id";
   image_name self].

Definition run_container (mount_path : string) (message permission_mode : option string)
  : M unit :=
  print_colored "Starting Claude Code container..." Colors.GREEN ;;
  print_colored ("Container name: " +:+ container_name self) Colors.BLUE ;;
  print_colored ("Working directory: /home/" +:+ user_name self +:+ "/dev") Colors.BLUE ;;
  print_colored ("Host directory mounted: " +:+ mount_path) Colors.BLUE ;;
  cleanup <- get cleanup_worktree ;;
  when (negb (String.eqb mount_path (cwd self)))
    (print_colored
       ("Worktree will be "
        +:+ (if negb cleanup then "preserved" else "cleaned up")
        +:+ " after container stops")
       Colors.BLUE) ;;
  print_colored "Type 'claude' to start Claude Code" Colors.BLUE ;;
  print_colored "Type 'exit' to stop the container" Colors.BLUE ;;
  print "" ;;
  match message with
  | Some text =>
      if Str.truthy text
      then
        let cmd := claude_cmd text permission_mode in
        print_colored ("Running " +:+ cmd +:+ " after container starts...") Colors.BLUE ;;
        subprocess_run h false (run_args mount_path ++ ["bash"; "-c"; cmd]) ;;
        ret tt
      else
        subprocess_run h false (run_args mount_path) ;;
        ret tt
  | None =>
      subprocess_run h false (run_args mount_path) ;;
      ret tt
  end.

Definition push_changes (current_branch : string) : M unit :=
  try_except_cpe
    (subprocess_run h true ["git"; "push"; "origin"; current_branch] ;;
     print_colored ("Changes pushed to origin/" +:+ current_branch) Colors.GREEN)
    (try_except_cpe
       (subprocess_run h true ["git"; "push"; "--set-upstream"; "origin"; current_branch] ;;
        print_colored ("New branch created and pushed to origin/" +:+ current_branch)
          Colors.GREEN)
       (print_colored "Warning: Failed to push changes to remote" Colors.YELLOW)).

Definition commit_and_push : M unit :=
  print_colored "Changes detected in worktree, committing and pushing..." Colors.BLUE ;;
  subprocess_run h true ["git"; "add"; "-A"] ;;
  stamp <- get (strftime h) ;;
  let commit_msg := "chore: claude code container changes " +:+ stamp in
  subprocess_run h true ["git"; "commit"; "-m"; commit_msg] ;;
  result <- subprocess_run h true ["git"; "branch"; "--show-current"] ;;
  let current_branch := Str.strip (stdout result) in
  push_changes current_branch.

Definition detect_changes : M bool :=
  let has_changes := false in
  result <- subprocess_run h false ["git"; "diff"; "--quiet"] ;;
  let has_changes := if negb (returncode result =? 0) then true else has_changes in
  result <- subprocess_run h false ["git"; "diff"; "--cached"; "--quiet"] ;;
  let has_changes := if negb (returncode result =? 0) then true else has_changes in
  result <- subprocess_run h false ["git"; "ls-files"; "--others"; "--exclude-standard"] ;;
  let has_changes := if Str.truthy (Str.strip (stdout result)) then true else has_changes in
  ret has_changes.

Definition handle_worktree_post_processing : M unit :=
  created <- get worktree_created ;;
  wp <- get worktree_path ;;
  match wp with
  | Some p =>
      present <- path_exists p ;;
      if negb (created && present) then ret tt else
      print_colored "Processing worktree changes..." Colors.GREEN ;;
      original_cwd <- get pwd ;;
      try_finally
        (chdir p ;;
         has_changes <- detect_changes ;;
         if has_changes
         then commit_and_push
         else print_colored "No changes detected in worktree" Colors.BLUE)
        (chdir original_cwd)
  | None => ret tt
  end.

Definition _cleanup_temp_dir : M unit :=
  present <- path_exists (temp_dir self) ;;
  when present (rmtree (temp_dir self)).

Definition use_existing_worktree (p : string) : M string :=
  print_colored ("Using existing worktree at: " +:+ p) Colors.BLUE ;;
  modify (set_worktree_path (Some p)) ;;
  modify (set_cleanup_worktree false) ;;
  ret p.

Definition use_new_worktree (args : Args) : M string :=
  let ref := match worktree_branch args with
             | Some b => if Str.truthy b then b else "HEAD"
             | None => "HEAD"
             end in
  p <- create_worktree ref ;;
  modify (set_worktree_path (Some p)) ;;
  ret p.

(** The part of [run] before its [try]. *)
Definition setup (args : Args) : M string :=
  print_colored "Claude Code Container Launcher" Colors.BLUE ;;
  present <- path_exists (dockerfile self) ;;
  (if negb present
   then print_colored ("Warning: " +:+ dockerfile self +:+ " not found in script directory")
          Colors.YELLOW ;;
        sys_exit 1
   else ret tt) ;;
  when (keep_worktree args) (modify (set_cleanup_worktree false)) ;;
  if negb (no_worktree args)
  then
    match arg_worktree_path args with
    | Some p =>
        present <- path_exists p ;;
        if present then use_existing_worktree p else use_new_worktree args
    | None => use_new_worktree args
    end
  else
    print_colored "Using current directory (no worktree)" Colors.BLUE ;;
    ret (cwd self).

(** The body of the [try] of [run]. *)
Definition session (args : Args) (mount_path : string) : M unit :=
  prepare_claude_config ;;
  build <- should_build_image (no_cache args) ;;
  when build (build_image (no_cache args)) ;;
  cleanup_temp_files ;;
  stop_existing_container ;;
  run_container mount_path (message args) (permission_mode args) ;;
  print_colored "Container stopped" Colors.GREEN ;;
  handle_worktree_post_processing.

Definition run (args : Args) : M unit :=
  mount_path <- setup args ;;
  try_finally (session args mount_path) cleanup_worktree_if_needed.

End Methods.

(** ** The process *)

(** Exit status of the interpreter: 0 on return, the code of [sys.exit], 1
    for any other exception that reaches the top. *)
Definition exit_status {A} (r : outcome A) : Z :=
  match r with
  | Ret _ => 0
  | Raise (SystemExit code) => code
  | Raise (CalledProcessError _ _) => 1
  | Raise (Error _) => 1
  end.

(** [launcher = ClaudeContainerLauncher(); launcher.run()], then the
    [atexit] hook registered by [__init__]. *)
Definition main (h : Host) (args : Args) (s : State) : Z * State :=
  match __init__ h s with
  | (Ret self, s1) =>
      let r := run h self args s1 in
      (exit_status (fst r), snd (_cleanup_temp_dir self (snd r)))
  | (Raise e, s1) => (exit_status (@Raise unit e), s1)
  end.

(** The process starts in directory [dir] of a file system [fs]. *)
Definition boot (fs : gset string) (dir : string) : State :=
  mkState None false true fs dir [].

(** * Text as Python has it

    The two other scripts work on the characters of their inputs: a [str]
    is the sequence of its code points. *)

Definition str : Type := list N.

Module Text.

(** The [str] of a literal of the script. *)
Definition of_string (s : string) : str :=
  map N_of_ascii (list_ascii_of_string s).

(** The double quote. *)
Definition quote : str := [34%N].

Definition nl : N := 10%N.

(** [c.isspace()]: the white space of Unicode. *)
Definition isspace (c : N) : bool :=
  ((9 <=? c) && (c <=? 13) || (28 <=? c) && (c <=? 32)
   || (c =? 133) || (c =? 160) || (c =? 5760)
   || (8192 <=? c) && (c <=? 8202)
   || (c =? 8232) || (c =? 8233) || (c =? 8239) || (c =? 8287) || (c =? 12288))%N.

Fixpoint lstrip (s : str) : str :=
  match s with
  | [] => []
  | c :: s' => if isspace c then lstrip s' else s
  end.

(** [rstrip] keeps a character when it is not a space or when something
    is kept after it. *)
Fixpoint rstrip (s : str) : str :=
  match s with
  | [] => []
  | c :: s' =>
      match rstrip s' with
      | [] => if isspace c then [] else [c]
      | r => c :: r
      end
  end.

Definition strip (s : str) : str := rstrip (lstrip s).

(** [a == b]. *)
Definition eqb (a b : str) : bool := bool_decide (a = b).

Fixpoint startswith (pre s : str) : bool :=
  match pre, s with
  | [], _ => true
  | p :: pre', c :: s' => (p =? c)%N && startswith pre' s'
  | _ :: _, [] => false
  end.

Definition endswith (suf s : str) : bool := startswith (rev suf) (rev s).

(** [sub in s]. *)
Fixpoint contains (sub s : str) : bool :=
  startswith sub s ||
  match s with
  | [] => false
  | _ :: s' => contains sub s'
  end.

(** [s.split(sep)] for a separator of one character. *)
Fixpoint split (sep : N) (s : str) : list str :=
  match s with
  | [] => [[]]
  | c :: s' =>
      if (c =? sep)%N then [] :: split sep s'
      else match split sep s' with
           | l :: ls => (c :: l) :: ls
           | [] => [[c]]
           end
  end.

(** [sep.join(parts)]. *)
Fixpoint join (sep : str) (parts : list str) : str :=
  match parts with
  | [] => []
  | l :: ls =>
      match ls with
      | [] => l
      | _ => l ++ sep ++ join sep ls
      end
  end.

End Text.

(** * build_standalone.py *)

Module Standalone.

Definition source_script : string := "podman/launch-claude-container.py".
Definition dockerfile : string := "podman/claude-code-ubuntu.dockerfile".
Definition template_file : string := "podman/claude.template.json".
Definition output_script : string := "launch-claude-container-standalone.py".

Definition class_line : str := Text.of_string "class ClaudeContainerLauncher:".
Definition init_line : str := Text.of_string "def __init__(self):".
Definition run_line : str := Text.of_string "def run(self) -> None:".
Definition script_dir_prefix : str := Text.of_string "self.script_dir".
Definition dockerfile_assignment : str := Text.of_string "self.dockerfile = self.script_dir".
Definition template_assignment : str := Text.of_string "self.template_file = self.script_dir".

Definition triple_quote : str := Text.quote ++ Text.quote ++ Text.quote.

(** The lines that follow the [class] line. *)
Definition embedded_content (dockerfile_content template_content : str) : list str :=
  [ Text.of_string "    # Embedded content - dockerfile";
    Text.of_string "    DOCKERFILE_CONTENT = " ++ triple_quote ++ dockerfile_content
      ++ triple_quote;
    [];
    Text.of_string "    # Embedded content - template";
    Text.of_string "    TEMPLATE_CONTENT = " ++ triple_quote ++ template_content
      ++ triple_quote;
    [] ].

Definition register_line : str :=
  Text.of_string "        atexit.register(self._cleanup_temp_dir)".

(** The lines that follow the [self.script_dir] line of [__init__]. *)
Definition temp_dir_setup : list str :=
  [ Text.of_string "        # Create temporary directory for embedded files";
    Text.of_string "        self.temp_dir = Path(tempfile.mkdtemp())";
    Text.of_string "        self.dockerfile = self.temp_dir / " ++ Text.quote
      ++ Text.of_string "claude-code-ubuntu.dockerfile" ++ Text.quote;
    Text.of_string "        self.template_file = self.temp_dir / " ++ Text.quote
      ++ Text.of_string "claude.template.json" ++ Text.quote;
    [];
    Text.of_string "        # Extract embedded files";
    Text.of_string "        self.dockerfile.write_text(self.DOCKERFILE_CONTENT)";
    Text.of_string "        self.template_file.write_text(self.TEMPLATE_CONTENT)";
    [];
    Text.of_string "        # Set up cleanup";
    Text.of_string "        import atexit";
    register_line ].

(** The method that goes before [run]. *)
Definition cleanup_method : list str :=
  [ Text.of_string "    def _cleanup_temp_dir(self) -> None:";
    Text.of_string "        " ++ triple_quote
      ++ Text.of_string "Clean up temporary directory." ++ triple_quote;
    Text.of_string "        if hasattr(self, " ++ Text.quote ++ Text.of_string "temp_dir"
      ++ Text.quote ++ Text.of_string ") and self.temp_dir.exists():";
    Text.of_string "            import shutil";
    Text.of_string "            shutil.rmtree(self.temp_dir, ignore_errors=True)";
    [] ].

(** One turn of the loop: the new value of [in_init] and the lines appended
    to [output_lines]. *)
Definition step (dockerfile_content template_content : str) (in_init : bool) (line : str)
  : bool * list str :=
  if Text.eqb (Text.strip line) class_line
  then (in_init, line :: embedded_content dockerfile_content template_content)
  else if Text.eqb (Text.strip line) init_line
  then (true, [line])
  else if in_init && Text.startswith script_dir_prefix (Text.strip line)
  then (false, line :: temp_dir_setup)
  else if Text.contains dockerfile_assignment line
  then (in_init, [])
  else if Text.contains template_assignment line
  then (in_init, [])
  else if Text.eqb (Text.strip line) run_line
  then (in_init, cleanup_method ++ [line])
  else (in_init, [line]).

(** [output_lines] after the loop over [lines]. *)
Fixpoint output_lines (dockerfile_content template_content : str) (in_init : bool)
    (lines : list str) : list str :=
  match lines with
  | [] => []
  | line :: rest =>
      snd (step dockerfile_content template_content in_init line)
      ++ output_lines dockerfile_content template_content
           (fst (step dockerfile_content template_content in_init line)) rest
  end.

(** What is written to the output script. *)
Definition standalone (source dockerfile_content template_content : str) : str :=
  Text.join [Text.nl]
    (output_lines dockerfile_content template_content false (Text.split Text.nl source)).

(** What a file holds: characters, or bytes that are not text in the
    encoding of the locale. *)
Inductive stored :=
| Chars (content : str)
| Undecodable.

(** The files of the working directory (what they hold, by path), those that
    cannot be opened for writing, those that are executable, and what was
    printed. *)
Record World := mkWorld {
  contents : gmap string stored;
  locked : gset string;
  executable : gset string;
  printed : list str
}.

(** What [f.read()] makes of the characters of a file opened in text mode:
    every line end ([CR LF], [CR] or [LF]) is read as [LF]. *)
Fixpoint universal_newlines (s : str) : str :=
  match s with
  | [] => []
  | c :: rest =>
      if (c =? 13)%N
      then Text.nl ::
           match rest with
           | c' :: rest' =>
               if (c' =? 10)%N then universal_newlines rest' else universal_newlines rest
           | [] => []
           end
      else c :: universal_newlines rest
  end.

(** [with p.open('r') as f: f.read()]; [None] when it raises (no file, or
    no text in it). *)
Definition read (w : World) (p : string) : option str :=
  match contents w !! p with
  | Some (Chars content) => Some (universal_newlines content)
  | _ => None
  end.

(** [main()] on POSIX, where a line end is written as it is.  [None] when
    it raises: an input cannot be read, or the output cannot be opened; by
    then nothing has been written or printed. *)
Definition main (w : World) : option World :=
  source ← read w source_script;
  dockerfile_content ← read w dockerfile;
  template_content ← read w template_file;
  if bool_decide (output_script ∈ locked w) then None
  else
    Some (mkWorld
            (<[ output_script :=
                  Chars (standalone source dockerfile_content template_content) ]>
               (contents w))
            (locked w)
            ({[ output_script ]} ∪ executable w)
            (printed w
             ++ [Text.of_string "Created standalone script: "
                 ++ Text.of_string output_script])).

(** A line that the loop copies or leaves out, and nothing else. *)
Definition plain (line : str) : bool :=
  negb (Text.eqb (Text.strip line) class_line)
  && negb (Text.eqb (Text.strip line) init_line)
  && negb (Text.eqb (Text.strip line) run_line).

(** A line that the loop may leave out. *)
Definition assignment (line : str) : bool :=
  Text.contains dockerfile_assignment line || Text.contains template_assignment line.

End Standalone.

(** * architect.py *)

Module Architect.

(** The exceptions that leave the functions: the [ValueError] that they
    raise themselves, and the [OSError] of a call that is not in a [try]. *)
Inductive exn :=
| ValueError (message : str)
| OSError (message : str).

(** What a path holds: a file and its text; something that is there but
    cannot be read as text (with the words of the exception); or nothing
    that can be looked at, the look-up failing for another reason than
    absence, such as a name that is too long (with the words of the
    [OSError]).  A path is looked up as it is written. *)
Inductive node :=
| File (content : str)
| Unreadable (why : str)
| Unreachable (why : str).

Definition FileSystem : Type := gmap str node.

(** [Path(p).exists()]: false for a path that is not there, and an
    [OSError] when the look-up fails for another reason. *)
Definition path_exists (fs : FileSystem) (p : str) : exn + bool :=
  match fs !! p with
  | None => inr false
  | Some (Unreachable why) => inl (OSError why)
  | Some _ => inr true
  end.

(** [Path(p).read_text(encoding='utf-8')]: the text, or the words of the
    exception. *)
Definition read_text (fs : FileSystem) (p : str) : str + str :=
  match fs !! p with
  | Some (File content) => inr content
  | Some (Unreadable why) => inl why
  | Some (Unreachable why) => inl why
  | None =>
      inl (Text.of_string "[Errno 2] No such file or directory: '" ++ p
           ++ Text.of_string "'")
  end.

Definition md : str := Text.of_string ".md".

(** Truth value of an [Optional[str]]. *)
Definition given (o : option str) : bool :=
  match o with
  | Some (_ :: _) => true
  | _ => false
  end.

(** [resolve_api_key(cli_key)], with [os.environ.get("ANTHROPIC_API_KEY")]. *)
Definition resolve_api_key (cli_key env_key : option str) : exn + str :=
  if given cli_key then inr (default [] cli_key)
  else if given env_key then inr (default [] env_key)
  else inl (ValueError
              (Text.of_string
                 "No API key provided. Use --api-key option or set ANTHROPIC_API_KEY environment variable")).

(** The test [exists()] is made only for a value that ends with [.md], and
    outside the [try]. *)
Definition process_input (fs : FileSystem) (input_value input_type : str) : exn + str :=
  if Text.endswith md input_value
  then
    match path_exists fs input_value with
    | inl e => inl e
    | inr true =>
        match read_text fs input_value with
        | inr content => inr content
        | inl e =>
            inl (ValueError
                   (Text.of_string "Error reading " ++ input_type
                    ++ Text.of_string " file '" ++ input_value ++ Text.of_string "': " ++ e))
        end
    | inr false => inr input_value
    end
  else inr input_value.

Definition not_found (file_path : str) : exn :=
  ValueError (Text.of_string "Existing file not found: " ++ file_path).

Definition not_markdown (file_path : str) : exn :=
  ValueError (Text.of_string "Existing file must be a .md file: " ++ file_path).

Definition cannot_read (file_path e : str) : exn :=
  ValueError (Text.of_string "Error reading existing file '" ++ file_path
              ++ Text.of_string "': " ++ e).

(** One item of [combined_content]. *)
Definition entry (file_path content : str) : str :=
  Text.of_string "File: " ++ file_path ++ [Text.nl] ++ content.

(** The loop of [process_existing_files]: [combined_content], or the first
    exception. *)
Fixpoint combined_content (fs : FileSystem) (existing_files : list str) : exn + list str :=
  match existing_files with
  | [] => inr []
  | file_path :: rest =>
      match path_exists fs file_path with
      | inl e => inl e
      | inr false => inl (not_found file_path)
      | inr true =>
          if negb (Text.endswith md file_path) then inl (not_markdown file_path)
          else
            match read_text fs file_path with
            | inl e => inl (cannot_read file_path e)
            | inr content =>
                match combined_content fs rest with
                | inl e => inl e
                | inr more => inr (entry file_path content :: more)
                end
            end
      end
  end.

Definition process_existing_files (fs : FileSystem) (existing_files : list str)
  : exn + str :=
  match existing_files with
  | [] => inr []
  | _ =>
      match combined_content fs existing_files with
      | inl e => inl e
      | inr blocks => inr (Text.join [Text.nl; Text.nl] blocks)
      end
  end.

(** The text before the first [sub] in [s]. *)
Fixpoint before (sub s : str) : option str :=
  if Text.startswith sub s then Some []
  else match s with
       | [] => None
       | c :: s' => option_map (cons c) (before sub s')
       end.

(** The text after the first [sub] in [s]. *)
Fixpoint after (sub s : str) : option str :=
  if Text.startswith sub s then Some (drop (length sub) s)
  else match s with
       | [] => None
       | _ :: s' => after sub s'
       end.

Definition open_tag (tag : str) : str :=
  Text.of_string "<" ++ tag ++ Text.of_string ">".

Definition close_tag (tag : str) : str :=
  Text.of_string "</" ++ tag ++ Text.of_string ">".

(** Group 1 of [re.search(r'<tag>(.*?)</tag>', response, re.DOTALL)]. *)
Definition search_section (tag response : str) : option str :=
  match after (open_tag tag) response with
  | Some rest => before (close_tag tag) rest
  | None => None
  end.

(** The components of a path as [pathlib] keeps them: empty components and
    [.] are dropped. *)
Definition components (p : str) : list str :=
  List.filter (fun c => negb (Text.eqb c []) && negb (Text.eqb c (Text.of_string ".")))
    (Text.split 47%N p).

(** [Path(p).name]: the last component. *)
Definition name (p : str) : str := List.last (components p) [].

Definition specs_dir : str := Text.of_string "specs".

(** The root of an absolute path: exactly two leading slashes are kept. *)
Definition root (p : str) : str :=
  if Text.startswith (Text.of_string "//") p && negb (Text.startswith (Text.of_string "///") p)
  then Text.of_string "//"
  else Text.of_string "/".

(** [str(specs_dir / child)]: an absolute [child] replaces [specs_dir]. *)
Definition in_specs (child : str) : str :=
  if Text.startswith (Text.of_string "/") child
  then root child ++ Text.join (Text.of_string "/") (components child)
  else Text.join (Text.of_string "/") (specs_dir :: components child).

(** The calls that [parse_and_save_outputs] makes on the file system and
    the terminal, in order.  A call that raises ends the function: the calls
    made are then the ones up to it. *)
Inductive action :=
| Mkdir (p : str)                     (* mkdir(exist_ok=True) *)
| WriteText (p content : str)
| Print (line : str).

Definition warning_sign : str := [9888%N; 65039%N].

Definition planning_tag : str := Text.of_string "architecture_planning".
Definition design_tag : str := Text.of_string "technical_design_document".
Definition updated_tag : str := Text.of_string "updated_markdown".

Definition save_section (tag suffix missing : str) (response slug : str) : list action :=
  match search_section tag response with
  | Some content => [WriteText (in_specs (slug ++ suffix)) (Text.strip content)]
  | None => [Print (warning_sign ++ missing)]
  end.

Definition save_updates (response : str) (existing_files : option (list str))
  : list action :=
  match search_section updated_tag response, existing_files with
  | Some content, Some (f :: fs) =>
      map (fun existing_file =>
             WriteText (in_specs (Text.of_string "updated_" ++ name existing_file))
                       (Text.strip content))
          (f :: fs)
  | _, _ => []
  end.

Definition parse_and_save_outputs (response slug : str) (existing_files : option (list str))
  : list action :=
  [Mkdir specs_dir]
  ++ save_section planning_tag (Text.of_string "_architecture_planning.md")
       (Text.of_string "  Warning: No architecture planning section found in response")
       response slug
  ++ save_section design_tag (Text.of_string "_technical_design.md")
       (Text.of_string "  Warning: No technical design document section found in response")
       response slug
  ++ save_updates response existing_files.

End Architect.

(** * Vocabulary of the claims *)

(** ** What an event belongs to *)

(** Each method has its own events; printed lines are common to all. *)
Inductive Kind :=
| KPrint       (* a line on stderr or stdout *)
| KCheckout    (* git rev-parse, git worktree add *)
| KConfig      (* files copied or written *)
| KImage       (* podman image exists / inspect *)
| KBuild       (* podman build *)
| KRelease     (* a file unlinked *)
| KStop        (* podman container exists, stop, rm *)
| KRun         (* podman run *)
| KReconcile   (* chdir, git diff / ls-files / add / commit / branch / push *)
| KTeardown    (* git worktree list / remove *)
| KAtexit      (* rmtree *)
| KOther.

Definition Kind_eqb (a b : Kind) : bool :=
  match a, b with
  | KPrint, KPrint | KCheckout, KCheckout | KConfig, KConfig | KImage, KImage
  | KBuild, KBuild | KRelease, KRelease | KStop, KStop | KRun, KRun
  | KReconcile, KReconcile | KTeardown, KTeardown | KAtexit, KAtexit
  | KOther, KOther => true
  | _, _ => false
  end.

Definition git_kind (rest : list string) : Kind :=
  match rest with
  | sub :: rest' =>
      if String.eqb sub "rev-parse" then KCheckout
      else if String.eqb sub "worktree" then
        match rest' with
        | act :: _ =>
            if String.eqb act "add" then KCheckout
            else if String.eqb act "list" || String.eqb act "remove" then KTeardown
            else KOther
        | [] => KOther
        end
      else if String.eqb sub "diff" || String.eqb sub "ls-files" || String.eqb sub "add"
              || String.eqb sub "commit" || String.eqb sub "branch" || String.eqb sub "push"
      then KReconcile
      else KOther
  | [] => KOther
  end.

Definition podman_kind (rest : list string) : Kind :=
  match rest with
  | sub :: _ =>
      if String.eqb sub "image" then KImage
      else if String.eqb sub "build" then KBuild
      else if String.eqb sub "container" || String.eqb sub "stop" || String.eqb sub "rm"
      then KStop
      else if String.eqb sub "run" then KRun
      else KOther
  | [] => KOther
  end.

Definition cmd_kind (cmd : list string) : Kind :=
  match cmd with
  | prog :: rest =>
      if String.eqb prog "git" then git_kind rest
      else if String.eqb prog "podman" then podman_kind rest
      else KOther
  | [] => KOther
  end.

Definition kind (e : Event) : Kind :=
  match e with
  | Spawn cmd _ => cmd_kind cmd
  | Stderr _ | Stdout _ => KPrint
  | Copy _ _ | WriteFile _ => KConfig
  | Unlink _ => KRelease
  | Rmtree _ => KAtexit
  | Chdir _ => KReconcile
  end.

Definition allowed (ks : list Kind) (e : Event) : bool :=
  existsb (Kind_eqb (kind e)) ks.

(** The first [n] words of a command line. *)
Fixpoint starts_with (pre cmd : list string) : bool :=
  match pre, cmd with
  | [], _ => true
  | p :: pre', c :: cmd' => String.eqb p c && starts_with pre' cmd'
  | _ :: _, [] => false
  end.

Definition spawned (pre : list string) (e : Event) : bool :=
  match e with
  | Spawn cmd _ => starts_with pre cmd
  | _ => false
  end.

(** ** What a computation does to the state *)

(** It appends events of the kinds [ks] to the log. *)
Definition acts (ks : list Kind) {A} (m : M A) : Prop :=
  forall s, exists evs,
    trace (snd (m s)) = trace s ++ evs /\ forallb (allowed ks) evs = true.

(** It leaves the worktree attributes alone. *)
Definition keeps {A} (m : M A) : Prop :=
  forall s,
    worktree_path (snd (m s)) = worktree_path s /\
    worktree_created (snd (m s)) = worktree_created s /\
    cleanup_worktree (snd (m s)) = cleanup_worktree s.

Definition kinds_within (ks ks' : list Kind) : bool :=
  forallb (fun k => existsb (Kind_eqb k) ks') ks.

(** It cannot raise. *)
Definition returns {A} (m : M A) : Prop :=
  forall s, exists a, fst (m s) = Ret a.

(** One state comes after another: the log grew by events of the kinds [ks]
    and the worktree attributes are the same. *)
Definition extends (ks : list Kind) (s s' : State) : Prop :=
  (exists evs, trace s' = trace s ++ evs /\ forallb (allowed ks) evs = true) /\
  worktree_path s' = worktree_path s /\
  worktree_created s' = worktree_created s /\
  cleanup_worktree s' = cleanup_worktree s.

(** The whole log is made of events of the kinds [ks]. *)
Definition within (ks : list Kind) (s : State) : Prop :=
  forallb (allowed ks) (trace s) = true.

(** ** The run, in pieces *)

(** The launcher object and the state that [__init__] leaves. *)
Definition launcher_of (h : Host) (dir : string) : Launcher :=
  mkLauncher (script_parent h) (mkdtemp h)
    (Path.join (mkdtemp h) "claude-code-ubuntu.dockerfile")
    (Path.join (mkdtemp h) "claude.template.json")
    "claude-code-ubuntu" "claude-code-dev"
    (getuid h) (getgid h) (default "user" (environ_USER h)) dir.

Definition started (h : Host) (fs : gset string) (dir : string) : State :=
  snd (__init__ h (boot fs dir)).

(** ** Command lines and printed lines that the claims name *)

Definition worktree_add : list string :=
  ["git"; "worktree"; "add"; "-b"; "claude_wt"; "wt_temp/"].

Definition fallback_warning : Event :=
  Stderr (Colors.YELLOW +:+ "Failed to create worktree. Using current directory instead."
          +:+ Colors.NC).

Definition push_warning : Event :=
  Stderr (Colors.YELLOW +:+ "Warning: Failed to push changes to remote" +:+ Colors.NC).

Definition is_push (e : Event) : bool := spawned ["git"; "push"] e.

Definition no_changes_line : Event :=
  Stderr (Colors.BLUE +:+ "No changes detected in worktree" +:+ Colors.NC).

Definition writes_history (e : Event) : bool :=
  spawned ["git"; "add"] e || spawned ["git"; "commit"] e || spawned ["git"; "push"] e.

Definition container_query (self : Launcher) : list string :=
  ["podman"; "container"; "exists"; container_name self].

Definition stopping_line : Event :=
  Stderr (Colors.YELLOW +:+ "Stopping existing container..." +:+ Colors.NC).

Definition entry_command (self : Launcher) (mount_path : string)
    (msg mode : option string) : list string :=
  match msg with
  | Some text =>
      if Str.truthy text
      then run_args self mount_path ++ ["bash"; "-c"; claude_cmd text mode]
      else run_args self mount_path
  | None => run_args self mount_path
  end.

(** The end of [session], from the container on. *)
Definition container_phase (h : Host) (self : Launcher) (args : Args) (mount_path : string)
  : M unit :=
  stop_existing_container h self ;;
  run_container h self mount_path (message args) (permission_mode args) ;;
  print_colored "Container stopped" Colors.GREEN ;;
  handle_worktree_post_processing h.

Definition stopped_line : Event :=
  Stderr (Colors.GREEN +:+ "Container stopped" +:+ Colors.NC).

(** Teardown, then the [atexit] hook. *)
Definition wound_up (h : Host) (self : Launcher) (s s9 : State) : Prop :=
  exists s8 r9,
    cleanup_worktree_if_needed h s = (Ret tt, s8) /\
    _cleanup_temp_dir self s8 = (r9, s9).

Definition worktree_remove : list string := ["git"; "worktree"; "remove"].

(** [cmd] is the [podman run] of the script with [host_dir] mounted on the
    directory of the container, and with no other mount; after the name of
    the image the command may go on. *)
Definition podman_run_on (h : Host) (host_dir : string) (cmd : list string) : Prop :=
  exists tail,
    cmd = ["podman"; "run"; "-it";
           "--name"; "claude-code-dev";
           "--hostname"; "claude-dev";
           "--user"; Str.of_N (getuid h) +:+ ":" +:+ Str.of_N (getgid h);
           "--volume";
           host_dir +:+ ":/home/" +:+ default "user" (environ_USER h) +:+ "/dev:Z";
           "--userns=keep-id";
           "claude-code-ubuntu"] ++ tail /\
    ~ In "--volume" tail.

(** The first line of the session. *)
Definition preparing_line : Event :=
  Stderr (Colors.GREEN +:+ "Preparing Claude configuration files..." +:+ Colors.NC).

(** The first thing that [m] does is [e]. *)
Definition begins {A} (e : Event) (m : M A) : Prop :=
  forall s, exists rest, trace (snd (m s)) = trace s ++ e :: rest.

(** The kinds of events of [session]. *)
Definition session_kinds : list Kind :=
  [KPrint; KConfig; KImage; KBuild; KRelease; KStop; KRun; KReconcile].

(** The reconciler ran: the log has one of its events. *)
Definition reconciled (t : list Event) : bool :=
  existsb (fun e => Kind_eqb (kind e) KReconcile) t.

(** The run committed: the log has a [git commit]. *)
Definition committed (t : list Event) : bool :=
  existsb (spawned ["git"; "commit"]) t.

Definition is_run (e : Event) : Prop := kind e = KRun.

(** The log [pre] ends with the query for the container, then, when the
    query found one, [podman stop] and [podman rm], then printed lines; before
    the query the script has only acquired the checkout, prepared the
    configuration and the image, and released the artifacts. *)
Definition stopped_before (self : Launcher) (pre : list Event) : Prop :=
  exists before q lines,
    forallb (allowed [KPrint]) lines = true /\
    forallb (allowed [KPrint; KCheckout; KConfig; KImage; KBuild; KRelease]) before = true /\
    ((returncode q <> 0 /\
      pre = before ++ Spawn (container_query self) q :: lines)
     \/
     (returncode q = 0 /\
      exists r1 r2,
        pre = before
              ++ [Spawn (container_query self) q;
                  stopping_line;
                  Spawn ["podman"; "stop"; container_name self] r1;
                  Spawn ["podman"; "rm"; container_name self] r2]
              ++ lines)).

(** ** The build decision *)

Definition image_query (self : Launcher) : list string :=
  ["podman"; "image"; "exists"; image_name self].

Definition image_inspect (self : Launcher) : list string :=
  ["podman"; "image"; "inspect"; image_name self; "--format"; "{{.Created}}"].

(** The state after an unchecked [subprocess.run(cmd)]. *)
Definition after (h : Host) (s : State) (cmd : list string) : State :=
  log (Spawn cmd (fst (subprocess h s cmd))) (set_files (snd (subprocess h s cmd)) s).

Definition image_exists (h : Host) (self : Launcher) (s : State) : bool :=
  returncode (fst (subprocess h s (image_query self))) =? 0.

Definition image_inspected (h : Host) (self : Launcher) (s : State) : bool :=
  returncode (fst (subprocess h (after h s (image_query self)) (image_inspect self))) =? 0.

Definition recipe_present (h : Host) (self : Launcher) (s : State) : bool :=
  let s2 := after h (after h s (image_query self)) (image_inspect self) in
  exists_on (files s2) (pwd s2) (dockerfile self).

(** The policy in the words of the specification; the two times are facts
    of the world that the script never reads. *)
Record Stamps := mkStamps {
  recipe_mtime : Z;      (* last modification of the build recipe *)
  last_build : Z         (* the last-known-build marker *)
}.

Definition spec_should_build (forceRebuild exists_ present : bool) (t : Stamps) : bool :=
  forceRebuild || negb exists_ || (present && (last_build t <? recipe_mtime t)).

(** What [should_build_image] answers, from what the host says. *)
Definition build_policy (h : Host) (self : Launcher) (nc : bool) (s : State) : bool :=
  nc || negb (image_exists h self s)
  || (image_inspected h self s && recipe_present h self s).

(** ** Concrete hosts *)

(** A host that answers by the first words of the command line: the first
    rule whose words start the command gives the exit status and the output
    (status 0 and no output without a rule), and a command that succeeds
    creates the paths of the rules of [creates] that match it. *)
Record Script := mkScript {
  answers : list (list string * (Z * string));
  creates : list (list string * string)
}.

Fixpoint answer_of (rules : list (list string * (Z * string))) (cmd : list string)
  : Z * string :=
  match rules with
  | [] => (0, EmptyString)
  | (pre, a) :: rest => if starts_with pre cmd then a else answer_of rest cmd
  end.

Fixpoint created_by (rules : list (list string * string)) (cmd : list string)
  : gset string :=
  match rules with
  | [] => ∅
  | (pre, p) :: rest =>
      if starts_with pre cmd then {[ p ]} ∪ created_by rest cmd else created_by rest cmd
  end.

Definition scripted (sc : Script) : Host :=
  mkHost "/home/dev" "/opt/adi" "/tmp/tmpadi" 1000 1000 (Some "dev")
    (fun _ => "2025-06-01 12:00:00")
    (fun s cmd =>
       let a := answer_of (answers sc) cmd in
       (mkCompleted (fst a) (snd a),
        if fst a =? 0 then created_by (creates sc) cmd ∪ files s else files s))
    (fun _ _ _ => Copied)
    (fun _ p => if String.eqb p "/home/dev/.claude.json"
                then Loaded (JDict [("userID", JStr "u-42")])
                else Loaded TEMPLATE_CONTENT)
    (fun _ _ _ => Dumped).

(** A repository in [/repo], the profile of the user in place. *)
Definition home_files : gset string :=
  {[ "/home/dev/.claude/.credentials.json"; "/home/dev/.claude.json"; "/repo" ]}.

Definition plain_args : Args := mkArgs None false None None false false None.

(** git puts the new working tree where the command line says. *)
Definition git_creates : list (list string * string) :=
  [(["git"; "worktree"; "add"], "/repo/wt_temp")].

Definition no_image : list (list string * (Z * string)) :=
  [(["podman"; "image"; "exists"], (1, EmptyString))].

Definition build_fails : Script :=
  mkScript (no_image ++ [(["podman"; "build"], (125, EmptyString))]) git_creates.

Definition build_succeeds : Script := mkScript no_image git_creates.

Definition is_unlink (e : Event) : bool :=
  match e with Unlink _ => true | _ => false end.

Definition feature_args : Args :=
  mkArgs None false None (Some "feature/login") false false None.

Definition mentions (word : string) (e : Event) : bool :=
  match e with
  | Spawn cmd _ => existsb (String.eqb word) cmd
  | _ => false
  end.

Definition is_worktree_add_ok (e : Event) : bool :=
  match e with
  | Spawn cmd r => starts_with worktree_add cmd && (returncode r =? 0)
  | _ => false
  end.

Definition image_ready : Script := mkScript [] git_creates.

Definition nl : string := String (ascii_of_nat 10) EmptyString.

(** A directory [claude_wt] is in the repository. *)
Definition repo_files : gset string := {[ "/repo/claude_wt" ]} ∪ home_files.

(** Changes in the checkout, no remote to push to, and [claude_wt] listed
    among the working trees. *)
Definition pushes_fail : Script :=
  mkScript [(["git"; "diff"], (1, EmptyString));
            (["git"; "branch"], (0, "claude_wt" +:+ nl));
            (["git"; "push"], (1, EmptyString));
            (["git"; "worktree"; "list"], (0, "worktree /repo/claude_wt" +:+ nl))]
           git_creates.

Definition add_fails : Script :=
  mkScript [(["git"; "worktree"; "add"], (128, EmptyString))] git_creates.

Definition no_container : Script :=
  mkScript [(["podman"; "container"; "exists"], (1, EmptyString))] git_creates.

Definition message_args : Args :=
  mkArgs (Some "fix the bug") false None None false false None.

Definition mode_args : Args :=
  mkArgs (Some "fix the bug") false (Some "plan") None false false None.

Definition keep_args : Args := mkArgs None false None None true false None.

Definition override_args : Args :=
  mkArgs None false None None false false (Some "/repo/claude_wt").

Definition ok : CompletedProcess := mkCompleted 0 EmptyString.

Definition failed : CompletedProcess := mkCompleted 1 EmptyString.

(** [claude_wt] is listed among the working trees of the repository. *)
Definition claude_wt_listed : Script :=
  mkScript [(["git"; "worktree"; "list"], (0, "worktree /repo/claude_wt" +:+ nl))]
           git_creates.

(** The host [h] on which a [git worktree remove <path> --force] that
    succeeds removes the tree at the path. *)
Definition git_removes (h : Host) : Host :=
  mkHost (home h) (script_parent h) (mkdtemp h) (getuid h) (getgid h) (environ_USER h)
    (strftime h)
    (fun s cmd =>
       let out := subprocess h s cmd in
       if starts_with ["git"; "worktree"; "remove"] cmd && (returncode (fst out) =? 0)
       then (fst out, filter (fun q => under (nth 3 cmd EmptyString) q = false) (snd out))
       else out)
    (copy2_answer h) (json_load h) (json_dump h).

Definition is_worktree_remove (e : Event) : bool :=
  match e with
  | Spawn cmd _ => starts_with ["git"; "worktree"; "remove"] cmd
  | _ => false
  end.

(** ** The exit status *)

(** A step of the reconciler that is run with [check=True] and failed. *)
Definition commit_step_failed (e : Event) : bool :=
  match e with
  | Spawn cmd r =>
      (starts_with ["git"; "add"] cmd || starts_with ["git"; "commit"] cmd
       || starts_with ["git"; "branch"] cmd)
      && negb (returncode r =? 0)
  | _ => false
  end.


(** ** The order of the phases *)

(** The rank of a phase of [run]; printed lines belong to no phase. *)
Definition phase (k : Kind) : nat :=
  match k with
  | KPrint | KOther => 0
  | KCheckout => 1
  | KConfig => 2
  | KImage => 3
  | KBuild => 4
  | KRelease => 5
  | KStop => 6
  | KRun => 7
  | KReconcile => 8
  | KTeardown => 9
  | KAtexit => 10
  end%nat.

(** The events of [t] other than printed lines go through phases of
    non-decreasing rank, from [lo] at least to [hi] at most. *)
Fixpoint between (lo hi : nat) (t : list Event) : bool :=
  match t with
  | [] => true
  | e :: t' =>
      if Kind_eqb (kind e) KPrint then between lo hi t'
      else (lo <=? phase (kind e))%nat && (phase (kind e) <=? hi)%nat
           && between (phase (kind e)) hi t'
  end.

(** A computation appends events in phase order. *)
Definition ordered (lo hi : nat) {A} (m : M A) : Prop :=
  forall s, exists evs, trace (snd (m s)) = trace s ++ evs /\ between lo hi evs = true.

(** ** What the launcher touches *)

(** A computation appends events that satisfy [P]. *)
Definition emits (P : Event -> bool) {A} (m : M A) : Prop :=
  forall s, exists evs, trace (snd (m s)) = trace s ++ evs /\ forallb P evs = true.

(** [~/.claude/.credentials.json]. *)
Definition credentials_src (h : Host) : string :=
  Path.join (Path.join (home h) ".claude") ".credentials.json".

(** The two artifacts in the build context. *)
Definition credentials_dest (self : Launcher) : string :=
  Path.join (script_dir self) ".credentials.json".

Definition config_dest (self : Launcher) : string :=
  Path.join (script_dir self) ".claude.json".

(** The profile of the user. *)
Definition user_config (h : Host) : string := Path.join (home h) ".claude.json".

(** What the launcher may do to the outside world: print, spawn [git] and
    [podman], change directory, and touch the files that are its own (the
    two extracted files and their directory, the two artifacts in the build
    context). *)
Definition own (h : Host) (self : Launcher) (e : Event) : bool :=
  match e with
  | Stderr _ | Stdout _ | Chdir _ => true
  | Spawn cmd _ =>
      match cmd with
      | prog :: _ => String.eqb prog "git" || String.eqb prog "podman"
      | [] => false
      end
  | Copy src dst =>
      String.eqb src (credentials_src h) && String.eqb dst (credentials_dest self)
  | WriteFile p =>
      String.eqb p (dockerfile self) || String.eqb p (template_file self)
      || String.eqb p (config_dest self)
  | Unlink p => String.eqb p (credentials_dest self) || String.eqb p (config_dest self)
  | Rmtree p => String.eqb p (temp_dir self)
  end.

(** A computation leaves an absolute process directory as it found it. *)
Definition stays {A} (m : M A) : Prop :=
  forall s, Path.is_absolute (pwd s) = true -> pwd (snd (m s)) = pwd s.

(** ** The directory that is mounted *)

(** The directory that [run] mounts without asking git: the current one
    with [--no-worktree]; else the path of [--worktree-path], when it
    exists. *)
Definition given_mount (args : Args) (fs : gset string) (dir : string) : option string :=
  if no_worktree args then Some dir
  else match arg_worktree_path args with
       | Some p => if exists_on fs dir p then Some p else None
       | None => None
       end.

Definition rev_parse : list string := ["git"; "rev-parse"; "--git-dir"].

Definition banner : Event :=
  Stderr (Colors.BLUE +:+ "Claude Code Container Launcher" +:+ Colors.NC).

Definition not_a_repository : Event :=
  Stderr (Colors.YELLOW
          +:+ "Error: Not in a git repository. Worktree requires a git repository."
          +:+ Colors.NC).

(** The command line without [--worktree-path]. *)
Definition without_worktree_path (args : Args) : Args :=
  mkArgs (message args) (no_cache args) (permission_mode args) (worktree_branch args)
         (keep_worktree args) (no_worktree args) None.

Definition worktree_list : list string := ["git"; "worktree"; "list"; "--porcelain"].

(** The path that [create_worktree] records. *)
Definition claude_wt (dir : string) : string := Path.join dir "claude_wt".

Definition forced_removal (dir : string) : list string :=
  ["git"; "worktree"; "remove"; claude_wt dir; "--force"].

(** ** The profile update *)

(** Where the container has the mounted directory. *)
Definition container_dir (user_name : string) : string :=
  "/home/" +:+ user_name +:+ "/dev".

(** The items of [projects] with their keys rewritten, in the order of the
    template. *)
Definition renamed (user_name : string) (projects : list (string * Json))
  : list (string * Json) :=
  map (fun kv => (replace "$USER_NAME" user_name (fst kv), snd kv)) projects.

(** ** More concrete hosts *)

(** [git rev-parse] fails: the directory is not in a repository. *)
Definition outside_repository : Script :=
  mkScript [(["git"; "rev-parse"], (128, EmptyString))] git_creates.

(** Changes in the checkout, and [git commit] fails. *)
Definition commit_fails : Script :=
  mkScript [(["git"; "diff"], (1, EmptyString));
            (["git"; "commit"], (1, EmptyString));
            (["git"; "worktree"; "list"], (0, "worktree /repo/claude_wt" +:+ nl))]
           git_creates.

Definition no_worktree_args : Args := mkArgs None false None None false true None.

Definition missing_path_args : Args :=
  mkArgs None false None None false false (Some "/nowhere").

(** A profile with an empty [userID] and an older [userId]. *)
Definition old_profile : Json :=
  JDict [("userID", JStr ""); ("userId", JStr "u-42"); ("numStartups", JInt 7)].

(** The host [h] with another profile of the user. *)
Definition with_profile (v : Json) (h : Host) : Host :=
  mkHost (home h) (script_parent h) (mkdtemp h) (getuid h) (getgid h) (environ_USER h)
    (strftime h) (subprocess h) (copy2_answer h)
    (fun s p => if String.eqb p (user_config h) then Loaded v else json_load h s p)
    (json_dump h).

(** The command line with another [--permission-mode]. *)
Definition with_permission_mode (mode : option string) (args : Args) : Args :=
  mkArgs (message args) (no_cache args) mode (worktree_branch args)
         (keep_worktree args) (no_worktree args) (arg_worktree_path args).

(** ** Lines of build_standalone.py *)

(** The number of lines of [l] that are [x]. *)
Definition occurrences (x : str) (l : list str) : nat :=
  length (List.filter (Text.eqb x) l).

(** A line that opens [__init__]. *)
Definition opens_init (line : str) : bool :=
  Text.eqb (Text.strip line) Standalone.init_line.

(** A line that opens the class. *)
Definition opens_class (line : str) : bool :=
  Text.eqb (Text.strip line) Standalone.class_line.

(** The text has no carriage return. *)
Definition no_cr (s : str) : bool := forallb (fun c => negb (c =? 13)%N) s.

(** ** Sections of a response (architect.py) *)

(** [sub] stands in [s] after [pre] and before [post], and nowhere
    earlier. *)
Definition first_at (sub pre post s : str) : Prop :=
  s = pre ++ sub ++ post /\
  forall pre' post', s = pre' ++ sub ++ post' -> (length pre <= length pre')%nat.

(** The paths that a list of calls writes to. *)
Definition written (calls : list Architect.action) : list str :=
  flat_map (fun a => match a with Architect.WriteText p _ => [p] | _ => [] end) calls.

(** The files directly under [specs]. *)
Definition directly_in_specs (p : str) : Prop :=
  exists file, p = Text.of_string "specs/" ++ file /\ file <> [] /\ 47%N ∉ file.

(** ** Inputs of the examples for the two scripts *)

Definition plain_source : str :=
  Text.of_string "import os" ++ [Text.nl] ++ Text.of_string "print(os.getcwd())" ++ [Text.nl].

Definition class_source : str :=
  Text.of_string "import os" ++ [Text.nl] ++ Standalone.class_line ++ [Text.nl]
  ++ Text.of_string "    pass".

Definition sample_dockerfile : str := Text.of_string "FROM ubuntu:22.04".

Definition sample_template : str := Text.of_string "{}".

(** A source with [CR LF] line ends. *)
Definition crlf_source : str :=
  Text.of_string "import os" ++ [13%N; 10%N] ++ Standalone.class_line ++ [13%N; 10%N]
  ++ Text.of_string "    pass".

Definition sample_world : Standalone.World :=
  Standalone.mkWorld
    (<[ Standalone.source_script := Standalone.Chars crlf_source ]>
       (<[ Standalone.dockerfile := Standalone.Chars sample_dockerfile ]>
          (<[ Standalone.template_file := Standalone.Chars sample_template ]> ∅)))
    ∅ ∅ [].

Definition notes : str := Text.of_string "notes.md".

(** A description that is too long to be the name of a file. *)
Definition long_description : str :=
  Text.of_string "a dashboard for " ++ repeat 120%N 300 ++ Text.of_string " in docs.md".

Definition name_too_long : str := Text.of_string "[Errno 36] File name too long".

Definition sample_response : str :=
  Text.of_string "<architecture_planning> plan </architecture_planning><updated_markdown>new</updated_markdown>".

Definition sample_existing : option (list str) :=
  Some [Text.of_string "../docs/api.md"; Text.of_string "old/api.md"].

(** * Reasoning about the log *)

(** ** Computations only append to the log *)

Section Structure.

Context (ks : list Kind).

Lemma acts_ret {A} (a : A) : acts ks (ret a).
Proof. intros s. exists []. simpl. rewrite app_nil_r. auto. Qed.

Lemma acts_raise {A} (e : exn) : acts ks (@raise A e).
Proof. intros s. exists []. simpl. rewrite app_nil_r. auto. Qed.

Lemma acts_get {A} (f : State -> A) : acts ks (get f).
Proof. intros s. exists []. simpl. rewrite app_nil_r. auto. Qed.

Lemma acts_bind {A B} (m : M A) (k : A -> M B) :
  acts ks m -> (forall a, acts ks (k a)) -> acts ks (bind m k).
Proof.
  intros Hm Hk s. unfold bind.
  destruct (Hm s) as (e1 & H1 & F1).
  destruct (m s) as [[a | e] s1]; simpl in *.
  - destruct (Hk a s1) as (e2 & H2 & F2).
    exists (e1 ++ e2). rewrite H2, H1, app_assoc. split; [done|].
    rewrite forallb_app, F1, F2. done.
  - exists e1. auto.
Qed.

Lemma acts_try_finally {A} (m : M A) (fin : M unit) :
  acts ks m -> acts ks fin -> acts ks (try_finally m fin).
Proof.
  intros Hm Hf s. unfold try_finally.
  destruct (Hm s) as (e1 & H1 & F1).
  destruct (m s) as [r s1]; simpl in *.
  destruct (Hf s1) as (e2 & H2 & F2).
  exists (e1 ++ e2).
  destruct (fin s1) as [[u | e] s2]; simpl in *;
    (rewrite H2, H1, app_assoc; split; [done|]; rewrite forallb_app, F1, F2; done).
Qed.

Lemma acts_try_except_cpe {A} (m handler : M A) :
  acts ks m -> acts ks handler -> acts ks (try_except_cpe m handler).
Proof.
  intros Hm Hh s. unfold try_except_cpe.
  destruct (Hm s) as (e1 & H1 & F1).
  destruct (m s) as [[a | [code | rc cmd | name]] s1]; simpl in *; eauto.
  destruct (Hh s1) as (e2 & H2 & F2).
  exists (e1 ++ e2). rewrite H2, H1, app_assoc. split; [done|].
  rewrite forallb_app, F1, F2. done.
Qed.

Lemma acts_when (b : bool) (m : M unit) : acts ks m -> acts ks (when b m).
Proof. destruct b; simpl; [auto | apply acts_ret]. Qed.

Lemma acts_emit (e : Event) : allowed ks e = true -> acts ks (emit e).
Proof. intros He s. exists [e]. simpl. rewrite He. auto. Qed.

Lemma acts_quiet (f : State -> State) :
  (forall s, trace (f s) = trace s) -> acts ks (modify f).
Proof. intros Hf s. exists []. simpl. rewrite app_nil_r, Hf. auto. Qed.

Lemma acts_subprocess_run (h : Host) (check : bool) (cmd : list string) :
  (forall r, allowed ks (Spawn cmd r) = true) -> acts ks (subprocess_run h check cmd).
Proof.
  intros Hc s. exists [Spawn cmd (fst (subprocess h s cmd))].
  unfold subprocess_run. simpl.
  destruct (check && _); simpl; rewrite Hc; auto.
Qed.

Lemma acts_for_each {A} (xs : list A) (body : A -> M unit) :
  (forall x, acts ks (body x)) -> acts ks (for_each xs body).
Proof.
  intros Hb. induction xs as [| x xs IH]; simpl.
  - apply acts_ret.
  - apply acts_bind; auto.
Qed.

End Structure.

Section Frame.

Lemma keeps_ret {A} (a : A) : keeps (ret a).
Proof. intros s. auto. Qed.

Lemma keeps_raise {A} (e : exn) : keeps (@raise A e).
Proof. intros s. auto. Qed.

Lemma keeps_get {A} (f : State -> A) : keeps (get f).
Proof. intros s. auto. Qed.

Lemma keeps_bind {A B} (m : M A) (k : A -> M B) :
  keeps m -> (forall a, keeps (k a)) -> keeps (bind m k).
Proof.
  intros Hm Hk s. unfold bind.
  destruct (Hm s) as (P1 & C1 & L1).
  destruct (m s) as [[a | e] s1]; simpl in *; [| auto].
  destruct (Hk a s1) as (P2 & C2 & L2).
  rewrite P2, C2, L2. auto.
Qed.

Lemma keeps_try_finally {A} (m : M A) (fin : M unit) :
  keeps m -> keeps fin -> keeps (try_finally m fin).
Proof.
  intros Hm Hf s. unfold try_finally.
  destruct (Hm s) as (P1 & C1 & L1).
  destruct (m s) as [r s1]; simpl in *.
  destruct (Hf s1) as (P2 & C2 & L2).
  destruct (fin s1) as [[u | e] s2]; simpl in *; rewrite P2, C2, L2; auto.
Qed.

Lemma keeps_try_except_cpe {A} (m handler : M A) :
  keeps m -> keeps handler -> keeps (try_except_cpe m handler).
Proof.
  intros Hm Hh s. unfold try_except_cpe.
  destruct (Hm s) as (P1 & C1 & L1).
  destruct (m s) as [[a | [code | rc cmd | name]] s1]; simpl in *; auto.
  destruct (Hh s1) as (P2 & C2 & L2).
  rewrite P2, C2, L2. auto.
Qed.

Lemma keeps_when (b : bool) (m : M unit) : keeps m -> keeps (when b m).
Proof. destruct b; simpl; [auto | apply keeps_ret]. Qed.

Lemma keeps_emit (e : Event) : keeps (emit e).
Proof. intros s. auto. Qed.

Lemma keeps_quiet (f : State -> State) :
  (forall s, worktree_path (f s) = worktree_path s /\
             worktree_created (f s) = worktree_created s /\
             cleanup_worktree (f s) = cleanup_worktree s) ->
  keeps (modify f).
Proof. intros Hf s. apply Hf. Qed.

Lemma keeps_subprocess_run (h : Host) (check : bool) (cmd : list string) :
  keeps (subprocess_run h check cmd).
Proof. intros s. unfold subprocess_run. destruct (check && _); simpl; auto. Qed.

Lemma keeps_for_each {A} (xs : list A) (body : A -> M unit) :
  (forall x, keeps (body x)) -> keeps (for_each xs body).
Proof.
  intros Hb. induction xs as [| x xs IH]; simpl.
  - apply keeps_ret.
  - apply keeps_bind; auto.
Qed.

End Frame.

Lemma Kind_eqb_eq (a b : Kind) : Kind_eqb a b = true -> a = b.
Proof. destruct a, b; simpl; congruence. Qed.

Lemma allowed_within (ks ks' : list Kind) (e : Event) :
  kinds_within ks ks' = true -> allowed ks e = true -> allowed ks' e = true.
Proof.
  unfold kinds_within, allowed. intros Hs He.
  apply existsb_exists in He. destruct He as (k & Hk & Ek).
  apply Kind_eqb_eq in Ek. subst k.
  rewrite forallb_forall in Hs. apply (Hs _ Hk).
Qed.

Lemma acts_sub (ks ks' : list Kind) {A} (m : M A) :
  acts ks m -> kinds_within ks ks' = true -> acts ks' m.
Proof.
  intros Hm Hs s. destruct (Hm s) as (evs & Ht & Hf).
  exists evs. split; [done|].
  rewrite forallb_forall in *. intros e He.
  eapply allowed_within; eauto.
Qed.

Create HintDb acts_db.
Create HintDb keeps_db.

Ltac acts_step :=
  first
    [ solve [ eapply acts_sub; [ solve [eauto with acts_db nocore] | reflexivity ] ]
    | apply acts_ret | apply acts_raise | apply acts_get
    | apply acts_bind; [ | intro ]
    | apply acts_try_finally | apply acts_try_except_cpe
    | apply acts_when
    | apply acts_for_each; intro
    | apply acts_emit; reflexivity
    | apply acts_quiet; intro; reflexivity
    | apply acts_subprocess_run; intro; reflexivity
    | match goal with
      | |- acts _ (if ?b then _ else _) => destruct b
      | |- acts _ (match ?o with _ => _ end) => destruct o
      end ].

Ltac solve_acts := repeat acts_step.

Ltac keeps_step :=
  first
    [ solve [ eauto with keeps_db nocore ]
    | apply keeps_ret | apply keeps_raise | apply keeps_get
    | apply keeps_bind; [ | intro ]
    | apply keeps_try_finally | apply keeps_try_except_cpe
    | apply keeps_when
    | apply keeps_for_each; intro
    | apply keeps_emit
    | apply keeps_quiet; intro; simpl; tauto
    | apply keeps_subprocess_run
    | match goal with
      | |- keeps (if ?b then _ else _) => destruct b
      | |- keeps (match ?o with _ => _ end) => destruct o
      end ].

Ltac solve_keeps := repeat keeps_step.

(** ** The primitives *)

Lemma acts_print_colored (message color : string) :
  acts [KPrint] (print_colored message color).
Proof. unfold print_colored. solve_acts. Qed.

Lemma acts_print (line : string) : acts [KPrint] (print line).
Proof. unfold print. solve_acts. Qed.

Lemma acts_sys_exit {A} (code : Z) : acts [] (@sys_exit A code).
Proof. unfold sys_exit. solve_acts. Qed.

Lemma acts_path_exists (p : string) : acts [] (path_exists p).
Proof. unfold path_exists. solve_acts. Qed.

Lemma acts_copy2 (h : Host) (src dst : string) : acts [KConfig] (copy2 h src dst).
Proof. unfold copy2. solve_acts. Qed.

Lemma acts_write_file (p : string) : acts [KConfig] (write_file p).
Proof. unfold write_file. solve_acts. Qed.

Lemma acts_unlink (p : string) : acts [KRelease] (unlink p).
Proof. unfold unlink. solve_acts. Qed.

Lemma acts_rmtree (p : string) : acts [KAtexit] (rmtree p).
Proof. unfold rmtree. solve_acts. Qed.

Lemma acts_chdir (p : string) : acts [KReconcile] (chdir p).
Proof. unfold chdir. solve_acts. Qed.

#[global] Hint Resolve acts_print_colored acts_print acts_sys_exit acts_path_exists
  acts_copy2 acts_write_file acts_unlink acts_rmtree acts_chdir : acts_db.

Lemma keeps_print_colored (message color : string) : keeps (print_colored message color).
Proof. unfold print_colored. solve_keeps. Qed.

Lemma keeps_print (line : string) : keeps (print line).
Proof. unfold print. solve_keeps. Qed.

Lemma keeps_sys_exit {A} (code : Z) : keeps (@sys_exit A code).
Proof. unfold sys_exit. solve_keeps. Qed.

Lemma keeps_path_exists (p : string) : keeps (path_exists p).
Proof. unfold path_exists. solve_keeps. Qed.

Lemma keeps_copy2 (h : Host) (src dst : string) : keeps (copy2 h src dst).
Proof. unfold copy2. solve_keeps. Qed.

Lemma keeps_write_file (p : string) : keeps (write_file p).
Proof. unfold write_file. solve_keeps. Qed.

Lemma keeps_unlink (p : string) : keeps (unlink p).
Proof. unfold unlink. solve_keeps. Qed.

Lemma keeps_rmtree (p : string) : keeps (rmtree p).
Proof. unfold rmtree. solve_keeps. Qed.

Lemma keeps_chdir (p : string) : keeps (chdir p).
Proof. unfold chdir. solve_keeps. Qed.

#[global] Hint Resolve keeps_print_colored keeps_print keeps_sys_exit keeps_path_exists
  keeps_copy2 keeps_write_file keeps_unlink keeps_rmtree keeps_chdir : keeps_db.

(** ** The methods, phase by phase *)

Section Phases.

Variable h : Host.
Variable self : Launcher.

Lemma acts_is_git_repo : acts [KCheckout] (is_git_repo h).
Proof. unfold is_git_repo. solve_acts. Qed.

Lemma acts_create_worktree (ref : string) :
  acts [KPrint; KCheckout] (create_worktree h self ref).
Proof. pose proof acts_is_git_repo. unfold create_worktree. solve_acts. Qed.

Lemma acts_cleanup_worktree_if_needed :
  acts [KPrint; KTeardown] (cleanup_worktree_if_needed h).
Proof. unfold cleanup_worktree_if_needed. solve_acts. Qed.

Lemma acts_prepare_claude_config :
  acts [KPrint; KConfig] (prepare_claude_config h self).
Proof. unfold prepare_claude_config. solve_acts. Qed.

Lemma acts_should_build_image (nc : bool) :
  acts [KImage] (should_build_image h self nc).
Proof. unfold should_build_image. solve_acts. Qed.

Lemma acts_build_image (nc : bool) : acts [KPrint; KBuild] (build_image h self nc).
Proof. unfold build_image. solve_acts. Qed.

Lemma acts_cleanup_temp_files : acts [KPrint; KRelease] (cleanup_temp_files self).
Proof. unfold cleanup_temp_files. solve_acts. Qed.

Lemma acts_stop_existing_container :
  acts [KPrint; KStop] (stop_existing_container h self).
Proof. unfold stop_existing_container. solve_acts. Qed.

Lemma acts_run_container (mount_path : string) (msg mode : option string) :
  acts [KPrint; KRun] (run_container h self mount_path msg mode).
Proof. unfold run_container. solve_acts. Qed.

Lemma acts_push_changes (branch : string) :
  acts [KPrint; KReconcile] (push_changes h branch).
Proof. unfold push_changes. solve_acts. Qed.

Lemma acts_detect_changes : acts [KReconcile] (detect_changes h).
Proof. unfold detect_changes. solve_acts. Qed.

Lemma acts_commit_and_push : acts [KPrint; KReconcile] (commit_and_push h).
Proof. pose proof acts_push_changes. unfold commit_and_push. solve_acts. Qed.

Lemma acts_handle_worktree_post_processing :
  acts [KPrint; KReconcile] (handle_worktree_post_processing h).
Proof.
  pose proof acts_detect_changes. pose proof acts_commit_and_push.
  unfold handle_worktree_post_processing. solve_acts.
Qed.

Lemma acts__cleanup_temp_dir : acts [KAtexit] (_cleanup_temp_dir self).
Proof. unfold _cleanup_temp_dir. solve_acts. Qed.

End Phases.

#[global] Hint Resolve acts_is_git_repo acts_create_worktree
  acts_cleanup_worktree_if_needed acts_prepare_claude_config acts_should_build_image
  acts_build_image acts_cleanup_temp_files acts_stop_existing_container
  acts_run_container acts_push_changes acts_detect_changes acts_commit_and_push
  acts_handle_worktree_post_processing acts__cleanup_temp_dir : acts_db.

Section PhasesFrame.

Variable h : Host.
Variable self : Launcher.

Lemma keeps_is_git_repo : keeps (is_git_repo h).
Proof. unfold is_git_repo. solve_keeps. Qed.

Lemma keeps_cleanup_worktree_if_needed : keeps (cleanup_worktree_if_needed h).
Proof. unfold cleanup_worktree_if_needed. solve_keeps. Qed.

Lemma keeps_prepare_claude_config : keeps (prepare_claude_config h self).
Proof. unfold prepare_claude_config. solve_keeps. Qed.

Lemma keeps_should_build_image (nc : bool) : keeps (should_build_image h self nc).
Proof. unfold should_build_image. solve_keeps. Qed.

Lemma keeps_build_image (nc : bool) : keeps (build_image h self nc).
Proof. unfold build_image. solve_keeps. Qed.

Lemma keeps_cleanup_temp_files : keeps (cleanup_temp_files self).
Proof. unfold cleanup_temp_files. solve_keeps. Qed.

Lemma keeps_stop_existing_container : keeps (stop_existing_container h self).
Proof. unfold stop_existing_container. solve_keeps. Qed.

Lemma keeps_run_container (mount_path : string) (msg mode : option string) :
  keeps (run_container h self mount_path msg mode).
Proof. unfold run_container. solve_keeps. Qed.

Lemma keeps_handle_worktree_post_processing :
  keeps (handle_worktree_post_processing h).
Proof.
  unfold handle_worktree_post_processing, detect_changes, commit_and_push, push_changes.
  solve_keeps.
Qed.

Lemma keeps__cleanup_temp_dir : keeps (_cleanup_temp_dir self).
Proof. unfold _cleanup_temp_dir. solve_keeps. Qed.

End PhasesFrame.

#[global] Hint Resolve keeps_is_git_repo keeps_cleanup_worktree_if_needed
  keeps_prepare_claude_config keeps_should_build_image keeps_build_image
  keeps_cleanup_temp_files keeps_stop_existing_container keeps_run_container
  keeps_handle_worktree_post_processing keeps__cleanup_temp_dir : keeps_db.

(** ** Computations that cannot raise *)

Lemma returns_ret {A} (a : A) : returns (ret a).
Proof. intros s. eauto. Qed.

Lemma returns_get {A} (f : State -> A) : returns (get f).
Proof. intros s. simpl. eauto. Qed.

Lemma returns_modify (f : State -> State) : returns (modify f).
Proof. intros s. simpl. eauto. Qed.

Lemma returns_bind {A B} (m : M A) (k : A -> M B) :
  returns m -> (forall a, returns (k a)) -> returns (bind m k).
Proof.
  intros Hm Hk s. unfold bind. destruct (Hm s) as (a & Ha).
  destruct (m s) as [r s1]. simpl in Ha. subst r. apply Hk.
Qed.

Lemma returns_when (b : bool) (m : M unit) : returns m -> returns (when b m).
Proof. destruct b; simpl; [auto | intros _; apply returns_ret]. Qed.

Lemma returns_try_except_cpe {A} (m handler : M A) :
  returns m -> returns (try_except_cpe m handler).
Proof.
  intros Hm s. unfold try_except_cpe. destruct (Hm s) as (a & Ha).
  destruct (m s) as [r s1]. simpl in Ha. subst r. simpl. eauto.
Qed.

Lemma returns_unchecked (h : Host) (cmd : list string) :
  returns (subprocess_run h false cmd).
Proof. intros s. unfold subprocess_run. simpl. eauto. Qed.

Lemma returns_for_each {A} (xs : list A) (body : A -> M unit) :
  (forall x, returns (body x)) -> returns (for_each xs body).
Proof.
  intros Hb. induction xs as [| x xs IH]; simpl.
  - apply returns_ret.
  - apply returns_bind; auto.
Qed.

Ltac returns_step :=
  first
    [ apply returns_ret | apply returns_get | apply returns_modify
    | apply returns_bind; [ | intro ]
    | apply returns_when
    | apply returns_try_except_cpe
    | apply returns_unchecked
    | apply returns_for_each; intro
    | match goal with
      | |- returns (if ?b then _ else _) => destruct b
      | |- returns (match ?o with _ => _ end) => destruct o
      end ].

Ltac solve_returns := repeat returns_step.

Section PhasesReturn.

Variable h : Host.
Variable self : Launcher.

Lemma returns_cleanup_worktree_if_needed : returns (cleanup_worktree_if_needed h).
Proof. unfold cleanup_worktree_if_needed, print_colored, emit. solve_returns. Qed.

Lemma returns_should_build_image (nc : bool) : returns (should_build_image h self nc).
Proof. unfold should_build_image, path_exists. solve_returns. Qed.

Lemma returns_cleanup_temp_files : returns (cleanup_temp_files self).
Proof.
  unfold cleanup_temp_files, print_colored, path_exists, unlink, emit. solve_returns.
Qed.

Lemma returns_stop_existing_container : returns (stop_existing_container h self).
Proof. unfold stop_existing_container, print_colored, emit. solve_returns. Qed.

Lemma returns_run_container (mount_path : string) (msg mode : option string) :
  returns (run_container h self mount_path msg mode).
Proof. unfold run_container, print_colored, print, emit. solve_returns. Qed.

Lemma returns__cleanup_temp_dir : returns (_cleanup_temp_dir self).
Proof. unfold _cleanup_temp_dir, path_exists, rmtree, emit. solve_returns. Qed.

End PhasesReturn.

(** ** Running a method on a symbolic state *)

Ltac unfold_py :=
  unfold bind, try_finally, try_except_cpe, when, get, modify, emit, ret, raise,
    sys_exit, print_colored, print, chdir, path_exists, subprocess_run in *.

(** Name the next answer of the host. *)
Ltac answer h :=
  match goal with
  | |- context [subprocess h ?st ?c] =>
      lazymatch st with
      | context [subprocess] => fail
      | _ =>
          let r := fresh "r" in
          let fs := fresh "fs" in
          let E := fresh "E" in
          destruct (subprocess h st c) as [r fs] eqn:E; simpl
      end
  end.

Ltac branch :=
  match goal with
  | |- context [if ?c then _ else _] =>
      let E := fresh "E" in destruct c eqn:E; simpl
  | |- context [match ?c with Some _ => _ | None => _ end] =>
      let E := fresh "E" in destruct c eqn:E; simpl
  | |- context [match ?c with Copied => _ | CopyRaises _ _ => _ end] =>
      let E := fresh "E" in destruct c eqn:E; simpl
  | |- context [match ?c with Loaded _ => _ | LoadCaught _ => _ | LoadRaises _ => _ end] =>
      let E := fresh "E" in destruct c eqn:E; simpl
  | |- context [match ?c with Dumped => _ | DumpCaught _ _ => _ end] =>
      let E := fresh "E" in destruct c eqn:E; simpl
  | |- context [match ?c with inl _ => _ | inr _ => _ end] =>
      let E := fresh "E" in destruct c eqn:E; simpl
  end.

Ltac execute h := repeat first [answer h | branch].

(** Turn the recorded tests on exit statuses into equations. *)
Ltac status_facts :=
  repeat match goal with
    | H : negb _ = true |- _ => apply negb_true_iff in H
    | H : negb _ = false |- _ => apply negb_false_iff in H
    | H : (_ =? _) = true |- _ => apply Z.eqb_eq in H
    | H : (_ =? _) = false |- _ => apply Z.eqb_neq in H
    end.

(** Find which element of an explicit list an event is. *)
Ltac locate H :=
  simpl in H;
  repeat (destruct H as [H | H]; [ try discriminate H | ]);
  try contradiction.

Lemma acts_trace {ks A} (m : M A) (s : State) :
  acts ks m ->
  exists evs, trace (snd (m s)) = trace s ++ evs /\
              forall e, In e evs -> allowed ks e = true.
Proof.
  intros Hm. destruct (Hm s) as (evs & Ht & Hf).
  exists evs. split; [done|]. rewrite forallb_forall in Hf. done.
Qed.

Lemma returns_unit (m : M unit) (s : State) : returns m -> m s = (Ret tt, snd (m s)).
Proof.
  intros Hm. destruct (Hm s) as ([] & Ha).
  destruct (m s) as [r s1]. simpl in *. congruence.
Qed.

(** ** The launcher after [__init__] *)

Lemma init_boot (h : Host) (fs : gset string) (dir : string) :
  __init__ h (boot fs dir) = (Ret (launcher_of h dir), started h fs dir).
Proof. reflexivity. Qed.

Lemma started_flags (h : Host) (fs : gset string) (dir : string) :
  worktree_path (started h fs dir) = None /\
  worktree_created (started h fs dir) = false /\
  cleanup_worktree (started h fs dir) = true /\
  pwd (started h fs dir) = dir.
Proof. repeat split. Qed.

Lemma started_trace (h : Host) (fs : gset string) (dir : string) :
  trace (started h fs dir) =
    [WriteFile (dockerfile (launcher_of h dir));
     WriteFile (template_file (launcher_of h dir))].
Proof. reflexivity. Qed.

Lemma started_files (h : Host) (fs : gset string) (dir p : string) :
  exists_on fs dir p = true ->
  exists_on (files (started h fs dir)) (pwd (started h fs dir)) p = true.
Proof.
  unfold exists_on. rewrite !bool_decide_eq_true. simpl. set_solver.
Qed.

(** Strings and paths stay folded while a method runs symbolically. *)
Arguments Path.join : simpl never.
Arguments Path.resolve : simpl never.
Arguments exists_on : simpl never.
Arguments String.append : simpl never.
Arguments Str.truthy : simpl never.
Arguments Str.strip : simpl never.
Arguments Str.contains : simpl never.
Arguments Str.of_N : simpl never.

(** Run [m] once, whatever the number of times the goal mentions it. *)
Ltac run_once m :=
  let out := fresh "out" in
  let Ho := fresh "Ho" in
  remember m as out eqn:Ho; symmetry in Ho; revert Ho.

Ltac finish_run :=
  intros <-; simpl; rewrite <- ?app_assoc; simpl.

(** ** Acquiring the checkout *)

Lemma setup_outcome (h : Host) (self : Launcher) (args : Args) (s : State) :
  exists evs,
    trace (snd (setup h self args s)) = trace s ++ evs /\
    (forall mp, fst (setup h self args s) = Ret mp ->
       cleanup_worktree (snd (setup h self args s)) = true ->
       keep_worktree args = false) /\
    (worktree_created (snd (setup h self args s)) = true ->
       worktree_created s = true \/
       exists r0, In (Spawn worktree_add r0) evs /\ returncode r0 = 0) /\
    (forall p, arg_worktree_path args = Some p ->
       exists_on (files s) (pwd s) p = true ->
       worktree_created (snd (setup h self args s)) = worktree_created s) /\
    (forall r0, In (Spawn worktree_add r0) evs -> returncode r0 <> 0 ->
       fst (setup h self args s) = Ret (cwd self) /\
       worktree_created (snd (setup h self args s)) = worktree_created s /\
       worktree_path (snd (setup h self args s)) = Some (cwd self) /\
       In fallback_warning evs).
Proof.
  run_once (setup h self args s).
  unfold setup, use_existing_worktree, use_new_worktree, create_worktree, is_git_repo.
  unfold_py. simpl.
  destruct args as [msg nc pm wb keep nw awp]; simpl.
  execute h.
  all: finish_run; eexists; (split; [reflexivity|]).
  all: status_facts.
  all: repeat split; intros; try congruence; auto.
  all: try (match goal with H : In _ _ |- _ => locate H end).
  all: try congruence.
  all: try (unfold fallback_warning; simpl; tauto).
  all: right; eexists; split; [do 3 right; left; reflexivity | assumption].
Qed.

Lemma acts_setup (h : Host) (self : Launcher) (args : Args) :
  acts [KPrint; KCheckout] (setup h self args).
Proof.
  unfold setup, use_existing_worktree, use_new_worktree. solve_acts.
Qed.

(** Whatever [branch_or_commit] is, the commands of [create_worktree] are
    the same two, and the path it returns is [claude_wt] under the current
    directory, or the current directory. *)
Lemma create_worktree_commands (h : Host) (self : Launcher) (ref : string) (s : State) :
  exists evs,
    trace (snd (create_worktree h self ref s)) = trace s ++ evs /\
    (forall cmd r,
        In (Spawn cmd r) evs ->
        cmd = ["git"; "rev-parse"; "--git-dir"] \/ cmd = worktree_add) /\
    (forall p,
        fst (create_worktree h self ref s) = Ret p ->
        p = Path.join (cwd self) "claude_wt" \/ p = cwd self).
Proof.
  run_once (create_worktree h self ref s).
  unfold create_worktree, is_git_repo. unfold_py. simpl.
  execute h.
  all: finish_run; eexists; (split; [reflexivity|]).
  all: split; [intros cmd q Hin; locate Hin; injection Hin as <- _; auto
              | intros p Hp; first [discriminate Hp | injection Hp as <-; auto]].
Qed.

(** ** Teardown *)

Lemma cleanup_worktree_if_needed_spec (h : Host) (s : State) :
  let out := cleanup_worktree_if_needed h s in
  fst out = Ret tt /\
  exists evs,
    trace (snd out) = trace s ++ evs /\
    (worktree_created s && cleanup_worktree s = false -> evs = []) /\
    (worktree_path s = None -> evs = []).
Proof.
  cbv zeta.
  run_once (cleanup_worktree_if_needed h s).
  unfold cleanup_worktree_if_needed. unfold_py. simpl.
  execute h.
  all: finish_run; rewrite ?app_nil_r; (split; [reflexivity|]).
  all: eexists; (split; [reflexivity || (symmetry; apply app_nil_r) |]).
  all: apply andb_prop in E0 || apply andb_false_iff in E0 || idtac.
  all: split; intros; try congruence; try reflexivity.
  all: destruct E0; destruct (worktree_created s), (cleanup_worktree s);
       simpl in *; congruence.
Qed.

(** ** Reconciling the changes *)

Lemma handle_guard (h : Host) (s : State) :
  worktree_created s = false ->
  handle_worktree_post_processing h s = (Ret tt, s).
Proof.
  intros Hc. unfold handle_worktree_post_processing. unfold_py. simpl.
  rewrite Hc. destruct (worktree_path s); reflexivity.
Qed.

Lemma handle_push (h : Host) (s : State) :
  exists evs,
    trace (snd (handle_worktree_post_processing h s)) = trace s ++ evs /\
    forall b r1,
      In (Spawn ["git"; "push"; "origin"; b] r1) evs -> returncode r1 <> 0 ->
      exists pre r2 post,
        evs = pre ++ [Spawn ["git"; "push"; "origin"; b] r1;
                      Spawn ["git"; "push"; "--set-upstream"; "origin"; b] r2] ++ post /\
        forallb (fun e => negb (is_push e)) pre = true /\
        forallb (fun e => negb (is_push e)) post = true /\
        (returncode r2 <> 0 ->
           fst (handle_worktree_post_processing h s) = Ret tt /\
           exists orig, post = [push_warning; Chdir orig]).
Proof.
  run_once (handle_worktree_post_processing h s).
  unfold handle_worktree_post_processing, detect_changes, commit_and_push, push_changes.
  unfold_py. simpl.
  execute h.
  all: finish_run; rewrite ?app_nil_r; eexists; (split; [reflexivity || (symmetry; apply app_nil_r) |]).
  all: status_facts; intros b q1 Hin Hq1.
  all: locate Hin.
  all: try (injection Hin as <- <-; try congruence).
  all: eexists [_; _; _; _; _; _; _; _; _], _, _; (split; [reflexivity|]).
  all: repeat split; intros; try congruence; eauto.
Qed.

Lemma handle_no_changes (h : Host) (s : State) :
  exists evs,
    trace (snd (handle_worktree_post_processing h s)) = trace s ++ evs /\
    forall r1 r2 r3,
      In (Spawn ["git"; "diff"; "--quiet"] r1) evs ->
      In (Spawn ["git"; "diff"; "--cached"; "--quiet"] r2) evs ->
      In (Spawn ["git"; "ls-files"; "--others"; "--exclude-standard"] r3) evs ->
      returncode r1 = 0 -> returncode r2 = 0 -> Str.strip (stdout r3) = "" ->
      forallb (fun e => negb (writes_history e)) evs = true /\
      fst (handle_worktree_post_processing h s) = Ret tt /\
      In no_changes_line evs.
Proof.
  run_once (handle_worktree_post_processing h s).
  unfold handle_worktree_post_processing, detect_changes, commit_and_push, push_changes.
  unfold_py. simpl.
  execute h.
  all: finish_run; rewrite ?app_nil_r; eexists; (split; [reflexivity || (symmetry; apply app_nil_r) |]).
  all: status_facts; intros q1 q2 q3 H1 H2 H3 Z1 Z2 Z3.
  all: locate H1; injection H1 as <-.
  all: locate H2; injection H2 as <-.
  all: locate H3; injection H3 as <-.
  all: try congruence.
  all: try (match goal with
            | E : (if Str.truthy _ then _ else _) = true |- _ =>
                rewrite Z3, Z2, Z1 in E; cbv in E; discriminate E
            end).
  all: repeat split; unfold no_changes_line; simpl; tauto.
Qed.

(** ** The container *)

Lemma stop_existing_container_spec (h : Host) (self : Launcher) (s : State) :
  let q := fst (subprocess h s (container_query self)) in
  let out := stop_existing_container h self s in
  fst out = Ret tt /\
  (returncode q <> 0 -> trace (snd out) = trace s ++ [Spawn (container_query self) q]) /\
  (returncode q = 0 ->
     exists r1 r2,
       trace (snd out) =
         trace s ++ [Spawn (container_query self) q; stopping_line;
                     Spawn ["podman"; "stop"; container_name self] r1;
                     Spawn ["podman"; "rm"; container_name self] r2]).
Proof.
  cbv zeta. unfold container_query.
  run_once (stop_existing_container h self s).
  unfold stop_existing_container. unfold_py. simpl.
  execute h.
  all: finish_run; status_facts; repeat split; intros; try congruence; eauto.
Qed.

Ltac init_of l :=
  lazymatch l with
  | [_] => constr:(@nil Event)
  | ?x :: ?r => let r' := init_of r in constr:(x :: r')
  end.

Lemma run_container_spec (h : Host) (self : Launcher) (mp : string)
    (msg mode : option string) (s : State) :
  let out := run_container h self mp msg mode s in
  fst out = Ret tt /\
  exists lines r,
    trace (snd out) = trace s ++ lines ++ [Spawn (entry_command self mp msg mode) r] /\
    forallb (allowed [KPrint]) lines = true.
Proof.
  cbv zeta. unfold entry_command.
  run_once (run_container h self mp msg mode s).
  unfold run_container. unfold_py. simpl.
  execute h.
  all: finish_run; (split; [reflexivity|]).
  all: match goal with
       | |- context [trace _ ++ ?l] =>
           let i := init_of l in
           match l with
           | context [[Spawn _ ?r]] => exists i, r; split; reflexivity
           end
       end.
Qed.

(** ** One state extends another *)

Lemma extends_refl (ks : list Kind) (s : State) : extends ks s s.
Proof. split; [exists []; rewrite app_nil_r |]; auto. Qed.

Lemma extends_trans (ks : list Kind) (s1 s2 s3 : State) :
  extends ks s1 s2 -> extends ks s2 s3 -> extends ks s1 s3.
Proof.
  intros [(e1 & T1 & F1) (P1 & C1 & L1)] [(e2 & T2 & F2) (P2 & C2 & L2)].
  split; [| repeat split; congruence].
  exists (e1 ++ e2). rewrite T2, T1, app_assoc, forallb_app, F1, F2. auto.
Qed.

Lemma extends_sub (ks ks' : list Kind) (s s' : State) :
  extends ks s s' -> kinds_within ks ks' = true -> extends ks' s s'.
Proof.
  intros [(e & T & F) Hfl] Hs. split; [| done].
  exists e. split; [done|]. rewrite forallb_forall in *.
  intros x Hx. eapply allowed_within; eauto.
Qed.

Lemma extends_run {A} (ks : list Kind) (m : M A) (s : State) :
  acts ks m -> keeps m -> extends ks s (snd (m s)).
Proof. intros Ha Hk. split; [apply Ha | apply Hk]. Qed.

Lemma extends_log (ks : list Kind) (e : Event) (s : State) :
  allowed ks e = true -> extends ks s (log e s).
Proof. intros He. split; [exists [e]; simpl; rewrite He | ]; auto. Qed.

Lemma extends_in (ks : list Kind) (s s' : State) (e : Event) :
  extends ks s s' -> In e (trace s') -> In e (trace s) \/ allowed ks e = true.
Proof.
  intros [(evs & T & F) _]. rewrite T, in_app_iff. intros [H | H]; [auto |].
  right. rewrite forallb_forall in F. auto.
Qed.

Lemma extends_keeps_log (ks : list Kind) (s s' : State) (e : Event) :
  extends ks s s' -> In e (trace s) -> In e (trace s').
Proof. intros [(evs & T & F) _] H. rewrite T, in_app_iff. auto. Qed.

Lemma container_phase_eq (h : Host) (self : Launcher) (args : Args) (mp : string)
    (s : State) :
  container_phase h self args mp s =
    handle_worktree_post_processing h
      (log stopped_line
         (snd (run_container h self mp (message args) (permission_mode args)
                 (snd (stop_existing_container h self s))))).
Proof.
  unfold container_phase, bind.
  rewrite (returns_unit _ s (returns_stop_existing_container h self)).
  rewrite (returns_unit _ _ (returns_run_container h self mp _ _)).
  reflexivity.
Qed.

Lemma prepare_raises (h : Host) (self : Launcher) (s : State) (e : exn) :
  fst (prepare_claude_config h self s) = Raise e -> exit_status (@Raise unit e) = 1.
Proof.
  run_once (prepare_claude_config h self s).
  unfold prepare_claude_config, config_error, copy2, write_file. unfold_py. simpl.
  execute h. all: finish_run; intros; simplify_eq; reflexivity.
Qed.

Lemma build_raises (h : Host) (self : Launcher) (nc : bool) (s : State) (e : exn) :
  fst (build_image h self nc s) = Raise e -> exists rc cmd, e = CalledProcessError rc cmd.
Proof.
  run_once (build_image h self nc s).
  unfold build_image. unfold_py. simpl.
  execute h. all: finish_run; intros; simplify_eq; eauto.
Qed.

Lemma session_cases (h : Host) (self : Launcher) (args : Args) (mp : string)
    (s : State) :
  (exists e s3,
      session h self args mp s = (Raise e, s3) /\
      exit_status (@Raise unit e) = 1 /\
      extends [KPrint; KConfig; KImage; KBuild] s s3)
  \/
  (exists s4,
      extends [KPrint; KConfig; KImage; KBuild; KRelease] s s4 /\
      session h self args mp s = container_phase h self args mp s4).
Proof.
  pose proof (extends_run [KPrint; KConfig] _ s
                (acts_prepare_claude_config h self)
                (keeps_prepare_claude_config h self)) as X1.
  pose proof (prepare_raises h self s) as R1.
  run_once (session h self args mp s).
  change (session h self args mp s) with
    (bind (prepare_claude_config h self)
       (fun _ => bind (should_build_image h self (no_cache args))
          (fun build => bind (when build (build_image h self (no_cache args)))
             (fun _ => bind (cleanup_temp_files self)
                (fun _ => container_phase h self args mp)))) s).
  unfold bind at 1.
  destruct (prepare_claude_config h self s) as [[[] | e] s1]; simpl in *.
  2:{ intros <-. left. exists e, s1.
      split; [reflexivity|]. split; [exact (R1 e eq_refl)|].
      eapply extends_sub; [apply X1 | reflexivity]. }
  pose proof (extends_run [KImage] _ s1
                (acts_should_build_image h self (no_cache args))
                (keeps_should_build_image h self (no_cache args))) as X2.
  destruct (returns_should_build_image h self (no_cache args) s1) as (b & Hb).
  unfold bind at 1.
  destruct (should_build_image h self (no_cache args) s1) as [r2 s2]; simpl in *. subst r2.
  assert (X3 : extends [KPrint; KBuild] s2
                 (snd (when b (build_image h self (no_cache args)) s2))).
  { destruct b; simpl; [| apply extends_refl].
    apply extends_run; [apply acts_build_image | apply keeps_build_image]. }
  assert (R3 : forall e, fst (when b (build_image h self (no_cache args)) s2) = Raise e ->
                         exit_status (@Raise unit e) = 1).
  { destruct b; simpl; [| discriminate].
    intros e He. apply build_raises in He. destruct He as (rc & cmd & ->). reflexivity. }
  unfold bind at 1.
  destruct (when b (build_image h self (no_cache args)) s2) as [[[] | e] s3]; simpl in *.
  2:{ intros <-. left. exists e, s3. rewrite (R3 e eq_refl).
      do 2 (split; [reflexivity|]).
      eapply extends_trans; [eapply extends_sub; [apply X1 | reflexivity] |].
      eapply extends_trans; [eapply extends_sub; [apply X2 | reflexivity] |].
      eapply extends_sub; [apply X3 | reflexivity]. }
  unfold bind at 1.
  rewrite (returns_unit _ s3 (returns_cleanup_temp_files self)).
  intros <-. right. exists (snd (cleanup_temp_files self s3)).
  split; [| reflexivity].
  eapply extends_trans; [eapply extends_sub; [apply X1 | reflexivity] |].
  eapply extends_trans; [eapply extends_sub; [apply X2 | reflexivity] |].
  eapply extends_trans; [eapply extends_sub; [apply X3 | reflexivity] |].
  eapply extends_sub; [apply extends_run |];
    [apply acts_cleanup_temp_files | apply keeps_cleanup_temp_files | reflexivity].
Qed.

Lemma setup_raises (h : Host) (self : Launcher) (args : Args) (s : State) (e : exn) :
  fst (setup h self args s) = Raise e -> e = SystemExit 1.
Proof.
  run_once (setup h self args s).
  unfold setup, use_existing_worktree, use_new_worktree, create_worktree, is_git_repo.
  unfold_py. simpl.
  execute h. all: finish_run; congruence.
Qed.

Lemma returns_eq (m : M unit) (s s' : State) (r : outcome unit) :
  returns m -> m s = (r, s') -> r = Ret tt.
Proof. intros Hm E. destruct (Hm s) as ([] & Ha). rewrite E in Ha. exact Ha. Qed.

Lemma extends_eq {A} (ks : list Kind) (m : M A) (s s' : State) (r : outcome A) :
  acts ks m -> keeps m -> m s = (r, s') -> extends ks s s'.
Proof.
  intros Ha Hk E. pose proof (extends_run ks m s Ha Hk) as X.
  rewrite E in X. exact X.
Qed.

Lemma wound_up_spec (h : Host) (self : Launcher) (s s9 : State) :
  wound_up h self s s9 ->
  extends [KPrint; KTeardown; KAtexit] s s9 /\
  (worktree_created s && cleanup_worktree s = false -> extends [KAtexit] s s9).
Proof.
  intros (s8 & r9 & E8 & E9).
  pose proof (extends_eq _ _ _ _ _ (acts_cleanup_worktree_if_needed h)
                (keeps_cleanup_worktree_if_needed h) E8) as X8.
  pose proof (extends_eq _ _ _ _ _ (acts__cleanup_temp_dir self)
                (keeps__cleanup_temp_dir self) E9) as X9.
  split.
  - eapply extends_trans; [eapply extends_sub; [apply X8 | reflexivity] |].
    eapply extends_sub; [apply X9 | reflexivity].
  - intros Hf.
    destruct (cleanup_worktree_if_needed_spec h s) as (_ & evs & Ht & Hnil & _).
    rewrite E8 in Ht. cbn [snd] in Ht. rewrite (Hnil Hf), app_nil_r in Ht.
    eapply extends_trans; [| apply X9].
    split; [| apply X8]. exists []. rewrite Ht, app_nil_r. auto.
Qed.

Lemma main_anatomy (h : Host) (args : Args) (fs : gset string) (dir : string) :
  exists r2 s2 code s9,
    setup h (launcher_of h dir) args (started h fs dir) = (r2, s2) /\
    main h args (boot fs dir) = (code, s9) /\
    match r2 with
    | Raise e => code = 1 /\ extends [KAtexit] s2 s9
    | Ret mp =>
        (exists s3,
            code = 1 /\
            extends [KPrint; KConfig; KImage; KBuild] s2 s3 /\
            wound_up h (launcher_of h dir) s3 s9)
        \/
        (exists s4 s5 s6 cp s7,
            extends [KPrint; KConfig; KImage; KBuild; KRelease] s2 s4 /\
            stop_existing_container h (launcher_of h dir) s4 = (Ret tt, s5) /\
            run_container h (launcher_of h dir) mp (message args) (permission_mode args) s5
              = (Ret tt, s6) /\
            handle_worktree_post_processing h (log stopped_line s6) = (cp, s7) /\
            code = exit_status cp /\
            wound_up h (launcher_of h dir) s7 s9)
    end.
Proof.
  unfold main. rewrite init_boot.
  unfold run, bind.
  pose proof (setup_raises h (launcher_of h dir) args (started h fs dir)) as R.
  destruct (setup h (launcher_of h dir) args (started h fs dir)) as [r2 s2] eqn:E2.
  exists r2, s2. cbn [fst snd] in *.
  destruct r2 as [mp | e]; cbv beta iota zeta; cbn [fst snd].
  2:{ destruct (_cleanup_temp_dir (launcher_of h dir) s2) as [r9 s9] eqn:E9.
      exists 1, s9. split; [reflexivity|]. rewrite (R e eq_refl). cbn [fst snd exit_status].
      do 2 (split; [reflexivity|]).
      eapply extends_eq; [apply acts__cleanup_temp_dir | apply keeps__cleanup_temp_dir | exact E9]. }
  unfold try_finally.
  destruct (session_cases h (launcher_of h dir) args mp s2)
    as [(e & s3 & Hs & He & X) | (s4 & X & Hs)]; rewrite Hs; cbv beta iota zeta.
  - destruct (cleanup_worktree_if_needed h s3) as [r8 s8] eqn:E8.
    pose proof (returns_eq _ _ _ _ (returns_cleanup_worktree_if_needed h) E8). subst r8.
    destruct (_cleanup_temp_dir (launcher_of h dir) s8) as [r9 s9] eqn:E9.
    cbn [fst snd]. rewrite E9. cbn [fst snd].
    exists 1, s9. split; [reflexivity|]. split; [rewrite He; reflexivity|].
    left. exists s3. do 2 (split; [auto|]). exists s8, r9. auto.
  - unfold container_phase, bind.
    destruct (stop_existing_container h (launcher_of h dir) s4) as [r5 s5] eqn:E5.
    pose proof (returns_eq _ _ _ _ (returns_stop_existing_container h _) E5). subst r5.
    destruct (run_container h (launcher_of h dir) mp (message args) (permission_mode args) s5)
      as [r6 s6] eqn:E6.
    pose proof (returns_eq _ _ _ _ (returns_run_container h _ _ _ _) E6). subst r6.
    change (print_colored "Container stopped" Colors.GREEN s6)
      with (Ret tt, log stopped_line s6).
    cbv beta iota.
    destruct (handle_worktree_post_processing h (log stopped_line s6)) as [cp s7] eqn:E7.
    destruct (cleanup_worktree_if_needed h s7) as [r8 s8] eqn:E8.
    pose proof (returns_eq _ _ _ _ (returns_cleanup_worktree_if_needed h) E8). subst r8.
    destruct (_cleanup_temp_dir (launcher_of h dir) s8) as [r9 s9] eqn:E9.
    cbn [fst snd]. rewrite E9. cbn [fst snd].
    exists (exit_status cp), s9. do 2 (split; [reflexivity|]).
    right. exists s4, s5, s6, cp, s7. repeat (split; [auto|]).
    exists s8, r9. auto.
Qed.

(** ** Logs made of given kinds of events *)

Lemma within_sub (ks ks' : list Kind) (s : State) :
  within ks s -> kinds_within ks ks' = true -> within ks' s.
Proof.
  unfold within. rewrite !forallb_forall. intros H Hs e He.
  eapply allowed_within; eauto.
Qed.

Lemma within_extends (ks : list Kind) (s s' : State) :
  within ks s -> extends ks s s' -> within ks s'.
Proof.
  unfold within. intros H [(evs & T & F) _]. rewrite T, forallb_app, H, F. done.
Qed.

Lemma within_grows (ks ks' all : list Kind) (s s' : State) :
  within ks s -> extends ks' s s' ->
  kinds_within ks all = true -> kinds_within ks' all = true ->
  within all s'.
Proof.
  intros W X H1 H2. eapply within_extends.
  - eapply within_sub; eauto.
  - eapply extends_sub; eauto.
Qed.

Ltac grow W X :=
  eapply within_grows; [exact W | exact X | reflexivity | reflexivity].

Lemma within_in (ks : list Kind) (s : State) (e : Event) :
  within ks s -> In e (trace s) -> allowed ks e = true.
Proof. unfold within. rewrite forallb_forall. auto. Qed.

Lemma kind_excluded (ks : list Kind) (e : Event) (k : Kind) :
  allowed ks e = true -> kind e = k -> existsb (Kind_eqb k) ks = true.
Proof. unfold allowed. intros H <-. exact H. Qed.

Lemma acquired_within (h : Host) (args : Args) (fs : gset string) (dir : string)
    (r2 : outcome string) (s2 : State) :
  setup h (launcher_of h dir) args (started h fs dir) = (r2, s2) ->
  within [KPrint; KCheckout; KConfig] s2.
Proof.
  intros E2. unfold within.
  destruct (acts_setup h (launcher_of h dir) args (started h fs dir)) as (evs & T & F).
  rewrite E2 in T. cbn [snd] in T.
  rewrite T, forallb_app, started_trace. cbn [forallb]. 
  change (allowed [KPrint; KCheckout; KConfig] (WriteFile _)) with true.
  cbn [andb].
  rewrite forallb_forall in *. intros e He.
  eapply allowed_within; [| apply (F e He)]. reflexivity.
Qed.

Lemma starts_with_kind (pre cmd : list string) (k : Kind) :
  starts_with pre cmd = true ->
  (forall rest, cmd_kind (pre ++ rest) = k) ->
  cmd_kind cmd = k.
Proof.
  intros Hs Hk.
  assert (exists rest, cmd = pre ++ rest) as (rest & ->); [| apply Hk].
  clear Hk. revert cmd Hs. induction pre as [| p pre IH]; intros cmd Hs.
  - exists cmd. reflexivity.
  - destruct cmd as [| c cmd]; [discriminate|]. simpl in Hs.
    apply andb_prop in Hs. destruct Hs as [Hp Hr].
    apply String.eqb_eq in Hp. subst c.
    destruct (IH cmd Hr) as (rest & ->). exists rest. reflexivity.
Qed.

(** The state in which teardown starts, if the run gets there. *)
Lemma main_teardown (h : Host) (args : Args) (fs : gset string) (dir : string) :
  exists r2 s2 code s9,
    setup h (launcher_of h dir) args (started h fs dir) = (r2, s2) /\
    main h args (boot fs dir) = (code, s9) /\
    within [KPrint; KCheckout; KConfig] s2 /\
    match r2 with
    | Raise e => code = 1 /\ extends [KAtexit] s2 s9
    | Ret mp =>
        exists sx,
          extends session_kinds s2 sx /\ wound_up h (launcher_of h dir) sx s9
    end.
Proof.
  destruct (main_anatomy h args fs dir) as (r2 & s2 & code & s9 & E2 & Em & Hc).
  exists r2, s2, code, s9. do 2 (split; [assumption|]).
  pose proof (acquired_within h args fs dir r2 s2 E2) as W2.
  split; [exact W2 |].
  destruct r2 as [mp | e]; [| exact Hc].
  destruct Hc as [(s3 & _ & X & Wu) | (s4 & s5 & s6 & cp & s7 & X & E5 & E6 & E7 & _ & Wu)].
  - exists s3. split; [| exact Wu]. eapply extends_sub; [apply X | reflexivity].
  - exists s7. split; [| exact Wu].
    eapply extends_trans; [eapply extends_sub; [apply X | reflexivity] |].
    eapply extends_trans;
      [eapply extends_sub; [eapply extends_eq; [| | exact E5] |] |];
      [apply acts_stop_existing_container | apply keeps_stop_existing_container
      | reflexivity |].
    eapply extends_trans;
      [eapply extends_sub; [eapply extends_eq; [| | exact E6] |] |];
      [apply acts_run_container | apply keeps_run_container | reflexivity |].
    eapply extends_trans; [apply (extends_log _ stopped_line); reflexivity |].
    eapply extends_sub; [eapply extends_eq; [| | exact E7] |];
      [apply acts_handle_worktree_post_processing
      | apply keeps_handle_worktree_post_processing | reflexivity].
Qed.

(** In every run, a [git worktree remove] is spawned only when
    [worktree_created] is set (by a successful [git worktree add]) and
    cleanup on exit is still enabled; with [--keep-worktree] no [git worktree
    remove] is ever spawned. *)
Lemma removal_needs_flags
    (h : Host) (args : Args) (fs : gset string) (dir : string) :
  let final := snd (main h args (boot fs dir)) in
  (forall cmd r,
      In (Spawn cmd r) (trace final) ->
      starts_with worktree_remove cmd = true ->
      worktree_created final = true /\
      cleanup_worktree final = true /\
      keep_worktree args = false /\
      exists r0, In (Spawn worktree_add r0) (trace final) /\ returncode r0 = 0)
  /\
  (keep_worktree args = true ->
   forall cmd r,
     In (Spawn cmd r) (trace final) -> starts_with worktree_remove cmd = false).
Proof.
  cbv zeta.
  destruct (main_teardown h args fs dir) as (r2 & s2 & code & s9 & E2 & Em & W2 & Hc).
  rewrite Em. cbn [snd].
  assert (Main : forall cmd r,
      In (Spawn cmd r) (trace s9) ->
      starts_with worktree_remove cmd = true ->
      worktree_created s9 = true /\
      cleanup_worktree s9 = true /\
      keep_worktree args = false /\
      exists r0, In (Spawn worktree_add r0) (trace s9) /\ returncode r0 = 0).
  { intros cmd r Hin Hrm.
    assert (Hk : kind (Spawn cmd r) = KTeardown).
    { cbn [kind]. apply (starts_with_kind worktree_remove); [exact Hrm | reflexivity]. }
    destruct (setup_outcome h (launcher_of h dir) args (started h fs dir))
      as (evs & Ht & Fkeep & Fown & _ & _).
    rewrite E2 in Ht, Fkeep, Fown. cbn [fst snd] in Ht, Fkeep, Fown.
    destruct r2 as [mp | e].
    - destruct Hc as (sx & X & Wu).
      destruct (wound_up_spec h _ sx s9 Wu) as (W & Wq).
      assert (Wx : within (KCheckout :: session_kinds) sx) by grow W2 X.
      destruct (worktree_created sx && cleanup_worktree sx) eqn:Hflags.
      + apply andb_prop in Hflags. destruct Hflags as [Hcr Hcl].
        destruct X as (Xt & Xp & Xc & Xl). destruct W as (Wt & Wp & Wc & Wl).
        rewrite Wc, Wl, Hcr, Hcl. do 2 (split; [reflexivity|]).
        split; [apply (Fkeep mp eq_refl); congruence|].
        destruct Fown as [Hs1 | (r0 & Hr0 & Hz)]; [congruence | discriminate Hs1 |].
        exists r0. split; [| exact Hz].
        destruct Wt as (ew & -> & _). destruct Xt as (ex & -> & _).
        rewrite Ht, !in_app_iff. auto.
      + exfalso.
        destruct (extends_in _ _ _ _ (Wq eq_refl) Hin) as [H | H].
        * apply (within_in _ _ _ Wx) in H.
          apply (kind_excluded _ _ _ H) in Hk. discriminate Hk.
        * apply (kind_excluded _ _ _ H) in Hk. discriminate Hk.
    - exfalso. destruct Hc as (_ & X).
      destruct (extends_in _ _ _ _ X Hin) as [H | H].
      + apply (within_in _ _ _ W2) in H.
        apply (kind_excluded _ _ _ H) in Hk. discriminate Hk.
      + apply (kind_excluded _ _ _ H) in Hk. discriminate Hk. }
  split; [exact Main|].
  intros Hkeep cmd r Hin.
  destruct (starts_with worktree_remove cmd) eqn:Hs; [| reflexivity].
  destruct (Main cmd r Hin Hs) as (_ & _ & Hk & _). congruence.
Qed.

Lemma within_not_reconciled (ks : list Kind) (s : State) :
  within ks s -> existsb (Kind_eqb KReconcile) ks = false ->
  reconciled (trace s) = false.
Proof.
  unfold reconciled. intros H Hk.
  apply not_true_is_false. intros Hr.
  apply existsb_exists in Hr. destruct Hr as (e & He & Ek).
  apply Kind_eqb_eq in Ek.
  pose proof (kind_excluded _ _ _ (within_in _ _ _ H He) Ek). congruence.
Qed.

(** The state in which the reconciler is called, if the run gets there. *)
Lemma before_reconcile (h : Host) (self : Launcher) (args : Args) (mp : string)
    (s2 s4 s5 s6 : State) :
  within [KPrint; KCheckout; KConfig] s2 ->
  extends [KPrint; KConfig; KImage; KBuild; KRelease] s2 s4 ->
  stop_existing_container h self s4 = (Ret tt, s5) ->
  run_container h self mp (message args) (permission_mode args) s5 = (Ret tt, s6) ->
  within [KPrint; KCheckout; KConfig; KImage; KBuild; KRelease; KStop; KRun]
    (log stopped_line s6) /\
  worktree_created (log stopped_line s6) = worktree_created s2 /\
  cleanup_worktree (log stopped_line s6) = cleanup_worktree s2 /\
  worktree_path (log stopped_line s6) = worktree_path s2.
Proof.
  intros W2 X E5 E6.
  pose proof (extends_eq _ _ _ _ _ (acts_stop_existing_container h self)
                (keeps_stop_existing_container h self) E5) as X5.
  pose proof (extends_eq _ _ _ _ _ (acts_run_container h self mp _ _)
                (keeps_run_container h self mp _ _) E6) as X6.
  split.
  - assert (W4 : within [KPrint; KCheckout; KConfig; KImage; KBuild; KRelease] s4)
      by grow W2 X.
    assert (W5 : within [KPrint; KCheckout; KConfig; KImage; KBuild; KRelease; KStop] s5)
      by grow W4 X5.
    assert (W6 : within [KPrint; KCheckout; KConfig; KImage; KBuild; KRelease; KStop; KRun]
                   s6) by grow W5 X6.
    pose proof (extends_log [KPrint] stopped_line s6 eq_refl) as XL.
    grow W6 XL.
  - destruct X as (_ & Xp & Xc & Xl). destruct X5 as (_ & P5 & C5 & L5).
    destruct X6 as (_ & P6 & C6 & L6). cbn [log worktree_created cleanup_worktree worktree_path].
    repeat split; congruence.
Qed.

Lemma reconcile_cases (h : Host) (args : Args) (fs : gset string) (dir : string) :
  exists r2 s2 code s9,
    setup h (launcher_of h dir) args (started h fs dir) = (r2, s2) /\
    main h args (boot fs dir) = (code, s9) /\
    (reconciled (trace s9) = false \/
     (worktree_created s9 = true /\ worktree_created s2 = true)).
Proof.
  destruct (main_anatomy h args fs dir) as (r2 & s2 & code & s9 & E2 & Em & Hc).
  exists r2, s2, code, s9. do 2 (split; [assumption|]).
  pose proof (acquired_within h args fs dir r2 s2 E2) as W2.
  destruct r2 as [mp | e].
  - destruct Hc as [(s3 & _ & X & Wu) | (s4 & s5 & s6 & cp & s7 & X & E5 & E6 & E7 & _ & Wu)].
    + left. destruct (wound_up_spec _ _ _ _ Wu) as (W & _).
      apply (within_not_reconciled
               [KPrint; KCheckout; KConfig; KImage; KBuild; KTeardown; KAtexit]);
        [| reflexivity].
      assert (W3 : within [KPrint; KCheckout; KConfig; KImage; KBuild] s3) by grow W2 X.
      grow W3 W.
    + destruct (before_reconcile h _ args mp s2 s4 s5 s6 W2 X E5 E6) as (W6 & C6 & _).
      destruct (wound_up_spec _ _ _ _ Wu) as (W & _).
      destruct (worktree_created s2) eqn:Hc2.
      * right. split; [| reflexivity].
        destruct W as (_ & _ & -> & _).
        pose proof (keeps_handle_worktree_post_processing h (log stopped_line s6)) as K.
        rewrite E7 in K. cbn [snd] in K. destruct K as (_ & -> & _). exact C6.
      * left. rewrite (handle_guard h _ C6) in E7. injection E7 as <- <-.
        apply (within_not_reconciled
                 [KPrint; KCheckout; KConfig; KImage; KBuild; KRelease; KStop; KRun;
                  KTeardown; KAtexit]); [| reflexivity].
        grow W6 W.
  - left. destruct Hc as (_ & X).
    apply (within_not_reconciled [KPrint; KCheckout; KConfig; KAtexit]); [| reflexivity].
    grow W2 X.
Qed.

(** C4.  In every run the reconciler (its directory change and its git
    diff / ls-files / add / commit / branch / push commands) runs only when
    the checkout was created by this run; when [--worktree-path] names a path
    that exists, it does not run. *)
Theorem reconciler_only_for_created_checkout
    (h : Host) (args : Args) (fs : gset string) (dir : string) :
  let final := snd (main h args (boot fs dir)) in
  (reconciled (trace final) = true -> worktree_created final = true)
  /\
  (forall p,
      arg_worktree_path args = Some p ->
      exists_on fs dir p = true ->
      reconciled (trace final) = false).
Proof.
  cbv zeta.
  destruct (reconcile_cases h args fs dir) as (r2 & s2 & code & s9 & E2 & Em & Hc).
  rewrite Em. cbn [snd]. split.
  - intros Hr. destruct Hc as [H | [H _]]; [congruence | exact H].
  - intros p Hp He.
    destruct Hc as [H | [_ H]]; [exact H | exfalso].
    destruct (setup_outcome h (launcher_of h dir) args (started h fs dir))
      as (evs & _ & _ & _ & Fover & _).
    rewrite E2 in Fover. cbn [snd] in Fover.
    rewrite (Fover p Hp (started_files h fs dir p He)) in H. discriminate H.
Qed.

(** ** The log of a run that reaches the container *)

Lemma container_case_trace (h : Host) (self : Launcher) (args : Args) (mp : string)
    (s4 s5 s6 s7 s9 : State) (cp : outcome unit) :
  stop_existing_container h self s4 = (Ret tt, s5) ->
  run_container h self mp (message args) (permission_mode args) s5 = (Ret tt, s6) ->
  handle_worktree_post_processing h (log stopped_line s6) = (cp, s7) ->
  wound_up h self s7 s9 ->
  exists e5 lines rr e7 e9,
    trace s9 =
      trace s4 ++ e5
      ++ (lines ++ [Spawn (entry_command self mp (message args) (permission_mode args)) rr])
      ++ [stopped_line] ++ e7 ++ e9 /\
    trace s5 = trace s4 ++ e5 /\
    trace s7 = trace (log stopped_line s6) ++ e7 /\
    forallb (allowed [KPrint; KStop]) e5 = true /\
    forallb (allowed [KPrint]) lines = true /\
    forallb (allowed [KPrint; KReconcile]) e7 = true /\
    forallb (allowed [KPrint; KTeardown; KAtexit]) e9 = true.
Proof.
  intros E5 E6 E7 Wu.
  destruct (acts_stop_existing_container h self s4) as (e5 & T5 & F5).
  rewrite E5 in T5. cbn [snd] in T5.
  destruct (run_container_spec h self mp (message args) (permission_mode args) s5)
    as (_ & lines & rr & T6 & F6).
  rewrite E6 in T6. cbn [snd] in T6.
  destruct (acts_handle_worktree_post_processing h (log stopped_line s6)) as (e7 & T7 & F7).
  rewrite E7 in T7. cbn [snd] in T7.
  destruct (wound_up_spec h self s7 s9 Wu) as (((e9 & T9 & F9) & _) & _).
  exists e5, lines, rr, e7, e9.
  split; [| repeat split; assumption].
  rewrite T9, T7. cbn [log trace]. rewrite T6, T5.
  rewrite <- !app_assoc. reflexivity.
Qed.

Lemma not_in_kinds (ks : list Kind) (l : list Event) (e : Event) (k : Kind) :
  forallb (allowed ks) l = true -> In e l -> kind e = k ->
  existsb (Kind_eqb k) ks = true.
Proof.
  intros F He Hk. rewrite forallb_forall in F.
  exact (kind_excluded _ _ _ (F e He) Hk).
Qed.

Lemma starts_with_refl (l : list string) : starts_with l l = true.
Proof. induction l as [| x l IH]; simpl; [| rewrite String.eqb_refl]; auto. Qed.

Lemma starts_with_app (l t : list string) : starts_with l (l ++ t) = true.
Proof. induction l as [| x l IH]; simpl; [| rewrite String.eqb_refl]; auto. Qed.

Lemma entry_command_mount (self : Launcher) (mp : string) (msg mode : option string) :
  starts_with (run_args self mp) (entry_command self mp msg mode) = true.
Proof.
  unfold entry_command. destruct msg as [text |]; [destruct (Str.truthy text) |];
    auto using starts_with_refl, starts_with_app.
Qed.

(** Every [podman run] of a run is the entry command on the mount path that
    the acquisition phase returned. *)
Lemma main_podman_run (h : Host) (args : Args) (fs : gset string) (dir : string) :
  exists r2 s2 code s9,
    setup h (launcher_of h dir) args (started h fs dir) = (r2, s2) /\
    main h args (boot fs dir) = (code, s9) /\
    (forall cmd r,
        In (Spawn cmd r) (trace s9) -> cmd_kind cmd = KRun ->
        exists mp,
          r2 = Ret mp /\
          cmd = entry_command (launcher_of h dir) mp (message args) (permission_mode args)) /\
    (code = 0 ->
     exists mp r,
       r2 = Ret mp /\
       In (Spawn (entry_command (launcher_of h dir) mp (message args) (permission_mode args)) r)
          (trace s9)).
Proof.
  destruct (main_anatomy h args fs dir) as (r2 & s2 & code & s9 & E2 & Em & Hc).
  exists r2, s2, code, s9. do 2 (split; [assumption|]).
  pose proof (acquired_within h args fs dir r2 s2 E2) as W2.
  destruct r2 as [mp | e].
  - destruct Hc as [(s3 & Hcode & X & Wu) | (s4 & s5 & s6 & cp & s7 & X & E5 & E6 & E7 & Hcode & Wu)].
    + split; [| intros; congruence].
      intros cmd r Hin Hk. exfalso.
      destruct (wound_up_spec _ _ _ _ Wu) as (W & _).
      assert (W3 : within [KPrint; KCheckout; KConfig; KImage; KBuild] s3) by grow W2 X.
      assert (W9 : within [KPrint; KCheckout; KConfig; KImage; KBuild; KTeardown; KAtexit] s9)
        by grow W3 W.
      pose proof (kind_excluded _ _ _ (within_in _ _ _ W9 Hin) Hk). discriminate.
    + destruct (container_case_trace h _ args mp s4 s5 s6 s7 s9 cp E5 E6 E7 Wu)
        as (e5 & lines & rr & e7 & e9 & T9 & _ & _ & F5 & F6 & F7 & F9).
      assert (W4 : within [KPrint; KCheckout; KConfig; KImage; KBuild; KRelease] s4)
        by grow W2 X.
      split.
      * intros cmd r Hin Hk. exists mp. split; [reflexivity|].
        rewrite T9, !in_app_iff in Hin.
        destruct Hin as [H | [H | [[H | H] | [H | [H | H]]]]].
        -- pose proof (kind_excluded _ _ _ (within_in _ _ _ W4 H) Hk). discriminate.
        -- pose proof (not_in_kinds _ _ _ _ F5 H Hk). discriminate.
        -- pose proof (not_in_kinds _ _ _ _ F6 H Hk). discriminate.
        -- destruct H as [H | []]. congruence.
        -- destruct H as [H | []]. discriminate H.
        -- pose proof (not_in_kinds _ _ _ _ F7 H Hk). discriminate.
        -- pose proof (not_in_kinds _ _ _ _ F9 H Hk). discriminate.
      * intros _. exists mp, rr. split; [reflexivity|].
        rewrite T9, !in_app_iff. right. right. left. right. left. reflexivity.
  - destruct Hc as (Hcode & X). split; [| intros; congruence].
    intros cmd r Hin Hk. exfalso.
    assert (W9 : within [KPrint; KCheckout; KConfig; KAtexit] s9) by grow W2 X.
    pose proof (kind_excluded _ _ _ (within_in _ _ _ W9 Hin) Hk). discriminate.
Qed.

Lemma begins_bind {A B} (ks : list Kind) (e : Event) (m : M A) (k : A -> M B) :
  begins e m -> (forall a, acts ks (k a)) -> begins e (bind m k).
Proof.
  intros Hm Hk s. unfold bind. destruct (Hm s) as (rest & Hr).
  destruct (m s) as [[a | x] s1]; cbn [snd] in *.
  - destruct (Hk a s1) as (evs & He & _). exists (rest ++ evs).
    rewrite He, Hr, <- app_assoc. reflexivity.
  - exists rest. exact Hr.
Qed.

Lemma begins_print_colored (message color : string) :
  begins (Stderr (color +:+ message +:+ Colors.NC)) (print_colored message color).
Proof. intros s. exists []. reflexivity. Qed.

Lemma begins_session (h : Host) (self : Launcher) (args : Args) (mp : string) :
  begins preparing_line (session h self args mp).
Proof.
  unfold session.
  apply (begins_bind session_kinds).
  - unfold prepare_claude_config.
    apply (begins_bind [KPrint; KConfig]); [apply begins_print_colored|].
    intros _. unfold config_error. solve_acts.
  - intros _. unfold session_kinds. solve_acts.
Qed.

Lemma keeps_session (h : Host) (self : Launcher) (args : Args) (mp : string) :
  keeps (session h self args mp).
Proof. unfold session. solve_keeps. Qed.

Lemma entry_command_on (h : Host) (dir mp : string) (msg mode : option string) :
  podman_run_on h mp (entry_command (launcher_of h dir) mp msg mode).
Proof.
  unfold entry_command, podman_run_on.
  destruct msg as [text |]; [destruct (Str.truthy text) |].
  - eexists. split; [reflexivity|].
    intros [H | [H | [H | []]]]; discriminate H.
  - exists []. split; [symmetry; apply app_nil_r | intros []].
  - exists []. split; [symmetry; apply app_nil_r | intros []].
Qed.

Lemma setup_fallback_last (h : Host) (self : Launcher) (args : Args) (s : State) :
  forall evs failed_add,
    trace (snd (setup h self args s)) = trace s ++ evs ->
    In (Spawn worktree_add failed_add) evs -> returncode failed_add <> 0 ->
    exists before, trace (snd (setup h self args s)) = before ++ [fallback_warning].
Proof.
  run_once (setup h self args s).
  unfold setup, use_existing_worktree, use_new_worktree, create_worktree, is_git_repo.
  unfold_py. simpl.
  destruct args as [msg nc pm wb keep nw awp]; simpl.
  execute h.
  all: finish_run; intros evs failed_add Ht Hin Hfailed.
  all: apply app_inv_head in Ht; subst evs.
  all: status_facts.
  all: try (locate Hin; congruence).
  all: apply last_Some; rewrite last_app; reflexivity.
Qed.

(** After a fallback, the run is the session on the current directory, then
    the exit hook: nothing is torn down. *)
Lemma run_after_fallback (h : Host) (args : Args) (fs : gset string) (dir : string)
    (s2 : State) :
  setup h (launcher_of h dir) args (started h fs dir) = (Ret dir, s2) ->
  worktree_created s2 = false ->
  exists r8 s8 hook,
    session h (launcher_of h dir) args dir s2 = (r8, s8) /\
    fst (main h args (boot fs dir)) = exit_status r8 /\
    trace (snd (main h args (boot fs dir))) = trace s8 ++ hook /\
    forallb (allowed [KAtexit]) hook = true.
Proof.
  intros E2 Hc. unfold main. rewrite init_boot.
  destruct (run h (launcher_of h dir) args (started h fs dir)) as [r7 s7] eqn:E7.
  cbv beta iota zeta. cbn [fst snd].
  unfold run, bind in E7. rewrite E2 in E7. unfold try_finally in E7.
  destruct (session h (launcher_of h dir) args dir s2) as [r8 s8] eqn:E8.
  pose proof (keeps_session h (launcher_of h dir) args dir s2) as K.
  rewrite E8 in K. cbn [snd] in K. destruct K as (_ & Kc & _).
  destruct (cleanup_worktree_if_needed_spec h s8) as (Hret & evs & Ht & Hnil & _).
  destruct (cleanup_worktree_if_needed h s8) as [r9 s9] eqn:E9.
  cbn [fst snd] in Hret, Ht. subst r9.
  injection E7 as <- <-.
  rewrite Hnil, app_nil_r in Ht by (rewrite Kc, Hc; reflexivity).
  destruct (acts__cleanup_temp_dir (launcher_of h dir) s9) as (hook & Th & Fh).
  exists r8, s8, hook. split; [reflexivity|]. split; [reflexivity|].
  rewrite Th, Ht. auto.
Qed.

(** C5.  When [git worktree add] fails, the acquisition phase prints the
    warning and returns the current directory, with [worktree_created] still
    false.  The run then goes on: it is the session on the current
    directory, which starts at once (its first line follows the warning),
    then the exit hook; the exit status is that of the session, and nothing
    is torn down.  Every [podman run] of the run mounts the current
    directory and nothing else, and there is one whenever the run ends with
    status 0. *)
Theorem failed_checkout_falls_back
    (h : Host) (args : Args) (fs : gset string) (dir : string) (r0 : CompletedProcess) :
  let out := main h args (boot fs dir) in
  In (Spawn worktree_add r0) (trace (snd out)) ->
  returncode r0 <> 0 ->
  exists s2 r8 s8,
    setup h (launcher_of h dir) args (started h fs dir) = (Ret dir, s2) /\
    worktree_created s2 = false /\
    worktree_path s2 = Some dir /\
    (exists before, trace s2 = before ++ [fallback_warning]) /\
    session h (launcher_of h dir) args dir s2 = (r8, s8) /\
    (exists rest, trace s8 = trace s2 ++ preparing_line :: rest) /\
    fst out = exit_status r8 /\
    (exists hook,
        trace (snd out) = trace s8 ++ hook /\ forallb (allowed [KAtexit]) hook = true) /\
    worktree_created (snd out) = false /\
    worktree_path (snd out) = Some dir /\
    In fallback_warning (trace (snd out)) /\
    (forall e, In e (trace (snd out)) -> kind e <> KTeardown) /\
    (forall cmd r,
        In (Spawn cmd r) (trace (snd out)) -> cmd_kind cmd = KRun ->
        podman_run_on h dir cmd) /\
    (fst out = 0 ->
     exists cmd r, In (Spawn cmd r) (trace s8) /\ podman_run_on h dir cmd).
Proof.
  cbv zeta.
  destruct (main_teardown h args fs dir) as (r2 & s2 & code & s9 & E2 & Em & W2 & Hc).
  destruct (main_podman_run h args fs dir) as (r2' & s2' & code' & s9' & E2' & Em' & Hrun & Hok).
  rewrite E2 in E2'. rewrite Em in Em'. injection E2' as <- <-. injection Em' as <- <-.
  intros Hin Hr0. rewrite Em in Hin. cbn [snd] in Hin.
  destruct (setup_outcome h (launcher_of h dir) args (started h fs dir))
    as (evs & Ht & _ & _ & _ & Ffail).
  pose proof (setup_fallback_last h (launcher_of h dir) args (started h fs dir) evs r0 Ht)
    as Hlast.
  rewrite E2 in Ht, Ffail, Hlast. cbn [fst snd] in Ht, Ffail, Hlast.
  assert (Hk0 : kind (Spawn worktree_add r0) = KCheckout) by reflexivity.
  assert (Hev : In (Spawn worktree_add r0) evs).
  { assert (H2 : In (Spawn worktree_add r0) (trace s2)).
    { destruct r2 as [mp | e].
      - destruct Hc as (sx & X & Wu).
        destruct (wound_up_spec _ _ _ _ Wu) as ((( e9 & T9 & F9) & _) & _).
        rewrite T9, in_app_iff in Hin. destruct Hin as [H | H].
        + destruct X as ((ex & Tx & Fx) & _).
          rewrite Tx, in_app_iff in H. destruct H as [H | H]; [exact H | exfalso].
          pose proof (not_in_kinds _ _ _ _ Fx H Hk0). discriminate.
        + exfalso. pose proof (not_in_kinds _ _ _ _ F9 H Hk0). discriminate.
      - destruct Hc as (_ & ((e9 & T9 & F9) & _)).
        rewrite T9, in_app_iff in Hin. destruct Hin as [H | H]; [exact H | exfalso].
        pose proof (not_in_kinds _ _ _ _ F9 H Hk0). discriminate. }
    rewrite Ht, started_trace, in_app_iff in H2.
    destruct H2 as [[H | [H | []]] | H]; [discriminate H | discriminate H | exact H]. }
  destruct (Ffail r0 Hev Hr0) as (Hret & Hcr & Hpath & Hwarn).
  change (cwd (launcher_of h dir)) with dir in Hret, Hpath.
  destruct (started_flags h fs dir) as (_ & Hc1 & _). rewrite Hc1 in Hcr.
  subst r2.
  destruct (run_after_fallback h args fs dir s2 E2 Hcr) as (r8 & s8 & hook & E8 & Hcode & Th & Fh).
  rewrite Em in Hcode, Th. cbn [fst snd] in Hcode, Th.
  destruct Hc as (sx & X & Wu).
  destruct (wound_up_spec _ _ _ _ Wu) as (W & Wq).
  assert (Hcx : worktree_created sx = false) by (destruct X as (_ & _ & -> & _); exact Hcr).
  rewrite Hcx in Wq. specialize (Wq eq_refl).
  assert (Wx : within (KCheckout :: session_kinds) sx) by grow W2 X.
  assert (W9 : within (KAtexit :: KCheckout :: session_kinds) s9) by grow Wx Wq.
  exists s2, r8, s8. rewrite Em. cbn [fst snd].
  split; [exact E2|].
  split; [exact Hcr|].
  split; [exact Hpath|].
  split; [exact (Hlast Hev Hr0)|].
  split; [exact E8|].
  split.
  { pose proof (begins_session h (launcher_of h dir) args dir s2) as B.
    rewrite E8 in B. exact B. }
  split; [exact Hcode|].
  split; [exists hook; auto|].
  split; [destruct W as (_ & _ & -> & _); exact Hcx|].
  split; [destruct W as (_ & -> & _), X as (_ & -> & _); exact Hpath|].
  split.
  { eapply extends_keeps_log; [apply W|].
    eapply extends_keeps_log; [apply X|].
    rewrite Ht, in_app_iff. auto. }
  split.
  { intros e He Hk. pose proof (kind_excluded _ _ _ (within_in _ _ _ W9 He) Hk). discriminate. }
  split.
  { intros cmd r Hin' Hk. destruct (Hrun cmd r Hin' Hk) as (mp & Hmp & ->).
    injection Hmp as <-. apply entry_command_on. }
  intros Hz. destruct (Hok Hz) as (mp & r & Hmp & Hin').
  injection Hmp as <-.
  exists (entry_command (launcher_of h dir) dir (message args) (permission_mode args)), r.
  split; [| apply entry_command_on].
  rewrite Th, in_app_iff in Hin'. destruct Hin' as [H | H]; [exact H | exfalso].
  assert (Hk : kind (Spawn (entry_command (launcher_of h dir) dir (message args)
                              (permission_mode args)) r) = KRun).
  { cbn [kind]. destruct (entry_command_on h dir dir (message args) (permission_mode args))
      as (tail & -> & _). reflexivity. }
  pose proof (not_in_kinds _ _ _ _ Fh H Hk). discriminate.
Qed.

(** ** The reconciler inside a run *)

(** The log of a run around the events of the reconciler. *)
Lemma main_reconcile (h : Host) (args : Args) (fs : gset string) (dir : string) :
  exists code s9,
    main h args (boot fs dir) = (code, s9) /\
    ((forall e, In e (trace s9) -> kind e <> KReconcile)
     \/
     (exists s cp s7 before e7 e9,
         handle_worktree_post_processing h s = (cp, s7) /\
         code = exit_status cp /\
         trace s = before /\
         trace s7 = before ++ e7 /\
         trace s9 = before ++ e7 ++ e9 /\
         forallb (allowed [KPrint; KCheckout; KConfig; KImage; KBuild; KRelease; KStop; KRun])
           before = true /\
         forallb (allowed [KPrint; KTeardown; KAtexit]) e9 = true)).
Proof.
  destruct (reconcile_cases h args fs dir) as (r2 & s2 & code & s9 & E2 & Em & Hrec).
  destruct (main_anatomy h args fs dir) as (r2' & s2' & code' & s9' & E2' & Em' & Hc).
  rewrite E2 in E2'. rewrite Em in Em'. injection E2' as <- <-. injection Em' as <- <-.
  exists code, s9. split; [exact Em|].
  pose proof (acquired_within h args fs dir r2 s2 E2) as W2.
  assert (Hno : reconciled (trace s9) = false ->
                forall e, In e (trace s9) -> kind e <> KReconcile).
  { unfold reconciled. intros Hr e He Hk.
    assert (existsb (fun e => Kind_eqb (kind e) KReconcile) (trace s9) = true); [| congruence].
    apply existsb_exists. exists e. rewrite Hk. auto. }
  destruct r2 as [mp | e].
  - destruct Hc as [(s3 & _ & X & Wu)
                   | (s4 & s5 & s6 & cp & s7 & X & E5 & E6 & E7 & Hcode & Wu)].
    + left. destruct (wound_up_spec _ _ _ _ Wu) as (W & _).
      assert (W3 : within [KPrint; KCheckout; KConfig; KImage; KBuild] s3) by grow W2 X.
      assert (W9 : within [KPrint; KCheckout; KConfig; KImage; KBuild; KTeardown; KAtexit] s9)
        by grow W3 W.
      intros e0 He Hk.
      pose proof (kind_excluded _ _ _ (within_in _ _ _ W9 He) Hk). discriminate.
    + right.
      destruct (before_reconcile h _ args mp s2 s4 s5 s6 W2 X E5 E6) as (W6 & _).
      destruct (acts_handle_worktree_post_processing h (log stopped_line s6))
        as (e7 & T7 & F7).
      rewrite E7 in T7. cbn [snd] in T7.
      destruct (wound_up_spec _ _ _ _ Wu) as (((e9 & T9 & F9) & _) & _).
      exists (log stopped_line s6), cp, s7, (trace (log stopped_line s6)), e7, e9.
      repeat split; try assumption.
      rewrite T9, T7, <- app_assoc. reflexivity.
  - left. destruct Hc as (_ & X).
    assert (W9 : within [KPrint; KCheckout; KConfig; KAtexit] s9) by grow W2 X.
    intros e0 He Hk.
    pose proof (kind_excluded _ _ _ (within_in _ _ _ W9 He) Hk). discriminate.
Qed.

Lemma is_push_kind (e : Event) : is_push e = true -> kind e = KReconcile.
Proof.
  destruct e as [cmd r | | | | | | |]; try discriminate.
  intros H. cbn [kind]. apply (starts_with_kind ["git"; "push"]); [exact H | reflexivity].
Qed.

Lemma no_push_in (ks : list Kind) (l : list Event) :
  forallb (allowed ks) l = true ->
  existsb (Kind_eqb KReconcile) ks = false ->
  forallb (fun e => negb (is_push e)) l = true.
Proof.
  rewrite !forallb_forall. intros F Hk e He.
  destruct (is_push e) eqn:Hp; [| reflexivity].
  pose proof (kind_excluded _ _ _ (F e He) (is_push_kind e Hp)). congruence.
Qed.

(** C6.  When the first push of a run fails, the next event is one push
    with [--set-upstream], and the log has no other push; if that one fails
    too, the warning is printed, the run ends with status 0, and nothing but
    the return to the original directory, teardown and the exit hook
    follows. *)
Theorem push_retried_once_then_warned
    (h : Host) (args : Args) (fs : gset string) (dir : string)
    (b : string) (r1 : CompletedProcess) :
  let out := main h args (boot fs dir) in
  In (Spawn ["git"; "push"; "origin"; b] r1) (trace (snd out)) ->
  returncode r1 <> 0 ->
  exists pre r2 post,
    trace (snd out) =
      pre ++ [Spawn ["git"; "push"; "origin"; b] r1;
              Spawn ["git"; "push"; "--set-upstream"; "origin"; b] r2] ++ post /\
    forallb (fun e => negb (is_push e)) pre = true /\
    forallb (fun e => negb (is_push e)) post = true /\
    (returncode r2 <> 0 ->
     fst out = 0 /\
     exists orig rest,
       post = push_warning :: Chdir orig :: rest /\
       forallb (allowed [KPrint; KTeardown; KAtexit]) rest = true).
Proof.
  cbv zeta.
  destruct (main_reconcile h args fs dir) as (code & s9 & Em & Hc).
  rewrite Em. cbn [fst snd]. intros Hin Hr1.
  assert (Hk : kind (Spawn ["git"; "push"; "origin"; b] r1) = KReconcile) by reflexivity.
  destruct Hc as [Hno | (s & cp & s7 & before & e7 & e9 & E7 & Hcode & Tb & T7 & T9 & Fb & F9)].
  { exfalso. exact (Hno _ Hin Hk). }
  destruct (handle_push h s) as (evs & Te & Hpush).
  rewrite E7 in Te, Hpush. cbn [fst snd] in Te, Hpush.
  rewrite Tb, T7 in Te. apply app_inv_head in Te. subst evs.
  assert (Hin7 : In (Spawn ["git"; "push"; "origin"; b] r1) e7).
  { rewrite T9, !in_app_iff in Hin. destruct Hin as [H | [H | H]]; [exfalso | exact H | exfalso].
    - pose proof (not_in_kinds _ _ _ _ Fb H Hk). discriminate.
    - pose proof (not_in_kinds _ _ _ _ F9 H Hk). discriminate. }
  destruct (Hpush b r1 Hin7 Hr1) as (pre & r2 & post & -> & Npre & Npost & Hwarn).
  exists (before ++ pre), r2, (post ++ e9).
  split; [rewrite T9, <- !app_assoc; reflexivity|].
  split; [rewrite forallb_app, Npre, (no_push_in _ _ Fb eq_refl); reflexivity|].
  split; [rewrite forallb_app, Npost, (no_push_in _ _ F9 eq_refl); reflexivity|].
  intros Hr2. destruct (Hwarn Hr2) as (-> & orig & ->).
  split; [rewrite Hcode; reflexivity|].
  exists orig, e9. split; [reflexivity | exact F9].
Qed.

Lemma writes_history_kind (e : Event) : writes_history e = true -> kind e = KReconcile.
Proof.
  destruct e as [cmd r | | | | | | |]; try discriminate.
  unfold writes_history. cbn [spawned kind]. rewrite !orb_true_iff.
  intros [[H | H] | H];
    [apply (starts_with_kind ["git"; "add"]) | apply (starts_with_kind ["git"; "commit"])
    | apply (starts_with_kind ["git"; "push"])]; solve [exact H | reflexivity].
Qed.

Lemma no_writes_in (ks : list Kind) (l : list Event) :
  forallb (allowed ks) l = true ->
  existsb (Kind_eqb KReconcile) ks = false ->
  forallb (fun e => negb (writes_history e)) l = true.
Proof.
  rewrite !forallb_forall. intros F Hk e He.
  destruct (writes_history e) eqn:Hp; [| reflexivity].
  pose proof (kind_excluded _ _ _ (F e He) (writes_history_kind e Hp)). congruence.
Qed.

Lemma not_committed (l : list Event) :
  forallb (fun e => negb (writes_history e)) l = true -> committed l = false.
Proof.
  unfold committed. intros F. apply not_true_is_false. intros H.
  apply existsb_exists in H. destruct H as (e & He & Hc).
  rewrite forallb_forall in F. specialize (F e He).
  unfold writes_history in F. rewrite Hc, orb_true_r in F. discriminate F.
Qed.

(** C7.  When both diffs of the reconciler exit with 0 and the listing of
    untracked files is blank, the run spawns no [git add], [git commit] or
    [git push], reports that there are no changes, and has not committed. *)
Theorem no_changes_nothing_committed
    (h : Host) (args : Args) (fs : gset string) (dir : string)
    (r1 r2 r3 : CompletedProcess) :
  let out := main h args (boot fs dir) in
  In (Spawn ["git"; "diff"; "--quiet"] r1) (trace (snd out)) ->
  In (Spawn ["git"; "diff"; "--cached"; "--quiet"] r2) (trace (snd out)) ->
  In (Spawn ["git"; "ls-files"; "--others"; "--exclude-standard"] r3) (trace (snd out)) ->
  returncode r1 = 0 -> returncode r2 = 0 -> Str.strip (stdout r3) = "" ->
  forallb (fun e => negb (writes_history e)) (trace (snd out)) = true /\
  committed (trace (snd out)) = false /\
  In no_changes_line (trace (snd out)) /\
  fst out = 0.
Proof.
  cbv zeta.
  destruct (main_reconcile h args fs dir) as (code & s9 & Em & Hc).
  rewrite Em. cbn [fst snd]. intros H1 H2 H3 Z1 Z2 Z3.
  assert (K1 : kind (Spawn ["git"; "diff"; "--quiet"] r1) = KReconcile) by reflexivity.
  assert (K2 : kind (Spawn ["git"; "diff"; "--cached"; "--quiet"] r2) = KReconcile)
    by reflexivity.
  assert (K3 : kind (Spawn ["git"; "ls-files"; "--others"; "--exclude-standard"] r3)
               = KReconcile) by reflexivity.
  destruct Hc as [Hno | (s & cp & s7 & before & e7 & e9 & E7 & Hcode & Tb & T7 & T9 & Fb & F9)].
  { exfalso. exact (Hno _ H1 K1). }
  destruct (handle_no_changes h s) as (evs & Te & Hquiet).
  rewrite E7 in Te, Hquiet. cbn [fst snd] in Te, Hquiet.
  rewrite Tb, T7 in Te. apply app_inv_head in Te. subst evs.
  assert (In7 : forall e, In e (trace s9) -> kind e = KReconcile -> In e e7).
  { intros e He Hk. rewrite T9, !in_app_iff in He.
    destruct He as [H | [H | H]]; [exfalso | exact H | exfalso].
    - pose proof (not_in_kinds _ _ _ _ Fb H Hk). discriminate.
    - pose proof (not_in_kinds _ _ _ _ F9 H Hk). discriminate. }
  destruct (Hquiet r1 r2 r3 (In7 _ H1 K1) (In7 _ H2 K2) (In7 _ H3 K3) Z1 Z2 Z3)
    as (Hw & Hret & Hline).
  assert (Hall : forallb (fun e => negb (writes_history e)) (trace s9) = true).
  { rewrite T9, !forallb_app, Hw, (no_writes_in _ _ Fb eq_refl),
      (no_writes_in _ _ F9 eq_refl). reflexivity. }
  split; [exact Hall|]. split; [exact (not_committed _ Hall)|].
  split; [rewrite T9, !in_app_iff; auto|].
  rewrite Hcode, Hret. reflexivity.
Qed.

(** ** The container inside a run *)

Lemma split_unique {A} (P : A -> Prop) (a b a' b' : list A) (x x' : A) :
  a ++ x :: b = a' ++ x' :: b' ->
  (forall y, In y a -> ~ P y) -> (forall y, In y b -> ~ P y) -> P x' ->
  a' = a /\ x' = x /\ b' = b.
Proof.
  revert a'. induction a as [| y a IH]; intros a' E Ha Hb Hx.
  - destruct a' as [| y' a'].
    + injection E as -> ->. auto.
    + injection E as -> ->. exfalso.
      apply (Hb x'); [rewrite in_app_iff; simpl; auto | exact Hx].
  - destruct a' as [| y' a'].
    + injection E as -> _. exfalso. apply (Ha x'); [simpl; auto | exact Hx].
    + injection E as -> E.
      destruct (IH a' E) as (-> & -> & ->); auto.
      intros z Hz. apply Ha. simpl. auto.
Qed.

Lemma no_run_in (ks : list Kind) (l : list Event) :
  forallb (allowed ks) l = true ->
  existsb (Kind_eqb KRun) ks = false ->
  forall y, In y l -> ~ is_run y.
Proof.
  intros F Hk y Hy Hr. pose proof (not_in_kinds _ _ _ _ F Hy Hr). congruence.
Qed.

(** C9.  [stop_existing_container] never raises, and when the query finds
    no container it does nothing else.  In a run, whatever precedes a
    [podman run] ends with the query, then, when the query found a container,
    [podman stop] and [podman rm], then only printed lines. *)
Theorem stale_container_stopped_before_run
    (h : Host) (args : Args) (fs : gset string) (dir : string) :
  (forall self s,
      let q := fst (subprocess h s (container_query self)) in
      fst (stop_existing_container h self s) = Ret tt /\
      (returncode q <> 0 ->
       trace (snd (stop_existing_container h self s))
         = trace s ++ [Spawn (container_query self) q]))
  /\
  (forall pre cmd r post,
      trace (snd (main h args (boot fs dir))) = pre ++ Spawn cmd r :: post ->
      cmd_kind cmd = KRun ->
      stopped_before (launcher_of h dir) pre).
Proof.
  split.
  { intros self s. cbv zeta.
    destruct (stop_existing_container_spec h self s) as (Hret & Hnone & _). auto. }
  intros pre cmd r post Hsplit Hk. unfold stopped_before.
  destruct (main_anatomy h args fs dir) as (r2 & s2 & code & s9 & E2 & Em & Hc).
  rewrite Em in Hsplit. cbn [snd] in Hsplit.
  pose proof (acquired_within h args fs dir r2 s2 E2) as W2.
  assert (Hin : In (Spawn cmd r) (trace s9)) by (rewrite Hsplit, in_app_iff; simpl; auto).
  destruct r2 as [mp | e].
  - destruct Hc as [(s3 & _ & X & Wu)
                   | (s4 & s5 & s6 & cp & s7 & X & E5 & E6 & E7 & Hcode & Wu)].
    + exfalso. destruct (wound_up_spec _ _ _ _ Wu) as (W & _).
      assert (W3 : within [KPrint; KCheckout; KConfig; KImage; KBuild] s3) by grow W2 X.
      assert (W9 : within [KPrint; KCheckout; KConfig; KImage; KBuild; KTeardown; KAtexit] s9)
        by grow W3 W.
      pose proof (kind_excluded _ _ _ (within_in _ _ _ W9 Hin) Hk). discriminate.
    + destruct (container_case_trace h _ args mp s4 s5 s6 s7 s9 cp E5 E6 E7 Wu)
        as (e5 & lines & rr & e7 & e9 & T9 & T5 & _ & F5 & F6 & F7 & F9).
      assert (W4 : within [KPrint; KCheckout; KConfig; KImage; KBuild; KRelease] s4)
        by grow W2 X.
      assert (T9' : trace s9 =
                (trace s4 ++ e5 ++ lines)
                ++ Spawn (entry_command (launcher_of h dir) mp (message args)
                            (permission_mode args)) rr
                :: ([stopped_line] ++ e7 ++ e9)).
      { rewrite T9, <- !app_assoc. reflexivity. }
      rewrite Hsplit in T9'. symmetry in T9'.
      destruct (split_unique is_run _ _ _ _ _ _ T9') as (-> & _ & _).
      * intros y Hy. rewrite !in_app_iff in Hy. destruct Hy as [H | [H | H]].
        -- exact (no_run_in _ _ W4 eq_refl y H).
        -- exact (no_run_in _ _ F5 eq_refl y H).
        -- exact (no_run_in _ _ F6 eq_refl y H).
      * intros y Hy. rewrite !in_app_iff in Hy. destruct Hy as [H | [H | H]].
        -- destruct H as [<- | []]. discriminate.
        -- exact (no_run_in _ _ F7 eq_refl y H).
        -- exact (no_run_in _ _ F9 eq_refl y H).
      * exact Hk.
      * destruct (stop_existing_container_spec h (launcher_of h dir) s4)
          as (_ & Hnone & Hsome).
        rewrite E5 in Hnone, Hsome. cbn [snd] in Hnone, Hsome.
        exists (trace s4), (fst (subprocess h s4 (container_query (launcher_of h dir)))), lines.
        split; [exact F6|]. split; [exact W4|].
        destruct (Z.eq_dec
                    (returncode (fst (subprocess h s4 (container_query (launcher_of h dir)))))
                    0) as [Hz | Hz].
        -- right. split; [exact Hz|]. destruct (Hsome Hz) as (r1 & r2 & T5').
           rewrite T5 in T5'. apply app_inv_head in T5'. subst e5.
           exists r1, r2. rewrite <- ?app_assoc. reflexivity.
        -- left. split; [exact Hz|]. specialize (Hnone Hz).
           rewrite T5 in Hnone. apply app_inv_head in Hnone. subst e5. reflexivity.
  - exfalso. destruct Hc as (_ & X).
    assert (W9 : within [KPrint; KCheckout; KConfig; KAtexit] s9) by grow W2 X.
    pose proof (kind_excluded _ _ _ (within_in _ _ _ W9 Hin) Hk). discriminate.
Qed.

(** C10.  In a run with a non-empty [--message], every [podman run] ends
    with [bash -c] and the claude command line: with
    [--dangerously-skip-permissions] when no permission mode is given (or an
    empty one), with [--permission-mode <mode>] instead when one is given;
    and a run that ends with status 0 has such a [podman run]. *)
Theorem entry_command_permissions
    (h : Host) (args : Args) (fs : gset string) (dir : string) (text : string) :
  let out := main h args (boot fs dir) in
  message args = Some text ->
  text <> "" ->
  (forall cmd r,
      In (Spawn cmd r) (trace (snd out)) -> cmd_kind cmd = KRun ->
      exists mount_path,
        (opt_truthy (permission_mode args) = false ->
         cmd = run_args (launcher_of h dir) mount_path
               ++ ["bash"; "-c";
                   "claude --dangerously-skip-permissions -p "
                   +:+ Str.dquote +:+ text +:+ Str.dquote
                   +:+ " --output-format stream-json --verbose"])
        /\
        (forall mode,
            permission_mode args = Some mode -> mode <> "" ->
            cmd = run_args (launcher_of h dir) mount_path
                  ++ ["bash"; "-c";
                      "claude --permission-mode " +:+ mode +:+ " -p "
                      +:+ Str.dquote +:+ text +:+ Str.dquote
                      +:+ " --output-format stream-json --verbose"]))
  /\
  (fst out = 0 ->
   exists cmd r, In (Spawn cmd r) (trace (snd out)) /\ cmd_kind cmd = KRun).
Proof.
  cbv zeta. intros Hmsg Htext.
  destruct (main_podman_run h args fs dir) as (r2 & s2 & code & s9 & E2 & Em & Hrun & Hok).
  rewrite Em. cbn [fst snd].
  assert (Htruthy : Str.truthy text = true) by (destruct text; [congruence | reflexivity]).
  split.
  - intros cmd r Hin Hk. destruct (Hrun cmd r Hin Hk) as (mp & _ & ->).
    exists mp. unfold entry_command. rewrite Hmsg, Htruthy. split.
    + intros Hperm. do 3 f_equal. unfold claude_cmd.
      destruct (permission_mode args) as [mode |]; [| reflexivity].
      cbn [opt_truthy] in Hperm. rewrite Hperm. reflexivity.
    + intros mode -> Hmode. do 3 f_equal. unfold claude_cmd.
      assert (Str.truthy mode = true) as -> by (destruct mode; [congruence | reflexivity]).
      reflexivity.
  - intros Hcode. destruct (Hok Hcode) as (mp & r & _ & Hin).
    eexists _, r. split; [exact Hin|].
    unfold entry_command. destruct (message args) as [t |]; [destruct (Str.truthy t) |];
      reflexivity.
Qed.

(** ** The build decision *)

Lemma acts_eq {A} (ks : list Kind) (m : M A) (s s' : State) (r : outcome A) :
  acts ks m -> m s = (r, s') ->
  exists evs, trace s' = trace s ++ evs /\ forallb (allowed ks) evs = true.
Proof. intros Ha E. destruct (Ha s) as (evs & T & F). rewrite E in T. eauto. Qed.

(** In [session], [podman build] is spawned exactly when [should_build_image]
    answered true. *)
Lemma session_builds (h : Host) (self : Launcher) (args : Args) (mp : string)
    (s s1 s2 s' : State) (b : bool) (r : outcome unit) :
  prepare_claude_config h self s = (Ret tt, s1) ->
  should_build_image h self (no_cache args) s1 = (Ret b, s2) ->
  session h self args mp s = (r, s') ->
  exists evs,
    trace s' = trace s ++ evs /\
    (b = true <-> exists rb, In (Spawn (build_args self (no_cache args)) rb) evs).
Proof.
  intros E1 E2.
  destruct (acts_eq _ _ _ _ _ (acts_prepare_claude_config h self) E1) as (e1 & T1 & F1).
  destruct (acts_eq _ _ _ _ _ (acts_should_build_image h self (no_cache args)) E2)
    as (e2 & T2 & F2).
  assert (Hk : forall rb, kind (Spawn (build_args self (no_cache args)) rb) = KBuild)
    by reflexivity.
  change (session h self args mp s) with
    (bind (prepare_claude_config h self)
       (fun _ => bind (should_build_image h self (no_cache args))
          (fun build => bind (when build (build_image h self (no_cache args)))
             (fun _ => bind (cleanup_temp_files self)
                (fun _ => container_phase h self args mp)))) s).
  unfold bind at 1. rewrite E1. cbv beta iota.
  unfold bind at 1. rewrite E2. cbv beta iota.
  unfold bind at 1.
  set (rest := bind (cleanup_temp_files self) (fun _ => container_phase h self args mp)).
  assert (Arest : acts [KPrint; KRelease; KStop; KRun; KReconcile] rest).
  { subst rest. unfold container_phase. solve_acts. }
  destruct b; cbn [when].
  - unfold build_image at 1. unfold bind at 1.
    change (print_colored "Building Claude Code Ubuntu image..." Colors.GREEN s2)
      with (Ret tt, log (Stderr (Colors.GREEN +:+ "Building Claude Code Ubuntu image..."
                                 +:+ Colors.NC)) s2).
    cbv beta iota. unfold bind at 1.
    destruct (subprocess_run h true (build_args self (no_cache args)) _) as [r3 s3] eqn:E3.
    assert (T3 : exists rb, trace s3 = trace s2
                   ++ [Stderr (Colors.GREEN +:+ "Building Claude Code Ubuntu image..."
                               +:+ Colors.NC);
                       Spawn (build_args self (no_cache args)) rb]).
    { unfold subprocess_run in E3.
      destruct (true && _) in E3; injection E3 as <- <-; cbn [log trace set_files];
        rewrite <- app_assoc; eexists; reflexivity. }
    destruct T3 as (rb & T3).
    destruct r3 as [c | e]; cbv beta iota.
    + intros Es. destruct (acts_eq _ _ _ _ _ Arest Es) as (e4 & T4 & F4).
      exists (e1 ++ e2 ++ [Stderr (Colors.GREEN +:+ "Building Claude Code Ubuntu image..."
                                   +:+ Colors.NC);
                           Spawn (build_args self (no_cache args)) rb] ++ e4).
      split; [rewrite T4, T3, T2, T1, <- !app_assoc; reflexivity |].
      split; [intros _ | reflexivity].
      exists rb. rewrite !in_app_iff. right. right. left. right. left. reflexivity.
    + intros Es. injection Es as <- <-.
      exists (e1 ++ e2 ++ [Stderr (Colors.GREEN +:+ "Building Claude Code Ubuntu image..."
                                   +:+ Colors.NC);
                           Spawn (build_args self (no_cache args)) rb]).
      split; [rewrite T3, T2, T1, <- !app_assoc; reflexivity |].
      split; [intros _ | reflexivity].
      exists rb. rewrite !in_app_iff. right. right. right. left. reflexivity.
  - change (ret tt s2) with (@Ret unit tt, s2). cbv beta iota.
    intros Es. destruct (acts_eq _ _ _ _ _ Arest Es) as (e4 & T4 & F4).
    exists (e1 ++ e2 ++ e4).
    split; [rewrite T4, T2, T1, <- !app_assoc; reflexivity |].
    split; [discriminate |].
    intros (rb & Hin). exfalso. rewrite !in_app_iff in Hin.
    destruct Hin as [H | [H | H]].
    + pose proof (not_in_kinds _ _ _ _ F1 H (Hk rb)). discriminate.
    + pose proof (not_in_kinds _ _ _ _ F2 H (Hk rb)). discriminate.
    + pose proof (not_in_kinds _ _ _ _ F4 H (Hk rb)). discriminate.
Qed.

Lemma should_build_image_policy (h : Host) (self : Launcher) (nc : bool) (s : State) :
  fst (should_build_image h self nc s) = Ret (build_policy h self nc s).
Proof.
  unfold build_policy, image_exists, image_inspected, recipe_present, after,
    image_query, image_inspect.
  run_once (should_build_image h self nc s).
  unfold should_build_image. unfold_py. cbn [fst snd].
  destruct nc; [intros <-; reflexivity |].
  cbn [negb orb andb].
  destruct (subprocess h s ["podman"; "image"; "exists"; image_name self]) as [q fq].
  cbn [fst snd].
  destruct (returncode q =? 0); cbn [negb orb andb]; [| intros <-; reflexivity].
  destruct (subprocess h _ ["podman"; "image"; "inspect"; image_name self; "--format";
                            "{{.Created}}"]) as [i fi].
  cbn [fst snd].
  destruct (returncode i =? 0); cbn [negb orb andb]; intros <-; reflexivity.
Qed.

(** C3, as amended.  [should_build_image] answers true exactly when the
    forced-rebuild flag is set, or no image with the tag exists, or the
    creation time of the image can be queried and the recipe file is present;
    no times are compared.  With the flag set it answers true whatever the
    host says.  And a session whose configuration phase succeeds spawns
    [podman build] exactly when the answer is true. *)
Theorem build_decision (h : Host) (self : Launcher) (args : Args) (mp : string) :
  (forall nc s,
      fst (should_build_image h self nc s) = Ret (build_policy h self nc s))
  /\
  (forall s, fst (should_build_image h self true s) = Ret true)
  /\
  (forall s s1 s2 s' b r,
      prepare_claude_config h self s = (Ret tt, s1) ->
      should_build_image h self (no_cache args) s1 = (Ret b, s2) ->
      session h self args mp s = (r, s') ->
      exists evs,
        trace s' = trace s ++ evs /\
        (b = true <-> exists rb, In (Spawn (build_args self (no_cache args)) rb) evs)).
Proof.
  split; [exact (should_build_image_policy h self) |].
  split; [reflexivity |].
  intros s s1 s2 s' b r. apply session_builds.
Qed.

(** * Further properties of the launcher *)

(** ** The run and its exit hook *)

Lemma main_exit (h : Host) (args : Args) (fs : gset string) (dir : string) :
  exists r7 s7,
    run h (launcher_of h dir) args (started h fs dir) = (r7, s7) /\
    main h args (boot fs dir)
      = (exit_status r7, snd (_cleanup_temp_dir (launcher_of h dir) s7)).
Proof.
  unfold main. rewrite init_boot.
  destruct (run h (launcher_of h dir) args (started h fs dir)) as [r7 s7].
  exists r7, s7. split; reflexivity.
Qed.

(** ** The exit status *)

Lemma commit_step_failed_kind (e : Event) :
  commit_step_failed e = true -> kind e = KReconcile.
Proof.
  destruct e as [cmd r | | | | | | |]; try discriminate.
  unfold commit_step_failed. cbn [kind]. rewrite andb_true_iff, !orb_true_iff.
  intros [[[H | H] | H] _];
    [apply (starts_with_kind ["git"; "add"]) | apply (starts_with_kind ["git"; "commit"])
    | apply (starts_with_kind ["git"; "branch"])]; solve [exact H | reflexivity].
Qed.

Lemma no_failed_step_in (ks : list Kind) (l : list Event) :
  forallb (allowed ks) l = true ->
  existsb (Kind_eqb KReconcile) ks = false ->
  existsb commit_step_failed l = false.
Proof.
  intros F Hk. apply not_true_is_false. intros H.
  apply existsb_exists in H. destruct H as (e & He & Hf).
  pose proof (not_in_kinds _ _ _ _ F He (commit_step_failed_kind e Hf)). congruence.
Qed.


Lemma entry_command_kind (self : Launcher) (mp : string) (msg mode : option string) :
  cmd_kind (entry_command self mp msg mode) = KRun.
Proof.
  apply (starts_with_kind (run_args self mp)); [apply entry_command_mount | reflexivity].
Qed.

(** The events of [run_container]: printed lines and the [podman run]. *)
Lemma container_chunk (self : Launcher) (mp : string) (msg mode : option string)
    (lines : list Event) (rr : CompletedProcess) :
  forallb (allowed [KPrint]) lines = true ->
  forallb (allowed [KPrint; KRun]) (lines ++ [Spawn (entry_command self mp msg mode) rr])
    = true.
Proof.
  intros F. rewrite forallb_app. apply andb_true_intro. split.
  - rewrite forallb_forall in *. intros e He.
    eapply allowed_within; [| apply (F e He)]. reflexivity.
  - cbn [forallb]. unfold allowed. cbn [kind]. rewrite entry_command_kind.
    reflexivity.
Qed.

(** The reconciler raises exactly when one of its checked steps failed, and
    the exception then ends the process with status 1. *)
Lemma handle_outcome (h : Host) (s : State) :
  exists evs,
    trace (snd (handle_worktree_post_processing h s)) = trace s ++ evs /\
    match fst (handle_worktree_post_processing h s) with
    | Ret _ => existsb commit_step_failed evs = false
    | Raise e =>
        existsb commit_step_failed evs = true /\
        exit_status (@Raise unit e) = 1
    end.
Proof.
  run_once (handle_worktree_post_processing h s).
  unfold handle_worktree_post_processing, detect_changes, commit_and_push, push_changes.
  unfold_py. simpl.
  execute h.
  all: finish_run; rewrite ?app_nil_r; eexists;
       (split; [reflexivity || (symmetry; apply app_nil_r) |]).
  all: cbn [existsb commit_step_failed starts_with orb andb returncode].
  all: repeat match goal with
         | E : negb (_ =? 0) = _ |- _ => rewrite ?E; clear E
         end.
  all: try reflexivity.
  all: try (split; reflexivity).
Qed.

(** The failed steps of a run that reached the container are those of the
    reconciler. *)
Lemma failed_steps_of_run (h : Host) (self : Launcher) (mp : string)
    (msg mode : option string) (s4 : State) (e5 lines e7 e9 : list Event)
    (rr : CompletedProcess) :
  within [KPrint; KCheckout; KConfig; KImage; KBuild; KRelease] s4 ->
  forallb (allowed [KPrint; KStop]) e5 = true ->
  forallb (allowed [KPrint]) lines = true ->
  forallb (allowed [KPrint; KTeardown; KAtexit]) e9 = true ->
  existsb commit_step_failed
    (trace s4 ++ e5 ++ (lines ++ [Spawn (entry_command self mp msg mode) rr])
     ++ [stopped_line] ++ e7 ++ e9)
  = existsb commit_step_failed e7.
Proof.
  intros W4 F5 F6 F9.
  pose proof (container_chunk self mp msg mode lines rr F6) as F6'.
  rewrite existsb_app, (no_failed_step_in _ _ W4 eq_refl).
  rewrite existsb_app, (no_failed_step_in _ _ F5 eq_refl).
  rewrite existsb_app, (no_failed_step_in _ _ F6' eq_refl).
  rewrite existsb_app. cbn [existsb commit_step_failed stopped_line orb].
  rewrite existsb_app, (no_failed_step_in _ _ F9 eq_refl).
  apply orb_false_r.
Qed.


(** ** The order of the phases *)

Lemma between_weaken (lo hi lo' hi' : nat) (t : list Event) :
  between lo hi t = true -> (lo' <= lo)%nat -> (hi <= hi')%nat ->
  between lo' hi' t = true.
Proof.
  revert lo lo'. induction t as [| e t IH]; intros lo lo' H Hlo Hhi; [reflexivity|].
  simpl in *. destruct (Kind_eqb (kind e) KPrint); [eauto|].
  apply andb_prop in H. destruct H as [H H3]. apply andb_prop in H. destruct H as [H1 H2].
  apply Nat.leb_le in H1, H2.
  rewrite (IH _ _ H3 (le_n _) Hhi).
  rewrite !andb_true_r. apply andb_true_intro.
  split; apply Nat.leb_le; lia.
Qed.

Lemma between_app (a b c d : nat) (t1 t2 : list Event) :
  between a b t1 = true -> between c d t2 = true ->
  (a <= c)%nat -> (b <= c)%nat -> (b <= d)%nat ->
  between a d (t1 ++ t2) = true.
Proof.
  revert a. induction t1 as [| e t IH]; intros a H1 H2 Hac Hbc Hbd.
  - simpl. eapply between_weaken; eauto.
  - simpl in *. destruct (Kind_eqb (kind e) KPrint); [eauto|].
    apply andb_prop in H1. destruct H1 as [H H3]. apply andb_prop in H. destruct H as [Ha Hb].
    apply Nat.leb_le in Ha, Hb.
    rewrite (IH _ H3 H2); [| lia | lia | lia].
    rewrite !andb_true_r. apply andb_true_intro.
    split; apply Nat.leb_le; lia.
Qed.

(** Events of one phase, and printed lines, are in order. *)
Lemma between_one (k : Kind) (t : list Event) :
  forallb (allowed [KPrint; k]) t = true ->
  between (phase k) (phase k) t = true.
Proof.
  induction t as [| e t IH]; intros H; [reflexivity|].
  cbn [forallb between] in *. apply andb_prop in H. destruct H as [He Ht].
  destruct (Kind_eqb (kind e) KPrint) eqn:Ep; [auto|].
  unfold allowed in He. cbn [existsb] in He. rewrite Ep in He.
  rewrite orb_false_l, orb_false_r in He. apply Kind_eqb_eq in He. rewrite He.
  rewrite Nat.leb_refl, IH; auto.
Qed.

Lemma ordered_of_acts (k : Kind) (ks : list Kind) {A} (m : M A) :
  acts ks m -> kinds_within ks [KPrint; k] = true -> ordered (phase k) (phase k) m.
Proof.
  intros Hm Hk s. destruct (acts_sub _ _ _ Hm Hk s) as (evs & T & F).
  exists evs. split; [exact T | apply between_one; exact F].
Qed.

Lemma ordered_bind (a b c d : nat) {A B} (m : M A) (k : A -> M B) :
  ordered a b m -> (forall x, ordered c d (k x)) ->
  (a <= c)%nat -> (b <= c)%nat -> (b <= d)%nat ->
  ordered a d (bind m k).
Proof.
  intros Hm Hk Hac Hbc Hbd s. unfold bind.
  destruct (Hm s) as (e1 & T1 & B1).
  destruct (m s) as [[x | e] s1]; simpl in *.
  - destruct (Hk x s1) as (e2 & T2 & B2).
    exists (e1 ++ e2). rewrite T2, T1, app_assoc.
    split; [reflexivity | eapply between_app; eauto].
  - exists e1. split; [exact T1 | eapply between_weaken; eauto; lia].
Qed.

Lemma ordered_try_finally (a b c d : nat) {A} (m : M A) (fin : M unit) :
  ordered a b m -> ordered c d fin ->
  (a <= c)%nat -> (b <= c)%nat -> (b <= d)%nat ->
  ordered a d (try_finally m fin).
Proof.
  intros Hm Hf Hac Hbc Hbd s. unfold try_finally.
  destruct (Hm s) as (e1 & T1 & B1).
  destruct (m s) as [r s1]; simpl in *.
  destruct (Hf s1) as (e2 & T2 & B2).
  exists (e1 ++ e2).
  split; [| eapply between_app; eauto].
  destruct (fin s1) as [[[] | e] s2]; simpl in *; rewrite T2, T1, app_assoc; reflexivity.
Qed.

Lemma ordered_when (lo hi : nat) (b : bool) (m : M unit) :
  ordered lo hi m -> ordered lo hi (when b m).
Proof.
  intros Hm. destruct b; [exact Hm|].
  intros s. exists []. simpl. rewrite app_nil_r. auto.
Qed.

Lemma ordered_session (h : Host) (self : Launcher) (args : Args) (mp : string) :
  ordered 2 8 (session h self args mp).
Proof.
  unfold session.
  eapply (ordered_bind 2 2 3 8);
    [eapply (ordered_of_acts KConfig); [apply acts_prepare_claude_config | reflexivity]
    | intros _ | lia | lia | lia].
  eapply (ordered_bind 3 3 4 8);
    [eapply (ordered_of_acts KImage); [apply acts_should_build_image | reflexivity]
    | intros build | lia | lia | lia].
  eapply (ordered_bind 4 4 5 8);
    [apply ordered_when; eapply (ordered_of_acts KBuild); [apply acts_build_image | reflexivity]
    | intros _ | lia | lia | lia].
  eapply (ordered_bind 5 5 6 8);
    [eapply (ordered_of_acts KRelease); [apply acts_cleanup_temp_files | reflexivity]
    | intros _ | lia | lia | lia].
  eapply (ordered_bind 6 6 7 8);
    [eapply (ordered_of_acts KStop); [apply acts_stop_existing_container | reflexivity]
    | intros _ | lia | lia | lia].
  eapply (ordered_bind 7 7 8 8);
    [eapply (ordered_of_acts KRun); [apply acts_run_container | reflexivity]
    | intros _ | lia | lia | lia].
  eapply (ordered_bind 8 8 8 8);
    [eapply (ordered_of_acts KReconcile); [apply acts_print_colored | reflexivity]
    | intros _ | lia | lia | lia].
  eapply (ordered_of_acts KReconcile);
    [apply acts_handle_worktree_post_processing | reflexivity].
Qed.

Lemma ordered_run (h : Host) (self : Launcher) (args : Args) :
  ordered 1 9 (run h self args).
Proof.
  unfold run.
  eapply (ordered_bind 1 1 2 9);
    [eapply (ordered_of_acts KCheckout); [apply acts_setup | reflexivity]
    | intros mp | lia | lia | lia].
  eapply (ordered_try_finally 2 8 9 9);
    [apply ordered_session
    | eapply (ordered_of_acts KTeardown); [apply acts_cleanup_worktree_if_needed | reflexivity]
    | lia | lia | lia].
Qed.

(** X2.  After the two files that [__init__] extracts, the events of a run
    other than printed lines come phase by phase, never going back:
    checkout, configuration, image queries, build, release of the
    artifacts, stopping the old container, the container, reconciliation,
    teardown, exit hook. *)
Theorem phases_in_order (h : Host) (args : Args) (fs : gset string) (dir : string) :
  exists evs,
    trace (snd (main h args (boot fs dir)))
      = [WriteFile (dockerfile (launcher_of h dir));
         WriteFile (template_file (launcher_of h dir))] ++ evs /\
    between 1 10 evs = true.
Proof.
  destruct (main_exit h args fs dir) as (r7 & s7 & E7 & ->). cbn [snd].
  destruct (ordered_run h (launcher_of h dir) args (started h fs dir)) as (e1 & T1 & B1).
  rewrite E7 in T1. cbn [snd] in T1.
  destruct (ordered_of_acts KAtexit _ _ (acts__cleanup_temp_dir (launcher_of h dir)) eq_refl s7)
    as (e2 & T2 & B2).
  exists (e1 ++ e2). split.
  - rewrite T2, T1, started_trace, <- app_assoc. reflexivity.
  - eapply between_app; eauto; cbn [phase]; lia.
Qed.

(** ** What the launcher touches *)

Section Emits.

Variable P : Event -> bool.

Lemma emits_ret {A} (a : A) : emits P (ret a).
Proof. intros s. exists []. simpl. rewrite app_nil_r. auto. Qed.

Lemma emits_raise {A} (e : exn) : emits P (@raise A e).
Proof. intros s. exists []. simpl. rewrite app_nil_r. auto. Qed.

Lemma emits_get {A} (f : State -> A) : emits P (get f).
Proof. intros s. exists []. simpl. rewrite app_nil_r. auto. Qed.

Lemma emits_bind {A B} (m : M A) (k : A -> M B) :
  emits P m -> (forall a, emits P (k a)) -> emits P (bind m k).
Proof.
  intros Hm Hk s. unfold bind.
  destruct (Hm s) as (e1 & T1 & F1).
  destruct (m s) as [[a | e] s1]; simpl in *.
  - destruct (Hk a s1) as (e2 & T2 & F2).
    exists (e1 ++ e2). rewrite T2, T1, app_assoc, forallb_app, F1, F2. auto.
  - exists e1. auto.
Qed.

Lemma emits_try_finally {A} (m : M A) (fin : M unit) :
  emits P m -> emits P fin -> emits P (try_finally m fin).
Proof.
  intros Hm Hf s. unfold try_finally.
  destruct (Hm s) as (e1 & T1 & F1).
  destruct (m s) as [r s1]; simpl in *.
  destruct (Hf s1) as (e2 & T2 & F2).
  exists (e1 ++ e2). rewrite forallb_app, F1, F2.
  destruct (fin s1) as [[[] | e] s2]; simpl in *; rewrite T2, T1, app_assoc; auto.
Qed.

Lemma emits_try_except_cpe {A} (m handler : M A) :
  emits P m -> emits P handler -> emits P (try_except_cpe m handler).
Proof.
  intros Hm Hh s. unfold try_except_cpe.
  destruct (Hm s) as (e1 & T1 & F1).
  destruct (m s) as [[a | [code | rc cmd | name]] s1]; simpl in *;
    [exists e1; auto | exists e1; auto | | exists e1; auto].
  destruct (Hh s1) as (e2 & T2 & F2).
  exists (e1 ++ e2). rewrite T2, T1, app_assoc, forallb_app, F1, F2. auto.
Qed.

Lemma emits_when (b : bool) (m : M unit) : emits P m -> emits P (when b m).
Proof. destruct b; [auto | intros _; apply emits_ret]. Qed.

Lemma emits_emit (e : Event) : P e = true -> emits P (emit e).
Proof. intros He s. exists [e]. simpl. rewrite He. auto. Qed.

Lemma emits_quiet (f : State -> State) :
  (forall s, trace (f s) = trace s) -> emits P (modify f).
Proof. intros Hf s. exists []. simpl. rewrite app_nil_r, Hf. auto. Qed.

Lemma emits_subprocess_run (h : Host) (check : bool) (cmd : list string) :
  (forall r, P (Spawn cmd r) = true) -> emits P (subprocess_run h check cmd).
Proof.
  intros Hc s. exists [Spawn cmd (fst (subprocess h s cmd))].
  unfold subprocess_run. simpl.
  destruct (check && _); simpl; rewrite Hc; auto.
Qed.

End Emits.

Ltac emits_step :=
  first
    [ apply emits_ret | apply emits_raise | apply emits_get
    | apply emits_bind; [ | intro ]
    | apply emits_try_finally | apply emits_try_except_cpe
    | apply emits_when
    | apply emits_emit; reflexivity
    | apply emits_quiet; intro; reflexivity
    | apply emits_subprocess_run; intro; reflexivity
    | match goal with
      | |- emits _ (if ?b then _ else _) => destruct b
      | |- emits _ (match ?o with _ => _ end) => destruct o
      end ].

Ltac solve_emits := repeat emits_step.

Ltac own_file :=
  apply emits_emit; cbn [own]; unfold credentials_src, credentials_dest, config_dest;
  rewrite ?String.eqb_refl, ?orb_true_r; reflexivity.

Lemma own_run (h : Host) (self : Launcher) (args : Args) :
  emits (own h self) (run h self args).
Proof.
  unfold run, setup, session, use_existing_worktree, use_new_worktree, create_worktree,
    is_git_repo, prepare_claude_config, should_build_image, build_image, build_args,
    cleanup_temp_files, temp_files, for_each, stop_existing_container, run_container,
    run_args, handle_worktree_post_processing, detect_changes, commit_and_push,
    push_changes, cleanup_worktree_if_needed, copy2, write_file, unlink, chdir,
    path_exists, print_colored, print, sys_exit.
  solve_emits.
  all: own_file.
Qed.

Lemma own__cleanup_temp_dir (h : Host) (self : Launcher) :
  emits (own h self) (_cleanup_temp_dir self).
Proof.
  unfold _cleanup_temp_dir, rmtree, path_exists. solve_emits.
  apply emits_emit. cbn [own]. apply String.eqb_refl.
Qed.

(** X3.  Whatever the host answers, a run only prints, spawns [git] and
    [podman], changes directory, and touches its own files: it writes the
    two extracted files and [.claude.json] in the build context, copies the
    credentials of the user there, unlinks nothing but these two artifacts
    and removes no tree but its temporary directory. *)
Theorem launcher_footprint (h : Host) (args : Args) (fs : gset string) (dir : string) :
  forallb (own h (launcher_of h dir)) (trace (snd (main h args (boot fs dir)))) = true.
Proof.
  destruct (main_exit h args fs dir) as (r7 & s7 & E7 & ->). cbn [snd].
  destruct (own_run h (launcher_of h dir) args (started h fs dir)) as (e1 & T1 & F1).
  rewrite E7 in T1. cbn [snd] in T1.
  destruct (own__cleanup_temp_dir h (launcher_of h dir) s7) as (e2 & T2 & F2).
  rewrite T2, T1, started_trace, !forallb_app, F1, F2.
  cbn [forallb own]. rewrite !String.eqb_refl, ?orb_true_r. reflexivity.
Qed.

Lemma under_refl (p : string) : under p p = true.
Proof. unfold under. rewrite String.eqb_refl. reflexivity. Qed.

Lemma _cleanup_temp_dir_spec (self : Launcher) (s : State) :
  exists_on (files (snd (_cleanup_temp_dir self s)))
            (pwd (snd (_cleanup_temp_dir self s))) (temp_dir self) = false.
Proof.
  unfold _cleanup_temp_dir, rmtree, path_exists, emit, when, bind, get, modify, ret.
  cbv beta iota.
  destruct (exists_on (files s) (pwd s) (temp_dir self)) eqn:E;
    cbn [fst snd files pwd log set_files]; [| exact E].
  unfold exists_on. apply bool_decide_eq_false.
  rewrite elem_of_filter. intros [Hu _]. rewrite under_refl in Hu. discriminate Hu.
Qed.

(** X4.  However a run ends (also through [sys.exit] or a failed command),
    the temporary directory that [__init__] made does not exist when the
    process is over: the exit hook has removed it if it was still there. *)
Theorem temp_dir_removed_at_exit (h : Host) (args : Args) (fs : gset string) (dir : string) :
  let final := snd (main h args (boot fs dir)) in
  exists_on (files final) (pwd final) (mkdtemp h) = false.
Proof.
  cbv zeta. destruct (main_exit h args fs dir) as (r7 & s7 & _ & ->). cbn [snd].
  apply (_cleanup_temp_dir_spec (launcher_of h dir)).
Qed.

(** ** The process directory *)

Lemma stays_ret {A} (a : A) : stays (ret a).
Proof. intros s _. reflexivity. Qed.

Lemma stays_raise {A} (e : exn) : stays (@raise A e).
Proof. intros s _. reflexivity. Qed.

Lemma stays_get {A} (f : State -> A) : stays (get f).
Proof. intros s _. reflexivity. Qed.

Lemma stays_bind {A B} (m : M A) (k : A -> M B) :
  stays m -> (forall a, stays (k a)) -> stays (bind m k).
Proof.
  intros Hm Hk s Ha. unfold bind. specialize (Hm s Ha).
  destruct (m s) as [[a | e] s1]; simpl in *; [| exact Hm].
  rewrite <- Hm. apply Hk. rewrite Hm. exact Ha.
Qed.

Lemma stays_try_finally {A} (m : M A) (fin : M unit) :
  stays m -> stays fin -> stays (try_finally m fin).
Proof.
  intros Hm Hf s Ha. unfold try_finally. specialize (Hm s Ha).
  destruct (m s) as [r s1]; simpl in *.
  assert (Ha1 : Path.is_absolute (pwd s1) = true) by (rewrite Hm; exact Ha).
  specialize (Hf s1 Ha1).
  destruct (fin s1) as [[[] | e] s2]; simpl in *; congruence.
Qed.

Lemma stays_try_except_cpe {A} (m handler : M A) :
  stays m -> stays handler -> stays (try_except_cpe m handler).
Proof.
  intros Hm Hh s Ha. unfold try_except_cpe. specialize (Hm s Ha).
  destruct (m s) as [[a | [code | rc cmd | name]] s1]; simpl in *;
    [exact Hm | exact Hm | | exact Hm].
  rewrite <- Hm. apply Hh. rewrite Hm. exact Ha.
Qed.

Lemma stays_when (b : bool) (m : M unit) : stays m -> stays (when b m).
Proof. destruct b; [auto | intros _; apply stays_ret]. Qed.

Lemma stays_quiet (f : State -> State) :
  (forall s, pwd (f s) = pwd s) -> stays (modify f).
Proof. intros Hf s _. apply Hf. Qed.

Lemma stays_subprocess_run (h : Host) (check : bool) (cmd : list string) :
  stays (subprocess_run h check cmd).
Proof. intros s _. unfold subprocess_run. simpl. destruct (check && _); reflexivity. Qed.

Ltac stays_step :=
  first
    [ apply stays_ret | apply stays_raise | apply stays_get
    | apply stays_bind; [ | intro ]
    | apply stays_try_finally | apply stays_try_except_cpe
    | apply stays_when
    | apply stays_quiet; intro; reflexivity
    | apply stays_subprocess_run
    | match goal with
      | |- stays (if ?b then _ else _) => destruct b
      | |- stays (match ?o with _ => _ end) => destruct o
      end ].

Ltac solve_stays := repeat stays_step.

Lemma resolve_absolute (dir p : string) :
  Path.is_absolute p = true -> Path.resolve dir p = p.
Proof. intros H. unfold Path.resolve. rewrite H. reflexivity. Qed.

(** The reconciler goes back to the directory it started in, whether it
    returns or raises. *)
Lemma stays_handle_worktree_post_processing (h : Host) :
  stays (handle_worktree_post_processing h).
Proof.
  intros s Ha.
  run_once (handle_worktree_post_processing h s).
  unfold handle_worktree_post_processing, detect_changes, commit_and_push, push_changes.
  unfold_py. simpl.
  execute h.
  all: finish_run; try reflexivity.
  all: apply resolve_absolute; exact Ha.
Qed.

Lemma stays_run (h : Host) (self : Launcher) (args : Args) : stays (run h self args).
Proof.
  unfold run, session.
  apply stays_bind.
  { unfold setup, use_existing_worktree, use_new_worktree, create_worktree, is_git_repo,
      path_exists, print_colored, sys_exit, emit. solve_stays. }
  intros mp. apply stays_try_finally.
  - apply stays_bind.
    { unfold prepare_claude_config, copy2, write_file, path_exists, print_colored,
        sys_exit, emit. solve_stays. }
    intros _. apply stays_bind.
    { unfold should_build_image, path_exists. solve_stays. }
    intros build. apply stays_bind.
    { unfold build_image, print_colored, emit. solve_stays. }
    intros _. apply stays_bind.
    { unfold cleanup_temp_files, temp_files, for_each, unlink, path_exists, print_colored,
        emit. solve_stays. }
    intros _. apply stays_bind.
    { unfold stop_existing_container, print_colored, emit. solve_stays. }
    intros _. apply stays_bind.
    { unfold run_container, print_colored, print, emit. solve_stays. }
    intros _. apply stays_bind.
    { unfold print_colored, emit. solve_stays. }
    intros _. apply stays_handle_worktree_post_processing.
  - unfold cleanup_worktree_if_needed, print_colored, emit. solve_stays.
Qed.

Lemma stays__cleanup_temp_dir (self : Launcher) : stays (_cleanup_temp_dir self).
Proof. unfold _cleanup_temp_dir, rmtree, path_exists, emit. solve_stays. Qed.

(** X5.  A run that starts in an absolute directory ends in it; the
    reconciler, the only method that changes directory, is back where it
    started whether it returns or raises. *)
Theorem directory_restored (h : Host) (args : Args) (fs : gset string) (dir : string) :
  Path.is_absolute dir = true ->
  pwd (snd (main h args (boot fs dir))) = dir /\
  forall s, Path.is_absolute (pwd s) = true ->
            pwd (snd (handle_worktree_post_processing h s)) = pwd s.
Proof.
  intros Ha. split; [| apply stays_handle_worktree_post_processing].
  destruct (main_exit h args fs dir) as (r7 & s7 & E7 & ->). cbn [snd].
  destruct (started_flags h fs dir) as (_ & _ & _ & Hp).
  pose proof (stays_run h (launcher_of h dir) args (started h fs dir)) as H7.
  rewrite E7, Hp in H7. cbn [snd] in H7. specialize (H7 Ha).
  rewrite (stays__cleanup_temp_dir (launcher_of h dir) s7); [exact H7|].
  rewrite H7. exact Ha.
Qed.

(** ** The directory that is mounted *)

Lemma setup_given (h : Host) (self : Launcher) (args : Args) (s : State) (mp : string) :
  given_mount args (files s) (pwd s) = Some mp ->
  exists lines,
    trace (snd (setup h self args s)) = trace s ++ lines /\
    forallb (allowed [KPrint]) lines = true /\
    worktree_created (snd (setup h self args s)) = worktree_created s /\
    (forall mp', fst (setup h self args s) = Ret mp' ->
       mp' = (if no_worktree args then cwd self else mp)).
Proof.
  unfold given_mount. intros Hg.
  run_once (setup h self args s).
  unfold setup, use_existing_worktree, use_new_worktree, create_worktree, is_git_repo.
  unfold_py. simpl.
  destruct args as [msg nc pm wb keep nw awp]; simpl in *.
  destruct nw; simpl.
  - execute h.
    all: finish_run; eexists; (split; [reflexivity|]).
    all: repeat split; intros; congruence.
  - destruct awp as [p |]; [| discriminate Hg].
    destruct (exists_on (files s) (pwd s) p) eqn:Ep; [| discriminate Hg].
    injection Hg as <-.
    execute h.
    all: finish_run; rewrite ?Ep; simpl; rewrite <- ?app_assoc; simpl;
         eexists; (split; [reflexivity|]).
    all: repeat split; intros; congruence.
Qed.

Lemma given_mount_started (h : Host) (args : Args) (fs : gset string) (dir mp : string) :
  given_mount args fs dir = Some mp ->
  given_mount args (files (started h fs dir)) (pwd (started h fs dir)) = Some mp.
Proof.
  unfold given_mount. destruct (no_worktree args); [auto|].
  destruct (arg_worktree_path args) as [p |]; [| discriminate].
  destruct (exists_on fs dir p) eqn:E; [| discriminate].
  rewrite (started_files h fs dir p E). auto.
Qed.

Lemma not_git (cmd : list string) (r : CompletedProcess) :
  allowed [KPrint; KConfig; KImage; KBuild; KRelease; KStop; KRun; KAtexit] (Spawn cmd r)
    = true ->
  starts_with ["git"] cmd = false.
Proof.
  destruct cmd as [| prog rest]; [reflexivity|].
  unfold allowed. cbn [kind cmd_kind starts_with]. rewrite andb_true_r.
  rewrite (String.eqb_sym "git" prog).
  destruct (String.eqb prog "git"); [| reflexivity].
  unfold git_kind.
  destruct rest as [| sub rest']; [discriminate|].
  destruct (String.eqb sub "rev-parse"); [discriminate|].
  destruct (String.eqb sub "worktree").
  - destruct rest' as [| act rest'']; [discriminate|].
    destruct (String.eqb act "add"); [discriminate|].
    destruct (String.eqb act "list" || String.eqb act "remove"); discriminate.
  - destruct (_ || _); discriminate.
Qed.

(** X6.  With [--no-worktree], or else with a [--worktree-path] that
    exists, a run never spawns git (no checkout is made, nothing is
    committed, nothing is removed), and every [podman run] mounts the given
    directory and nothing else ([--volume <directory>:/home/<user>/dev:Z]):
    the current one, or else the path.  [--no-worktree] wins over
    [--worktree-path]. *)
Theorem given_directory_never_runs_git
    (h : Host) (args : Args) (fs : gset string) (dir mp : string) :
  given_mount args fs dir = Some mp ->
  forall cmd r,
    In (Spawn cmd r) (trace (snd (main h args (boot fs dir)))) ->
    starts_with ["git"] cmd = false /\
    (cmd_kind cmd = KRun -> podman_run_on h mp cmd).
Proof.
  intros Hg.
  destruct (main_anatomy h args fs dir) as (r2 & s2 & code & s9 & E2 & Em & Hc).
  destruct (main_podman_run h args fs dir) as (r2' & s2' & code' & s9' & E2' & Em' & Hrun & _).
  rewrite E2 in E2'. rewrite Em in Em'. injection E2' as <- <-. injection Em' as <- <-.
  rewrite Em. cbn [snd].
  destruct (setup_given h (launcher_of h dir) args (started h fs dir) mp
              (given_mount_started h args fs dir mp Hg)) as (lines & T2 & F2 & C2 & M2).
  rewrite E2 in T2, C2, M2. cbn [fst snd] in T2, C2, M2.
  destruct (started_flags h fs dir) as (_ & Hc0 & _). rewrite Hc0 in C2.
  assert (W2 : within [KPrint; KConfig] s2).
  { unfold within. rewrite T2, started_trace, forallb_app. cbn [forallb].
    change (allowed [KPrint; KConfig] (WriteFile _)) with true. cbn [andb].
    rewrite forallb_forall in *. intros e He.
    eapply allowed_within; [| apply (F2 e He)]. reflexivity. }
  assert (W9 : within [KPrint; KConfig; KImage; KBuild; KRelease; KStop; KRun; KAtexit] s9).
  { destruct r2 as [mp' | e].
    - destruct Hc as [(s3 & _ & X & Wu)
                     | (s4 & s5 & s6 & cp & s7 & X & E5 & E6 & E7 & _ & Wu)].
      + destruct (wound_up_spec _ _ _ _ Wu) as (_ & Wq).
        assert (Hf : worktree_created s3 && cleanup_worktree s3 = false).
        { destruct X as (_ & _ & -> & _). rewrite C2. reflexivity. }
        specialize (Wq Hf).
        assert (W3 : within [KPrint; KConfig; KImage; KBuild] s3) by grow W2 X.
        grow W3 Wq.
      + pose proof (extends_eq _ _ _ _ _ (acts_stop_existing_container h _)
                      (keeps_stop_existing_container h _) E5) as X5.
        pose proof (extends_eq _ _ _ _ _ (acts_run_container h _ mp' _ _)
                      (keeps_run_container h _ mp' _ _) E6) as X6.
        assert (C6 : worktree_created (log stopped_line s6) = false).
        { cbn [log worktree_created].
          destruct X as (_ & _ & Xc & _), X5 as (_ & _ & C5 & _), X6 as (_ & _ & C6 & _).
          congruence. }
        rewrite (handle_guard h _ C6) in E7. injection E7 as <- <-.
        destruct (wound_up_spec _ _ _ _ Wu) as (_ & Wq).
        assert (Hf : worktree_created (log stopped_line s6)
                     && cleanup_worktree (log stopped_line s6) = false)
          by (rewrite C6; reflexivity).
        specialize (Wq Hf).
        assert (W4 : within [KPrint; KConfig; KImage; KBuild; KRelease] s4) by grow W2 X.
        assert (W5 : within [KPrint; KConfig; KImage; KBuild; KRelease; KStop] s5)
          by grow W4 X5.
        assert (W6 : within [KPrint; KConfig; KImage; KBuild; KRelease; KStop; KRun] s6)
          by grow W5 X6.
        pose proof (extends_log [KPrint] stopped_line s6 eq_refl) as XL.
        assert (W7 : within [KPrint; KConfig; KImage; KBuild; KRelease; KStop; KRun]
                       (log stopped_line s6)) by grow W6 XL.
        grow W7 Wq.
    - destruct Hc as (_ & X). grow W2 X. }
  intros cmd r Hin. split.
  - exact (not_git cmd r (within_in _ _ _ W9 Hin)).
  - intros Hk. destruct (Hrun cmd r Hin Hk) as (mp' & -> & ->).
    rewrite (M2 mp' eq_refl).
    assert (Hmp : (if no_worktree args then cwd (launcher_of h dir) else mp) = mp).
    { unfold given_mount in Hg. destruct (no_worktree args); [| reflexivity].
      injection Hg as <-. reflexivity. }
    rewrite Hmp. apply entry_command_on.
Qed.

Lemma setup_ignores_missing (h : Host) (self : Launcher) (args : Args) (s : State)
    (p : string) :
  arg_worktree_path args = Some p ->
  exists_on (files s) (pwd s) p = false ->
  setup h self args s = setup h self (without_worktree_path args) s.
Proof.
  intros Hp Hex. destruct args as [msg nc pm wb keep nw awp]. simpl in Hp. subst awp.
  unfold without_worktree_path, setup, use_existing_worktree, use_new_worktree.
  unfold_py. simpl.
  destruct (exists_on (files s) (pwd s) (dockerfile self)); simpl; [| reflexivity].
  destruct keep, nw; simpl; rewrite ?Hex; reflexivity.
Qed.

Lemma run_ignores_missing (h : Host) (self : Launcher) (args : Args) (s : State)
    (p : string) :
  arg_worktree_path args = Some p ->
  exists_on (files s) (pwd s) p = false ->
  run h self args s = run h self (without_worktree_path args) s.
Proof.
  intros Hp Hex. unfold run, bind.
  rewrite (setup_ignores_missing h self args s p Hp Hex).
  reflexivity.
Qed.

(** X7.  A [--worktree-path] that does not exist (once the launcher has
    extracted its files) is ignored without a word: the run is the run of
    the same command line without the option. *)
Theorem missing_worktree_path_ignored
    (h : Host) (args : Args) (fs : gset string) (dir p : string) :
  arg_worktree_path args = Some p ->
  exists_on (files (started h fs dir)) dir p = false ->
  main h args (boot fs dir) = main h (without_worktree_path args) (boot fs dir).
Proof.
  intros Hp Hex. unfold main. rewrite init_boot.
  rewrite (run_ignores_missing h (launcher_of h dir) args (started h fs dir) p Hp Hex).
  reflexivity.
Qed.

Lemma setup_outside (h : Host) (self : Launcher) (args : Args) (s : State) :
  exists evs,
    trace (snd (setup h self args s)) = trace s ++ evs /\
    forall r, In (Spawn rev_parse r) evs -> returncode r <> 0 ->
      fst (setup h self args s) = Raise (SystemExit 1) /\
      evs = [banner; Spawn rev_parse r; not_a_repository].
Proof.
  run_once (setup h self args s).
  unfold setup, use_existing_worktree, use_new_worktree, create_worktree, is_git_repo.
  unfold_py. simpl.
  destruct args as [msg nc pm wb keep nw awp]; simpl.
  execute h.
  all: finish_run; eexists; (split; [reflexivity|]).
  all: status_facts; intros q Hin Hq.
  all: locate Hin.
  all: try (injection Hin as <-; congruence).
  all: injection Hin as <-; split; reflexivity.
Qed.

(** An event of the checkout phase in the log of a run is in the log of the
    acquisition. *)
Lemma checkout_event_acquired (h : Host) (args : Args) (fs : gset string) (dir : string)
    (r2 : outcome string) (s2 : State) (code : Z) (s9 : State) (e : Event) :
  setup h (launcher_of h dir) args (started h fs dir) = (r2, s2) ->
  main h args (boot fs dir) = (code, s9) ->
  In e (trace s9) -> kind e = KCheckout -> In e (trace s2).
Proof.
  intros E2 Em Hin Hk0.
  destruct (main_teardown h args fs dir) as (r2' & s2' & code' & s9' & E2' & Em' & W2 & Hc).
  rewrite E2 in E2'. rewrite Em in Em'. injection E2' as <- <-. injection Em' as <- <-.
  destruct r2 as [mp | e0].
  - destruct Hc as (sx & X & Wu).
    destruct (wound_up_spec _ _ _ _ Wu) as (((e9 & T9 & F9) & _) & _).
    rewrite T9, in_app_iff in Hin. destruct Hin as [H | H].
    + destruct X as ((ex & Tx & Fx) & _).
      rewrite Tx, in_app_iff in H. destruct H as [H | H]; [exact H | exfalso].
      pose proof (not_in_kinds _ _ _ _ Fx H Hk0). discriminate.
    + exfalso. pose proof (not_in_kinds _ _ _ _ F9 H Hk0). discriminate.
  - destruct Hc as (_ & ((e9 & T9 & F9) & _)).
    rewrite T9, in_app_iff in Hin. destruct Hin as [H | H]; [exact H | exfalso].
    pose proof (not_in_kinds _ _ _ _ F9 H Hk0). discriminate.
Qed.

(** X8.  When [git rev-parse] fails (the directory is not in a repository)
    the run stops there with status 1: after the banner, the failed query
    and the error line come only the events of the exit hook, so nothing is
    copied and no other command is spawned.  This is unlike a failed [git
    worktree add], after which the run goes on in the current directory. *)
Theorem outside_repository_aborts
    (h : Host) (args : Args) (fs : gset string) (dir : string) (r : CompletedProcess) :
  let out := main h args (boot fs dir) in
  In (Spawn rev_parse r) (trace (snd out)) ->
  returncode r <> 0 ->
  fst out = 1 /\
  exists rest,
    trace (snd out)
      = [WriteFile (dockerfile (launcher_of h dir));
         WriteFile (template_file (launcher_of h dir));
         banner; Spawn rev_parse r; not_a_repository] ++ rest /\
    forallb (allowed [KAtexit]) rest = true.
Proof.
  cbv zeta.
  destruct (main_teardown h args fs dir) as (r2 & s2 & code & s9 & E2 & Em & W2 & Hc).
  rewrite Em. cbn [fst snd]. intros Hin Hr.
  destruct (setup_outside h (launcher_of h dir) args (started h fs dir)) as (evs & T2 & Hout).
  rewrite E2 in T2, Hout. cbn [fst snd] in T2, Hout.
  assert (Hev : In (Spawn rev_parse r) evs).
  { pose proof (checkout_event_acquired h args fs dir r2 s2 code s9 _ E2 Em Hin eq_refl)
      as H2.
    rewrite T2, started_trace, in_app_iff in H2.
    destruct H2 as [[H | [H | []]] | H]; [discriminate H | discriminate H | exact H]. }
  destruct (Hout r Hev Hr) as (Hret & ->).
  subst r2. destruct Hc as (-> & ((rest & T9 & F9) & _)).
  split; [reflexivity|].
  exists rest. split; [| exact F9].
  rewrite T9, T2, started_trace. reflexivity.
Qed.

(** ** The configuration artifacts *)

Lemma exists_on_insert (fs : gset string) (dir p : string) :
  exists_on ({[ Path.resolve dir p ]} ∪ fs) dir p = true.
Proof.
  unfold exists_on. apply bool_decide_eq_true.
  apply elem_of_union_l, elem_of_singleton. reflexivity.
Qed.

Lemma exists_on_mono (fs : gset string) (dir p q : string) :
  exists_on fs dir p = true -> exists_on ({[ q ]} ∪ fs) dir p = true.
Proof.
  unfold exists_on. rewrite !bool_decide_eq_true. apply elem_of_union_r.
Qed.

(** X9.  The configuration step raises nothing but [sys.exit(1)] and
    exceptions that it does not catch, and one of these only when the copy
    of the credentials raised it, when parsing a file raised it, or when the
    update of the template failed on the parsed values.  Without the
    credentials of the user the step stops before touching any file; with
    them, once copied, the copy is in the build context afterwards however
    the step ends; when the step ends normally the generated [.claude.json]
    is there too. *)
Theorem prepare_claude_config_outcome (h : Host) (self : Launcher) (s : State) :
  let out := prepare_claude_config h self s in
  (exists_on (files s) (pwd s) (credentials_src h) = false ->
     fst out = Raise (SystemExit 1) /\
     files (snd out) = files s /\
     exists lines,
       trace (snd out) = trace s ++ lines /\ forallb (allowed [KPrint]) lines = true) /\
  (exists_on (files s) (pwd s) (credentials_src h) = true ->
   (forall s', copy2_answer h s' (credentials_src h) (credentials_dest self) = Copied) ->
     exists_on (files (snd out)) (pwd s) (credentials_dest self) = true) /\
  (fst out = Ret tt ->
     exists_on (files (snd out)) (pwd s) (credentials_dest self) = true /\
     exists_on (files (snd out)) (pwd s) (config_dest self) = true) /\
  (forall e, fst out = Raise e -> e = SystemExit 1 \/ exists name, e = Error name) /\
  (forall name,
     fst out = Raise (Error name) ->
     (exists s' created,
         copy2_answer h s' (credentials_src h) (credentials_dest self)
         = CopyRaises name created) \/
     (exists s' p, json_load h s' p = LoadRaises name) \/
     (exists s' user_data template_data e,
         json_load h s' (user_config h) = Loaded user_data /\
         json_load h s' (template_file self) = Loaded template_data /\
         update_template (user_name self) user_data template_data = inl e /\
         name = update_error_name e)).
Proof.
  cbv zeta. unfold credentials_src, credentials_dest, config_dest, user_config.
  run_once (prepare_claude_config h self s).
  unfold prepare_claude_config, config_error, copy2, write_file. unfold_py. simpl.
  execute h.
  all: finish_run.
  all: split; [intros; try congruence;
               repeat split; try reflexivity; eexists; split; reflexivity|].
  all: split; [intros Hc Hcopy; try congruence;
               try (rewrite Hcopy in *; discriminate);
               first [apply exists_on_insert
                     | apply exists_on_mono; apply exists_on_insert]|].
  all: split; [intros; try discriminate;
               split; first [apply exists_on_insert
                            | apply exists_on_mono; apply exists_on_insert]|].
  all: split; [intros e0 He0; simplify_eq; eauto|].
  all: intros name0 Hn; simplify_eq.
  all: eauto 10.
Qed.

Lemma update_template_not_object (user_name : string) (user_data template_data : Json) :
  (forall user, user_data <> JDict user) ->
  update_template user_name user_data template_data = inl AttributeError.
Proof.
  intros H. destruct user_data; try reflexivity. exfalso. eapply H. reflexivity.
Qed.

(** X26.  A profile of the user that parses, but not to a JSON object (a
    list, a string, a number, [null]), makes the configuration step end with
    an [AttributeError] that nothing catches, so with exit status 1 and a
    traceback instead of the warning of the step; the copy of the
    credentials, made before, stays in the build context, and no
    [.claude.json] is written. *)
Theorem profile_not_an_object_escapes
    (h : Host) (self : Launcher) (s : State) (user_data template_data : Json) :
  exists_on (files s) (pwd s) (credentials_src h) = true ->
  exists_on (files s) (pwd s) (user_config h) = true ->
  exists_on (files s) (pwd s) (template_file self) = true ->
  (forall s', copy2_answer h s' (credentials_src h) (credentials_dest self) = Copied) ->
  (forall s', json_load h s' (user_config h) = Loaded user_data) ->
  (forall s', json_load h s' (template_file self) = Loaded template_data) ->
  (forall user, user_data <> JDict user) ->
  let out := prepare_claude_config h self s in
  fst out = Raise (Error "AttributeError") /\
  exit_status (fst out) = 1 /\
  files (snd out) = {[ Path.resolve (pwd s) (credentials_dest self) ]} ∪ files s.
Proof.
  intros Hc Hu Ht Hcopy Huser Htmpl Hno. cbv zeta.
  unfold credentials_src, credentials_dest, user_config in *.
  run_once (prepare_claude_config h self s).
  unfold prepare_claude_config, config_error, copy2, write_file. unfold_py. simpl.
  rewrite Hc, Hcopy. simpl.
  rewrite (exists_on_mono _ _ _ _ Hu), (exists_on_mono _ _ _ _ Ht). simpl.
  rewrite Huser, Htmpl, (update_template_not_object _ _ _ Hno). simpl.
  intros <-. simpl. auto.
Qed.

Lemma released (X Y Z : gset string) (a b : string) :
  (Y = X ∖ {[ a ]} \/ (a ∉ X /\ Y = X)) ->
  (Z = Y ∖ {[ b ]} \/ (b ∉ Y /\ Z = Y)) ->
  Z = X ∖ {[ a; b ]}.
Proof. intros H1 H2. apply leibniz_equiv. set_solver. Qed.

Lemma released_twice (X : gset string) (a b : string) :
  X ∖ {[ a; b ]} ∖ {[ a; b ]} = X ∖ {[ a; b ]}.
Proof. apply leibniz_equiv. set_solver. Qed.

Lemma cleanup_temp_files_spec (self : Launcher) (s : State) :
  cleanup_temp_files self s = (Ret tt, snd (cleanup_temp_files self s)) /\
  files (snd (cleanup_temp_files self s))
  = files s ∖ {[ Path.resolve (pwd s) (credentials_dest self);
                 Path.resolve (pwd s) (config_dest self) ]} /\
  pwd (snd (cleanup_temp_files self s)) = pwd s.
Proof.
  unfold credentials_dest, config_dest.
  run_once (cleanup_temp_files self s).
  unfold cleanup_temp_files, temp_files, for_each, unlink. unfold_py. simpl.
  repeat branch.
  all: finish_run; (split; [reflexivity|]); (split; [| reflexivity]).
  all: unfold exists_on in *.
  all: repeat match goal with
         | H : bool_decide _ = true |- _ => apply bool_decide_eq_true in H
         | H : bool_decide _ = false |- _ => apply bool_decide_eq_false in H
         end.
  all: first
         [ solve [eapply released; [left; reflexivity | left; reflexivity]]
         | solve [eapply released;
                  [left; reflexivity | right; split; [eassumption | reflexivity]]]
         | solve [eapply released;
                  [right; split; [eassumption | reflexivity] | left; reflexivity]]
         | solve [eapply released;
                  [right; split; [eassumption | reflexivity]
                  | right; split; [eassumption | reflexivity]]] ].
Qed.

(** X10.  Releasing the artifacts never raises, whether they are there or
    not; afterwards the file system is the one before without the two
    artifacts, nothing else having been removed; releasing again changes
    nothing. *)
Theorem cleanup_temp_files_releases (self : Launcher) (s : State) :
  let s1 := snd (cleanup_temp_files self s) in
  fst (cleanup_temp_files self s) = Ret tt /\
  files s1 = files s ∖ {[ Path.resolve (pwd s) (credentials_dest self);
                          Path.resolve (pwd s) (config_dest self) ]} /\
  files (snd (cleanup_temp_files self s1)) = files s1.
Proof.
  cbv zeta.
  destruct (cleanup_temp_files_spec self s) as (E1 & F1 & P1).
  destruct (cleanup_temp_files_spec self (snd (cleanup_temp_files self s)))
    as (E2 & F2 & P2).
  split; [rewrite E1; reflexivity|].
  split; [exact F1|].
  rewrite F2, P1, F1. apply released_twice.
Qed.

(** ** A failed step of the reconciler *)

Lemma setup_created (h : Host) (self : Launcher) (args : Args) (s : State) :
  worktree_created s = false -> cleanup_worktree s = true ->
  worktree_created (snd (setup h self args s)) = true ->
  worktree_path (snd (setup h self args s)) = Some (Path.join (cwd self) "claude_wt") /\
  cleanup_worktree (snd (setup h self args s)) = negb (keep_worktree args).
Proof.
  intros Hc Hl.
  run_once (setup h self args s).
  unfold setup, use_existing_worktree, use_new_worktree, create_worktree, is_git_repo.
  unfold_py. simpl.
  destruct args as [msg nc pm wb keep nw awp]; simpl.
  execute h.
  all: finish_run; intros; split; congruence.
Qed.

Lemma cleanup_worktree_if_needed_owned (h : Host) (s : State) (p : string) :
  worktree_path s = Some p -> worktree_created s = true -> cleanup_worktree s = true ->
  exists rl,
    In (Spawn worktree_list rl) (trace (snd (cleanup_worktree_if_needed h s))) /\
    (Str.contains p (stdout rl) = true ->
     exists rr,
       In (Spawn ["git"; "worktree"; "remove"; p; "--force"] rr)
          (trace (snd (cleanup_worktree_if_needed h s)))).
Proof.
  intros Hp Hc Hl.
  run_once (cleanup_worktree_if_needed h s).
  unfold cleanup_worktree_if_needed. unfold_py. simpl.
  rewrite Hp, Hc, Hl. simpl.
  execute h.
  all: finish_run; eexists; split;
       [rewrite in_app_iff; right; simpl; right; left; reflexivity |].
  all: intros Hs; try congruence.
  eexists. rewrite in_app_iff. right. simpl. right. right. left. reflexivity.
Qed.

Lemma handle_failed_step (h : Host) (s : State) :
  exists evs,
    trace (snd (handle_worktree_post_processing h s)) = trace s ++ evs /\
    (evs <> [] -> worktree_created s = true) /\
    (existsb commit_step_failed evs = true ->
     forallb (fun e => negb (is_push e)) evs = true).
Proof.
  run_once (handle_worktree_post_processing h s).
  unfold handle_worktree_post_processing, detect_changes, commit_and_push, push_changes.
  unfold_py. simpl.
  execute h.
  all: finish_run; rewrite ?app_nil_r; eexists;
       (split; [reflexivity || (symmetry; apply app_nil_r) |]).
  all: split; [intros Hne; try congruence;
               try (apply andb_false_iff in E0 || apply negb_false_iff in E0);
               try (apply andb_prop in E0; tauto)|].
  all: cbn [existsb commit_step_failed starts_with orb andb returncode].
  all: repeat match goal with
         | E : negb (_ =? 0) = _ |- _ => rewrite ?E; clear E
         end.
  all: try (intros Hf; discriminate Hf).
  all: try (intros _; reflexivity).
Qed.

Lemma forallb_app_true {A} (f : A -> bool) (l1 l2 : list A) :
  forallb f l1 = true -> forallb f l2 = true -> forallb f (l1 ++ l2) = true.
Proof. intros H1 H2. rewrite forallb_app, H1, H2. reflexivity. Qed.

(** X11.  When a checked step of the reconciler fails ([git add], [git
    commit] or [git branch]), nothing is pushed and the run ends with
    status 1; teardown still takes place: unless [--keep-worktree] was
    given the working trees are listed, and the checkout is removed with
    [--force] when the listing has its path. *)
Theorem failed_commit_step_aborts
    (h : Host) (args : Args) (fs : gset string) (dir : string) :
  let out := main h args (boot fs dir) in
  existsb commit_step_failed (trace (snd out)) = true ->
  fst out = 1 /\
  forallb (fun e => negb (is_push e)) (trace (snd out)) = true /\
  (keep_worktree args = false ->
   exists rl,
     In (Spawn worktree_list rl) (trace (snd out)) /\
     (Str.contains (claude_wt dir) (stdout rl) = true ->
      exists rr, In (Spawn (forced_removal dir) rr) (trace (snd out)))).
Proof.
  cbv zeta.
  destruct (main_anatomy h args fs dir) as (r2 & s2 & code & s9 & E2 & Em & Hc).
  rewrite Em. cbn [fst snd]. intros Hfail.
  pose proof (acquired_within h args fs dir r2 s2 E2) as W2.
  destruct r2 as [mp | e].
  - destruct Hc as [(s3 & Hcode & X & Wu)
                   | (s4 & s5 & s6 & cp & s7 & X & E5 & E6 & E7 & Hcode & Wu)].
    + exfalso. destruct (wound_up_spec _ _ _ _ Wu) as (W & _).
      assert (W3 : within [KPrint; KCheckout; KConfig; KImage; KBuild] s3) by grow W2 X.
      assert (W9 : within [KPrint; KCheckout; KConfig; KImage; KBuild; KTeardown; KAtexit] s9)
        by grow W3 W.
      rewrite (no_failed_step_in _ _ W9 eq_refl) in Hfail. discriminate Hfail.
    + destruct (container_case_trace h _ args mp s4 s5 s6 s7 s9 cp E5 E6 E7 Wu)
        as (e5 & lines & rr & e7 & e9 & T9 & _ & T7 & F5 & F6 & F7 & F9).
      assert (W4 : within [KPrint; KCheckout; KConfig; KImage; KBuild; KRelease] s4)
        by grow W2 X.
      pose proof (container_chunk (launcher_of h dir) mp (message args)
                    (permission_mode args) lines rr F6) as F6'.
      assert (Hfail7 : existsb commit_step_failed e7 = true).
      { rewrite T9, (failed_steps_of_run h _ mp _ _ s4 e5 lines e7 e9 rr W4 F5 F6 F9)
          in Hfail.
        exact Hfail. }
      destruct (handle_outcome h (log stopped_line s6)) as (evs & Te & Hout).
      rewrite E7 in Te, Hout. cbn [fst snd] in Te, Hout.
      rewrite T7 in Te. apply app_inv_head in Te. subst evs.
      destruct (handle_failed_step h (log stopped_line s6)) as (evs & Te & Hcr & Hnp).
      rewrite E7 in Te. cbn [snd] in Te.
      rewrite T7 in Te. apply app_inv_head in Te. subst evs.
      split.
      { subst code. destruct cp as [[] | e]; [congruence | exact (proj2 Hout)]. }
      split.
      { rewrite T9.
        apply forallb_app_true; [exact (no_push_in _ _ W4 eq_refl)|].
        apply forallb_app_true; [exact (no_push_in _ _ F5 eq_refl)|].
        apply forallb_app_true; [exact (no_push_in _ _ F6' eq_refl)|].
        apply forallb_app_true; [reflexivity|].
        apply forallb_app_true; [exact (Hnp Hfail7) | exact (no_push_in _ _ F9 eq_refl)]. }
      intros Hkeep.
      destruct (before_reconcile h _ args mp s2 s4 s5 s6 W2 X E5 E6) as (_ & C6 & L6 & P6).
      assert (Hc6 : worktree_created (log stopped_line s6) = true).
      { apply Hcr. intros ->. discriminate Hfail7. }
      destruct (started_flags h fs dir) as (_ & Hc0 & Hl0 & _).
      rewrite C6 in Hc6.
      assert (Hs2 : worktree_created (snd (setup h (launcher_of h dir) args (started h fs dir)))
                    = true) by (rewrite E2; exact Hc6).
      destruct (setup_created h (launcher_of h dir) args (started h fs dir) Hc0 Hl0 Hs2)
        as (Hp2 & Hl2).
      rewrite E2 in Hp2, Hl2. cbn [snd] in Hp2, Hl2. rewrite Hkeep in Hl2.
      pose proof (keeps_handle_worktree_post_processing h (log stopped_line s6)) as K.
      rewrite E7 in K. cbn [snd] in K. destruct K as (Kp & Kc & Kl).
      destruct Wu as (s8 & r9 & E8 & E9).
      destruct (cleanup_worktree_if_needed_owned h s7 (claude_wt dir)) as (rl & Hin & Hrm).
      { rewrite Kp, P6. exact Hp2. }
      { rewrite Kc, C6. exact Hc6. }
      { rewrite Kl, L6. exact Hl2. }
      rewrite E8 in Hin, Hrm. cbn [snd] in Hin, Hrm.
      destruct (acts__cleanup_temp_dir (launcher_of h dir) s8) as (ex & Tx & _).
      rewrite E9 in Tx. cbn [snd] in Tx.
      exists rl. split; [rewrite Tx, in_app_iff; left; exact Hin|].
      intros Hs. destruct (Hrm Hs) as (rr' & Hin').
      exists rr'. rewrite Tx, in_app_iff. left. exact Hin'.
  - exfalso. destruct Hc as (_ & X).
    assert (W9 : within [KPrint; KCheckout; KConfig; KAtexit] s9) by grow W2 X.
    rewrite (no_failed_step_in _ _ W9 eq_refl) in Hfail. discriminate Hfail.
Qed.

(** ** The profile update *)

Lemma dict_get_set (k k' : string) (v : Json) (d : list (string * Json)) :
  dict_get k (dict_set k' v d) = if String.eqb k k' then Some v else dict_get k d.
Proof.
  induction d as [| [k0 v0] d IH]; simpl.
  - destruct (String.eqb k k'); reflexivity.
  - destruct (String.eqb k' k0) eqn:E0; simpl.
    + apply String.eqb_eq in E0. subst k0.
      destruct (String.eqb k k'); reflexivity.
    + destruct (String.eqb k k0) eqn:E1.
      * apply String.eqb_eq in E1. subst k0.
        rewrite String.eqb_sym, E0. reflexivity.
      * exact IH.
Qed.

Lemma dict_keys_set (k : string) (v : Json) (d : list (string * Json)) :
  dict_keys (dict_set k v d)
  = if existsb (String.eqb k) (dict_keys d) then dict_keys d else dict_keys d ++ [k].
Proof.
  unfold dict_keys. induction d as [| [k0 v0] d IH]; simpl; [reflexivity|].
  destruct (String.eqb k k0) eqn:E0; simpl.
  - apply String.eqb_eq in E0. subst k0. reflexivity.
  - rewrite IH. destruct (existsb _ _); reflexivity.
Qed.

Lemma dict_get_app (k : string) (d1 d2 : list (string * Json)) :
  dict_get k (d1 ++ d2)
  = match dict_get k d1 with Some v => Some v | None => dict_get k d2 end.
Proof.
  induction d1 as [| [k0 v0] d1 IH]; simpl; [reflexivity|].
  destruct (String.eqb k k0); auto.
Qed.

Lemma dict_set_distinct (k : string) (v : Json) (d : list (string * Json)) :
  NoDup (dict_keys d) -> NoDup (dict_keys (dict_set k v d)).
Proof.
  intros Hd. rewrite dict_keys_set.
  destruct (existsb (String.eqb k) (dict_keys d)) eqn:E; [exact Hd|].
  apply NoDup_app. split; [exact Hd|]. split; [| apply NoDup_singleton].
  intros x Hx Hk. apply list_elem_of_singleton in Hk. subst x.
  assert (existsb (String.eqb k) (dict_keys d) = true); [| congruence].
  apply existsb_exists. exists k. split; [| apply String.eqb_refl].
  apply list_elem_of_In. exact Hx.
Qed.

Lemma append_assoc (a b c : string) : (a +:+ b) +:+ c = a +:+ (b +:+ c).
Proof.
  induction a as [| x a IH]; [reflexivity|].
  change (String x ((a +:+ b) +:+ c) = String x (a +:+ (b +:+ c))).
  rewrite IH. reflexivity.
Qed.

(** X12.  When the update of the template succeeds, both values are
    dictionaries; the result has the identity of the user ([userID] of the
    profile when it is truthy, else its [userId], else the empty string) and
    the account of the user, and every other key of the template but
    [projects] has the value it had. *)
Theorem update_template_merges
    (user_name : string) (user_data template_data result : Json) :
  update_template user_name user_data template_data = inr result ->
  exists user template merged,
    user_data = JDict user /\ template_data = JDict template /\ result = JDict merged /\
    dict_get "userID" merged = Some (user_id user) /\
    dict_get "oauthAccount" merged = Some (oauth_account user) /\
    (forall k, k <> "userID" -> k <> "oauthAccount" -> k <> "projects" ->
               dict_get k merged = dict_get k template) /\
    (dict_get "userID" user = None -> dict_get "userId" user = None ->
     user_id user = JStr "").
Proof.
  unfold update_template. intros H.
  destruct user_data as [| | | | | | user]; try discriminate H.
  destruct template_data as [| | | | | | template]; try discriminate H.
  assert (Hk : forall k v, k <> "userID" -> k <> "oauthAccount" ->
                 dict_get k (dict_set "oauthAccount" v
                               (dict_set "userID" (user_id user) template))
                 = dict_get k template).
  { intros k v H1 H2. rewrite !dict_get_set.
    apply String.eqb_neq in H1, H2. rewrite H1, H2. reflexivity. }
  assert (Hid : forall v, dict_get "userID"
                            (dict_set "oauthAccount" v
                               (dict_set "userID" (user_id user) template))
                          = Some (user_id user)).
  { intros v. rewrite !dict_get_set. reflexivity. }
  assert (Hoa : dict_get "oauthAccount"
                  (dict_set "oauthAccount" (oauth_account user)
                     (dict_set "userID" (user_id user) template))
                = Some (oauth_account user)).
  { rewrite dict_get_set. reflexivity. }
  assert (Hnone : dict_get "userID" user = None -> dict_get "userId" user = None ->
                  user_id user = JStr "").
  { unfold user_id. intros -> ->. reflexivity. }
  destruct (dict_get "projects" _) as [[| | | | | | projects] |] eqn:Ep;
    try discriminate H; injection H as <-.
  - eexists user, template, _. do 3 (split; [reflexivity|]).
    rewrite !(dict_get_set _ "projects"). cbn [String.eqb Ascii.eqb Bool.eqb].
    split; [apply Hid|]. split; [exact Hoa|]. split; [| exact Hnone].
    intros k H1 H2 H3. rewrite dict_get_set.
    apply String.eqb_neq in H3. rewrite H3. apply Hk; assumption.
  - eexists user, template, _. do 3 (split; [reflexivity|]).
    split; [apply Hid|]. split; [exact Hoa|]. split; [| exact Hnone].
    intros k H1 H2 _. apply Hk; assumption.
Qed.

Lemma template_projects (user_name : string) :
  updated_projects user_name [("/home/$USER_NAME/dev", project_settings)]
  = [(container_dir user_name, project_settings)].
Proof. reflexivity. Qed.

(** X13.  With the template of the script, the update succeeds exactly for
    a profile that is a JSON object (anything else raises [AttributeError],
    which the script does not catch); the result then has one project, with
    the settings of the template, and its path is the directory of the
    container on which [run_container] mounts the checkout. *)
Theorem template_project_is_mount_point
    (self : Launcher) (mount_path : string) (user_data : Json) :
  match update_template (user_name self) user_data TEMPLATE_CONTENT with
  | inr result =>
      exists user merged,
        user_data = JDict user /\ result = JDict merged /\
        dict_get "projects" merged
          = Some (JDict [(container_dir (user_name self), project_settings)]) /\
        In (mount_path +:+ ":" +:+ container_dir (user_name self) +:+ ":Z")
           (run_args self mount_path)
  | inl e =>
      e = AttributeError /\ forall user, user_data <> JDict user
  end.
Proof.
  destruct user_data as [| | | | | | user]; cbn [update_template TEMPLATE_CONTENT];
    try (split; [reflexivity | intros user; discriminate]).
  cbv [dict_set dict_get String.eqb Ascii.eqb Bool.eqb].
  rewrite template_projects.
  eexists user, _. do 2 (split; [reflexivity|]).
  split; [reflexivity|].
  unfold run_args, container_dir. cbn [In].
  do 10 right. left.
  rewrite !append_assoc. reflexivity.
Qed.

Lemma updated_from (user_name k : string) (projects acc : list (string * Json)) :
  let f := fun updated (kv : string * Json) =>
             dict_set (replace "$USER_NAME" user_name (fst kv)) (snd kv) updated in
  (NoDup (dict_keys acc) -> NoDup (dict_keys (fold_left f projects acc))) /\
  dict_get k (fold_left f projects acc)
  = match dict_get k (rev (renamed user_name projects)) with
    | Some v => Some v
    | None => dict_get k acc
    end.
Proof.
  cbv zeta. revert acc. induction projects as [| [k0 v0] ps IH]; intros acc.
  - split; [auto | reflexivity].
  - cbn [fold_left renamed map rev fst snd].
    destruct (IH (dict_set (replace "$USER_NAME" user_name k0) v0 acc)) as (IH1 & IH2).
    split; [intros Hd; apply IH1, dict_set_distinct, Hd|].
    rewrite IH2, dict_get_app. fold (renamed user_name ps).
    destruct (dict_get k (rev (renamed user_name ps))); [reflexivity|].
    rewrite dict_get_set. cbn [dict_get].
    destruct (String.eqb k (replace "$USER_NAME" user_name k0)); reflexivity.
Qed.

(** X14.  The projects after the update have distinct paths, and a path
    stands for the last project of the template that is rewritten to it:
    when two paths of the template become the same path for this user, the
    settings of the first are lost. *)
Theorem updated_projects_last_wins (user_name : string) (projects : list (string * Json)) :
  NoDup (dict_keys (updated_projects user_name projects)) /\
  forall k,
    dict_get k (updated_projects user_name projects)
    = dict_get k (rev (renamed user_name projects)).
Proof.
  unfold updated_projects. split.
  - apply (proj1 (updated_from user_name "" projects [])). apply NoDup_nil_2.
  - intros k. rewrite (proj2 (updated_from user_name k projects [])).
    destruct (dict_get k (rev (renamed user_name projects))); reflexivity.
Qed.

Lemma run_container_without_message (h : Host) (self : Launcher) (mount_path : string)
    (msg mode mode' : option string) :
  opt_truthy msg = false ->
  run_container h self mount_path msg mode = run_container h self mount_path msg mode'.
Proof.
  intros H. unfold run_container.
  destruct msg as [text |]; [| reflexivity].
  cbn [opt_truthy] in H. rewrite H. reflexivity.
Qed.

Lemma setup_with_permission_mode (h : Host) (self : Launcher) (args : Args)
    (mode : option string) :
  setup h self (with_permission_mode mode args) = setup h self args.
Proof. destruct args. reflexivity. Qed.

Lemma session_without_message (h : Host) (self : Launcher) (args : Args)
    (mode : option string) (mount_path : string) :
  opt_truthy (message args) = false ->
  session h self (with_permission_mode mode args) mount_path = session h self args mount_path.
Proof.
  intros H. unfold session, with_permission_mode. cbn [message no_cache permission_mode].
  rewrite (run_container_without_message h self mount_path (message args) mode
             (permission_mode args) H).
  reflexivity.
Qed.

(** X15.  Without [--message], or with an empty one, [--permission-mode]
    has no effect: the run (exit status, log, final state) is the same
    whatever mode is given. *)
Theorem permission_mode_needs_message
    (h : Host) (args : Args) (fs : gset string) (dir : string) (mode : option string) :
  opt_truthy (message args) = false ->
  main h (with_permission_mode mode args) (boot fs dir) = main h args (boot fs dir).
Proof.
  intros H. unfold main. rewrite init_boot.
  assert (E : run h (launcher_of h dir) (with_permission_mode mode args) (started h fs dir)
              = run h (launcher_of h dir) args (started h fs dir)).
  { unfold run, bind. rewrite setup_with_permission_mode.
    destruct (setup h (launcher_of h dir) args (started h fs dir)) as [[mp | e] s1];
      [| reflexivity].
    rewrite (session_without_message h _ args mode mp H). reflexivity. }
  rewrite E. reflexivity.
Qed.

(** * Properties of build_standalone.py *)

Lemma text_eqb_eq (a b : str) : Text.eqb a b = true <-> a = b.
Proof. unfold Text.eqb. apply bool_decide_eq_true. Qed.

Lemma text_split_cons (sep c : N) (s : str) :
  exists l ls, Text.split sep s = l :: ls.
Proof. destruct s as [| x s]; simpl; [eauto|]. destruct (x =? sep)%N; [eauto|].
  destruct (Text.split sep s); eauto. Qed.

Lemma text_join_cons (sep l l' : str) (ls : list str) :
  Text.join sep (l :: l' :: ls) = l ++ sep ++ Text.join sep (l' :: ls).
Proof. reflexivity. Qed.

Lemma text_join_split (sep : N) (s : str) : Text.join [sep] (Text.split sep s) = s.
Proof.
  induction s as [| c s IH]; [reflexivity|].
  cbn [Text.split]. destruct (text_split_cons sep sep s) as (l & ls & E). rewrite E in *.
  destruct (N.eqb_spec c sep) as [-> | Hc].
  - rewrite text_join_cons, IH. reflexivity.
  - destruct ls as [| l' ls].
    + cbn [Text.join] in *. rewrite IH. reflexivity.
    + rewrite text_join_cons in *. rewrite <- IH. reflexivity.
Qed.

Lemma text_split_app (sep : N) (a b : str) :
  Text.split sep (a ++ sep :: b) = Text.split sep a ++ Text.split sep b.
Proof.
  induction a as [| c a IH]; cbn [app Text.split].
  - rewrite N.eqb_refl. reflexivity.
  - destruct (c =? sep)%N; [rewrite IH; reflexivity|].
    rewrite IH. destruct (text_split_cons sep sep a) as (l & ls & ->). reflexivity.
Qed.

Lemma text_split_line (sep : N) (l : str) : sep ∉ l -> Text.split sep l = [l].
Proof.
  induction l as [| c l IH]; intros H; [reflexivity|].
  cbn [Text.split]. destruct (N.eqb_spec c sep) as [-> | Hc].
  - exfalso. apply H. left.
  - rewrite IH; [reflexivity|]. intros Hin. apply H. right. exact Hin.
Qed.

Lemma text_split_lines (sep : N) (s l : str) : l ∈ Text.split sep s -> sep ∉ l.
Proof.
  revert l. induction s as [| c s IH]; intros l; cbn [Text.split].
  - intros H. apply list_elem_of_singleton in H. subst l. apply not_elem_of_nil.
  - destruct (N.eqb_spec c sep) as [-> | Hc].
    + intros H. apply elem_of_cons in H. destruct H as [-> | H]; [apply not_elem_of_nil | auto].
    + destruct (text_split_cons sep sep s) as (l0 & ls & E). rewrite E in *.
      intros H. apply elem_of_cons in H. destruct H as [-> | H].
      * intros Hin. apply elem_of_cons in Hin. destruct Hin as [-> | Hin]; [congruence|].
        apply (IH l0); [left | exact Hin].
      * apply IH. right. exact H.
Qed.

Lemma text_split_join (sep : N) (ls : list str) :
  ls <> [] -> Text.split sep (Text.join [sep] ls) = concat (map (Text.split sep) ls).
Proof.
  induction ls as [| l ls IH]; [congruence|]. intros _.
  destruct ls as [| l' ls].
  - cbn. rewrite app_nil_r. reflexivity.
  - rewrite text_join_cons. cbn [app map concat].
    rewrite text_split_app, IH; [reflexivity | congruence].
Qed.

Lemma step_cases (d t : str) (b : bool) (line : str) :
  (exists pre post, snd (Standalone.step d t b line) = pre ++ line :: post) \/
  (snd (Standalone.step d t b line) = [] /\ Standalone.assignment line = true).
Proof.
  unfold Standalone.step, Standalone.assignment.
  destruct (Text.eqb (Text.strip line) Standalone.class_line); [left; eexists [], _; reflexivity|].
  destruct (Text.eqb (Text.strip line) Standalone.init_line); [left; exists [], []; reflexivity|].
  destruct (b && _); [left; eexists [], _; reflexivity|].
  destruct (Text.contains Standalone.dockerfile_assignment line); [right; split; reflexivity|].
  destruct (Text.contains Standalone.template_assignment line); [right; split; reflexivity|].
  destruct (Text.eqb (Text.strip line) Standalone.run_line);
    [left; exists Standalone.cleanup_method, []; reflexivity | left; exists [], []; reflexivity].
Qed.

Lemma output_lines_keep (d t : str) (b : bool) (lines : list str) :
  sublist (List.filter (fun l => negb (Standalone.assignment l)) lines) (Standalone.output_lines d t b lines).
Proof.
  revert b. induction lines as [| line rest IH]; intros b; [constructor|].
  cbn [List.filter Standalone.output_lines].
  specialize (IH (fst (Standalone.step d t b line))).
  destruct (step_cases d t b line) as [(pre & post & ->) | (-> & ->)].
  - destruct (negb (Standalone.assignment line)).
    + rewrite <- app_assoc. apply sublist_inserts_l. cbn [app].
      apply sublist_skip. apply sublist_inserts_l. exact IH.
    + apply sublist_inserts_l. exact IH.
  - exact IH.
Qed.

Lemma sublist_concat_map {A B} (f : A -> list B) (l1 l2 : list A) :
  sublist l1 l2 -> sublist (concat (map f l1)) (concat (map f l2)).
Proof.
  induction 1 as [| x l1 l2 H IH | x l1 l2 H IH]; cbn [map concat].
  - constructor.
  - apply sublist_app; [reflexivity | exact IH].
  - apply sublist_inserts_l. exact IH.
Qed.

Lemma concat_lines (sep : N) (ls : list str) :
  (forall l, l ∈ ls -> sep ∉ l) -> concat (map (Text.split sep) ls) = ls.
Proof.
  induction ls as [| l ls IH]; intros H; [reflexivity|].
  cbn [map concat]. rewrite (text_split_line sep l); [| apply H; left].
  rewrite IH; [reflexivity|]. intros l' Hl. apply H. right. exact Hl.
Qed.

(** X16.  Every line of the source that holds neither of the two
    assignments to [self.script_dir] is a line of the output, and these
    lines come in the order of the source. *)
Theorem source_lines_kept (source dockerfile_content template_content : str) :
  sublist
    (List.filter (fun l => negb (Standalone.assignment l)) (Text.split Text.nl source))
    (Text.split Text.nl (Standalone.standalone source dockerfile_content template_content)).
Proof.
  unfold Standalone.standalone.
  pose proof (output_lines_keep dockerfile_content template_content false
                (Text.split Text.nl source)) as H.
  destruct (Standalone.output_lines dockerfile_content template_content false
              (Text.split Text.nl source)) as [| o os] eqn:E.
  - apply sublist_nil_r in H. rewrite H. apply sublist_nil_l.
  - rewrite text_split_join; [| discriminate].
    rewrite <- (concat_lines Text.nl (List.filter _ (Text.split Text.nl source))).
    + apply sublist_concat_map. exact H.
    + intros l Hl. apply list_elem_of_In, filter_In in Hl. destruct Hl as [Hl _].
      apply (text_split_lines Text.nl source). apply list_elem_of_In. exact Hl.
Qed.

Lemma output_lines_plain (d t : str) (lines : list str) :
  (forall l, In l lines -> Standalone.plain l = true /\ Standalone.assignment l = false) ->
  Standalone.output_lines d t false lines = lines.
Proof.
  induction lines as [| line rest IH]; intros H; [reflexivity|].
  destruct (H line (or_introl eq_refl)) as (Hp & Ha).
  unfold Standalone.plain in Hp. unfold Standalone.assignment in Ha.
  apply andb_prop in Hp. destruct Hp as [Hp H3]. apply andb_prop in Hp.
  destruct Hp as [H1 H2].
  apply negb_true_iff in H1, H2, H3. apply orb_false_elim in Ha. destruct Ha as [A1 A2].
  cbn [Standalone.output_lines]. unfold Standalone.step. rewrite H1, H2, H3, A1, A2. cbn [andb fst snd app].
  rewrite IH; [reflexivity|]. intros l Hl. apply H. right. exact Hl.
Qed.

(** X17.  A source with no [class], [__init__] or [run] line of the
    launcher and with neither assignment is written out as it is. *)
Theorem source_without_markers_unchanged
    (source dockerfile_content template_content : str) :
  (forall l, In l (Text.split Text.nl source) -> Standalone.plain l = true /\ Standalone.assignment l = false) ->
  Standalone.standalone source dockerfile_content template_content = source.
Proof.
  intros H. unfold Standalone.standalone.
  rewrite (output_lines_plain _ _ _ H). apply text_join_split.
Qed.

Lemma occurrences_app (x : str) (l1 l2 : list str) :
  occurrences x (l1 ++ l2) = (occurrences x l1 + occurrences x l2)%nat.
Proof. unfold occurrences. rewrite List.filter_app, length_app. reflexivity. Qed.

Lemma occurrences_cons (x l : str) (ls : list str) :
  occurrences x (l :: ls)
  = ((if Text.eqb x l then 1 else 0) + occurrences x ls)%nat.
Proof. unfold occurrences. cbn [List.filter]. destruct (Text.eqb x l); reflexivity. Qed.

Lemma no_hook_in_embedded_content (d t : str) :
  occurrences Standalone.register_line (Standalone.embedded_content d t) = 0%nat.
Proof.
  unfold Standalone.embedded_content. rewrite !occurrences_cons.
  repeat match goal with
    | |- context [Text.eqb ?a ?b] =>
        let E := fresh "E" in
        destruct (Text.eqb a b) eqn:E;
        [apply text_eqb_eq in E; vm_compute in E; discriminate E |]
    end.
  reflexivity.
Qed.

Lemma one_hook_in_temp_dir_setup :
  occurrences Standalone.register_line Standalone.temp_dir_setup = 1%nat.
Proof. vm_compute. reflexivity. Qed.

Lemma no_hook_in_cleanup_method :
  occurrences Standalone.register_line Standalone.cleanup_method = 0%nat.
Proof. vm_compute. reflexivity. Qed.

Lemma occurrences_nil (x : str) : occurrences x [] = 0%nat.
Proof. reflexivity. Qed.

Lemma hooks_from (d t : str) (b : bool) (lines : list str) :
  (occurrences Standalone.register_line (Standalone.output_lines d t b lines)
   <= occurrences Standalone.register_line lines
      + length (List.filter opens_init lines) + (if b then 1 else 0))%nat.
Proof.
  revert b. induction lines as [| line rest IH]; intros b; [cbn; lia|].
  cbn [Standalone.output_lines List.filter].
  rewrite occurrences_app, (occurrences_cons _ line rest).
  specialize (IH (fst (Standalone.step d t b line))).
  unfold Standalone.step in *. unfold opens_init at 1.
  destruct (Text.eqb (Text.strip line) Standalone.class_line) eqn:E1.
  { cbn [fst snd] in *. rewrite occurrences_cons, no_hook_in_embedded_content.
    destruct (Text.eqb (Text.strip line) Standalone.init_line); cbn [length]; lia. }
  destruct (Text.eqb (Text.strip line) Standalone.init_line) eqn:E2.
  { cbn [fst snd] in *. cbv iota in IH.
    rewrite occurrences_cons, occurrences_nil. cbn [length]. destruct b; lia. }
  cbn [length].
  destruct (b && Text.startswith Standalone.script_dir_prefix (Text.strip line)) eqn:E3.
  { cbn [fst snd] in *. cbv iota in IH.
    rewrite occurrences_cons, one_hook_in_temp_dir_setup.
    apply andb_prop in E3. destruct E3 as [-> _]. lia. }
  destruct (Text.contains Standalone.dockerfile_assignment line).
  { cbn [fst snd] in *. rewrite occurrences_nil. lia. }
  destruct (Text.contains Standalone.template_assignment line).
  { cbn [fst snd] in *. rewrite occurrences_nil. lia. }
  destruct (Text.eqb (Text.strip line) Standalone.run_line).
  { cbn [fst snd] in *.
    rewrite occurrences_app, no_hook_in_cleanup_method, occurrences_cons, occurrences_nil.
    lia. }
  cbn [fst snd] in *. rewrite occurrences_cons, occurrences_nil. lia.
Qed.

(** X18.  The loop registers the exit hook at most once for each line that
    opens [__init__]: the output has no more registrations than the source
    had, plus one for each such line; without such a line a
    [self.script_dir] line adds nothing. *)
Theorem hook_registered_once_per_init
    (dockerfile_content template_content : str) (lines : list str) :
  (occurrences Standalone.register_line
     (Standalone.output_lines dockerfile_content template_content false lines)
   <= occurrences Standalone.register_line lines
      + length (List.filter opens_init lines))%nat.
Proof.
  pose proof (hooks_from dockerfile_content template_content false lines) as H.
  cbn [Nat.add] in H. lia.
Qed.

Lemma text_startswith_app (p q b : str) :
  Text.startswith p q = true -> Text.startswith p (q ++ b) = true.
Proof.
  revert q. induction p as [| x p IH]; intros q; [reflexivity|].
  destruct q as [| y q]; cbn [Text.startswith app]; [discriminate|].
  intros H. apply andb_prop in H. destruct H as [-> H]. exact (IH q H).
Qed.

Lemma text_startswith_refl (p b : str) : Text.startswith p (p ++ b) = true.
Proof. induction p as [| x p IH]; cbn; [| rewrite N.eqb_refl]; auto. Qed.

Lemma text_contains_app_r (sub s b : str) :
  Text.contains sub s = true -> Text.contains sub (s ++ b) = true.
Proof.
  induction s as [| c s IH]; cbn [Text.contains app]; intros H.
  - rewrite orb_false_r in H. destruct sub; [| discriminate H].
    destruct b; reflexivity.
  - apply orb_prop in H. destruct H as [H | H].
    + pose proof (text_startswith_app _ (c :: s) b H) as H'. cbn [app] in H'.
      rewrite H'. reflexivity.
    + rewrite (IH H). apply orb_true_r.
Qed.

Lemma text_contains_app_l (sub a s : str) :
  Text.contains sub s = true -> Text.contains sub (a ++ s) = true.
Proof.
  intros H. induction a as [| c a IH]; cbn [app]; [exact H|].
  cbn [Text.contains]. rewrite IH. apply orb_true_r.
Qed.

Lemma text_contains_self (sub : str) : Text.contains sub sub = true.
Proof.
  pose proof (text_startswith_refl sub []) as H. rewrite app_nil_r in H.
  destruct sub; cbn [Text.contains]; rewrite H; reflexivity.
Qed.

Lemma text_contains_join (sub l : str) (sep : str) (ls : list str) :
  In l ls -> Text.contains sub l = true -> Text.contains sub (Text.join sep ls) = true.
Proof.
  intros Hin Hc. induction ls as [| x ls IH]; [destruct Hin|].
  destruct ls as [| y ls].
  - destruct Hin as [-> | []]. exact Hc.
  - rewrite text_join_cons. destruct Hin as [-> | Hin].
    + apply text_contains_app_r. exact Hc.
    + apply text_contains_app_l, text_contains_app_l. exact (IH Hin).
Qed.

Lemma embedded_after_class (d t : str) (b : bool) (lines : list str) (line l : str) :
  In line lines -> opens_class line = true ->
  In l (Standalone.embedded_content d t) ->
  In l (Standalone.output_lines d t b lines).
Proof.
  intros Hin Hc Hl. revert b. induction lines as [| x rest IH]; intros b; [destruct Hin|].
  cbn [Standalone.output_lines]. apply in_or_app.
  destruct Hin as [-> | Hin]; [left | right; auto].
  unfold Standalone.step. unfold opens_class in Hc. rewrite Hc. right. exact Hl.
Qed.

(** X19.  When the source has a line that opens the class, the output holds
    the text of the container file and the text of the template, each as it
    is (nothing is escaped) between a pair of triple quotes. *)
Theorem contents_embedded_verbatim
    (source dockerfile_content template_content line : str) :
  In line (Text.split Text.nl source) ->
  opens_class line = true ->
  let output := Standalone.standalone source dockerfile_content template_content in
  Text.contains
    (Standalone.triple_quote ++ dockerfile_content ++ Standalone.triple_quote) output
    = true /\
  Text.contains
    (Standalone.triple_quote ++ template_content ++ Standalone.triple_quote) output
    = true.
Proof.
  intros Hin Hc. cbv zeta. unfold Standalone.standalone. split.
  - eapply text_contains_join.
    + eapply (embedded_after_class _ _ _ _ line); [exact Hin | exact Hc |].
      right. left. reflexivity.
    + apply text_contains_app_l. apply text_contains_self.
  - eapply text_contains_join.
    + eapply (embedded_after_class _ _ _ _ line); [exact Hin | exact Hc |].
      do 4 right. left. reflexivity.
    + apply text_contains_app_l. apply text_contains_self.
Qed.

Lemma no_cr_app (a b : str) : no_cr (a ++ b) = no_cr a && no_cr b.
Proof. apply forallb_app. Qed.

Lemma no_cr_universal_newlines (s : str) : no_cr (Standalone.universal_newlines s) = true.
Proof.
  assert (H : forall n s, (length s <= n)%nat ->
                          no_cr (Standalone.universal_newlines s) = true).
  { clear s. induction n as [| n IH]; intros s Hn.
    - destruct s; [reflexivity | cbn in Hn; lia].
    - destruct s as [| c rest]; [reflexivity|]. cbn [length] in Hn.
      cbn [Standalone.universal_newlines].
      destruct (c =? 13)%N eqn:Ec.
      + cbn [no_cr forallb]. change (negb (Text.nl =? 13)%N) with true. cbn [andb].
        destruct rest as [| c' rest']; [reflexivity|].
        cbn [length] in Hn.
        destruct (c' =? 10)%N; apply IH; cbn [length]; lia.
      + cbn [no_cr forallb]. rewrite Ec. cbn [negb andb]. apply IH. lia. }
  exact (H (length s) s (le_n _)).
Qed.

Lemma no_cr_split (sep : N) (s : str) :
  no_cr s = true -> forallb no_cr (Text.split sep s) = true.
Proof.
  induction s as [| c s IH]; [reflexivity|].
  cbn [no_cr forallb Text.split]. intros H. apply andb_prop in H. destruct H as [Hc Hs].
  specialize (IH Hs).
  destruct (c =? sep)%N.
  - cbn [forallb]. exact IH.
  - destruct (Text.split sep s) as [| l ls]; cbn [forallb no_cr] in *.
    + rewrite Hc. reflexivity.
    + rewrite Hc. exact IH.
Qed.

Lemma no_cr_join (sep : str) (ls : list str) :
  no_cr sep = true -> forallb no_cr ls = true -> no_cr (Text.join sep ls) = true.
Proof.
  intros Hsep. induction ls as [| l ls IH]; [reflexivity|].
  cbn [forallb Text.join]. intros H. apply andb_prop in H. destruct H as [Hl Hls].
  destruct ls as [| l' ls']; [exact Hl|].
  rewrite !no_cr_app, Hl, Hsep, (IH Hls). reflexivity.
Qed.

Lemma no_cr_step (d t : str) (b : bool) (line : str) :
  no_cr d = true -> no_cr t = true -> no_cr line = true ->
  forallb no_cr (snd (Standalone.step d t b line)) = true.
Proof.
  intros Hd Ht Hl. unfold Standalone.step.
  repeat match goal with
         | |- context [if ?c then _ else _] => destruct c
         end; cbn [snd forallb]; rewrite ?Hl; try reflexivity.
  - unfold Standalone.embedded_content. cbn [forallb].
    rewrite !no_cr_app, Hd, Ht. reflexivity.
  - rewrite forallb_app. cbn [forallb]. rewrite Hl. reflexivity.
Qed.

Lemma no_cr_output_lines (d t : str) (b : bool) (lines : list str) :
  no_cr d = true -> no_cr t = true -> forallb no_cr lines = true ->
  forallb no_cr (Standalone.output_lines d t b lines) = true.
Proof.
  intros Hd Ht. revert b. induction lines as [| line rest IH]; intros b; [reflexivity|].
  cbn [forallb Standalone.output_lines]. intros H. apply andb_prop in H.
  destruct H as [Hl Hr].
  rewrite forallb_app, (no_cr_step d t b line Hd Ht Hl), (IH _ Hr). reflexivity.
Qed.

Lemma no_cr_standalone (source d t : str) :
  no_cr source = true -> no_cr d = true -> no_cr t = true ->
  no_cr (Standalone.standalone source d t) = true.
Proof.
  intros Hs Hd Ht. unfold Standalone.standalone.
  apply no_cr_join; [reflexivity|].
  apply no_cr_output_lines; [exact Hd | exact Ht | apply no_cr_split; exact Hs].
Qed.

Lemma no_cr_spec (s : str) : no_cr s = true -> 13%N ∉ s.
Proof.
  unfold no_cr. rewrite forallb_forall. intros H Hin.
  apply list_elem_of_In in Hin. specialize (H _ Hin). discriminate H.
Qed.

Lemma read_spec (w : Standalone.World) (p : string) (text : str) :
  Standalone.read w p = Some text ->
  exists content,
    Standalone.contents w !! p = Some (Standalone.Chars content) /\
    text = Standalone.universal_newlines content.
Proof.
  unfold Standalone.read.
  destruct (Standalone.contents w !! p) as [[content |] |]; try discriminate.
  intros H. injection H as <-. eauto.
Qed.

Lemma read_after (w : Standalone.World) (v : Standalone.stored) (p : string)
    (l : gset string) (e : gset string) (pr : list str) :
  p <> Standalone.output_script ->
  Standalone.read
    (Standalone.mkWorld (<[ Standalone.output_script := v ]> (Standalone.contents w)) l e pr) p
  = Standalone.read w p.
Proof.
  intros H. unfold Standalone.read. cbn [Standalone.contents].
  rewrite lookup_insert_ne by congruence. reflexivity.
Qed.

(** X20.  When the build succeeds, no file but the output script has
    changed and the output script is executable; the output has no carriage
    return, whatever line ends the three inputs use, because they are read
    in text mode; and building again succeeds and leaves every file as it
    is. *)
Theorem standalone_main_outcome (w w1 : Standalone.World) :
  Standalone.main w = Some w1 ->
  (forall p, p <> Standalone.output_script ->
             Standalone.contents w1 !! p = Standalone.contents w !! p) /\
  Standalone.output_script ∈ Standalone.executable w1 /\
  (exists output,
      Standalone.contents w1 !! Standalone.output_script = Some (Standalone.Chars output) /\
      13%N ∉ output) /\
  exists w2, Standalone.main w1 = Some w2 /\ Standalone.contents w2 = Standalone.contents w1.
Proof.
  unfold Standalone.main at 1.
  destruct (Standalone.read w Standalone.source_script) as [source |] eqn:E1;
    cbn [mbind option_bind]; [| discriminate].
  destruct (Standalone.read w Standalone.dockerfile) as [d |] eqn:E2;
    cbn [mbind option_bind]; [| discriminate].
  destruct (Standalone.read w Standalone.template_file) as [t |] eqn:E3;
    cbn [mbind option_bind]; [| discriminate].
  destruct (bool_decide (Standalone.output_script ∈ Standalone.locked w)) eqn:El;
    [discriminate|].
  intros H. injection H as <-. cbn [Standalone.contents Standalone.executable].
  split; [intros p Hp; apply lookup_insert_ne; congruence|].
  split; [apply elem_of_union_l, elem_of_singleton; reflexivity|].
  split.
  { eexists. split; [apply lookup_insert_eq|].
    apply no_cr_spec, no_cr_standalone.
    - apply read_spec in E1. destruct E1 as (c & _ & ->). apply no_cr_universal_newlines.
    - apply read_spec in E2. destruct E2 as (c & _ & ->). apply no_cr_universal_newlines.
    - apply read_spec in E3. destruct E3 as (c & _ & ->). apply no_cr_universal_newlines. }
  unfold Standalone.main. cbn [Standalone.locked].
  rewrite !read_after by discriminate.
  rewrite E1, E2, E3. cbn [mbind option_bind]. rewrite El.
  eexists. split; [reflexivity|]. cbn [Standalone.contents].
  apply insert_insert_eq.
Qed.

(** * Properties of architect.py *)

(** X21.  The key that is resolved is never empty.  The key of the command
    line is taken when it is not empty, whatever the environment holds; an
    empty one counts as none; resolution fails exactly when neither the
    command line nor the environment gives a key that is not empty. *)
Theorem resolve_api_key_outcome (cli_key env_key : option str) :
  match Architect.resolve_api_key cli_key env_key with
  | inr key =>
      key <> [] /\
      (if Architect.given cli_key then cli_key = Some key else env_key = Some key)
  | inl _ => Architect.given cli_key = false /\ Architect.given env_key = false
  end.
Proof.
  unfold Architect.resolve_api_key.
  destruct cli_key as [[| c k] |]; cbn [Architect.given default];
    try (split; [discriminate | reflexivity]).
  all: destruct env_key as [[| c k] |]; cbn [Architect.given default];
    try (split; [discriminate | reflexivity]); split; reflexivity.
Qed.

Lemma combined_content_spec (fs : Architect.FileSystem) (files : list str)
    (blocks : list str) :
  Architect.combined_content fs files = inr blocks <->
  exists contents,
    Forall2 (fun p c => Text.endswith Architect.md p = true /\ fs !! p = Some (Architect.File c))
            files contents /\
    blocks = zip_with Architect.entry files contents.
Proof.
  revert blocks. induction files as [| p rest IH]; intros blocks; cbn [Architect.combined_content].
  - split.
    + intros H. injection H as <-. exists []. split; [constructor | reflexivity].
    + intros (contents & HF & ->). apply Forall2_nil_inv_l in HF. subst contents. reflexivity.
  - unfold Architect.path_exists, Architect.read_text. split.
    + destruct (fs !! p) as [[c | e | e] |] eqn:E; try discriminate;
        destruct (Text.endswith Architect.md p) eqn:Em; cbn [negb]; try discriminate.
      destruct (Architect.combined_content fs rest) as [e | more] eqn:Er; [discriminate|].
      intros H. injection H as <-.
      destruct (proj1 (IH more) eq_refl) as (contents & HF & ->).
      exists (c :: contents). split; [constructor; auto | reflexivity].
    + intros (contents & HF & ->).
      apply Forall2_cons_inv_l in HF. destruct HF as (c & cs & (Em & E) & HF & ->).
      rewrite E, Em. cbn [negb].
      rewrite (proj2 (IH (zip_with Architect.entry rest cs))); [reflexivity|].
      exists cs. split; [exact HF | reflexivity].
Qed.

(** X22.  The existing files are taken all or none: the result is a text
    exactly when every path ends with [.md] and holds a file that can be
    read, and then it is the entries [File: path], newline, content of the
    files, in the order given, with an empty line between two entries; in
    every other case the result is an exception. *)
Theorem process_existing_files_outcome
    (fs : Architect.FileSystem) (existing_files : list str) (text : str) :
  Architect.process_existing_files fs existing_files = inr text <->
  exists contents,
    Forall2 (fun p c => Text.endswith Architect.md p = true /\ fs !! p = Some (Architect.File c))
            existing_files contents /\
    text = Text.join [Text.nl; Text.nl] (zip_with Architect.entry existing_files contents).
Proof.
  unfold Architect.process_existing_files.
  destruct existing_files as [| p rest].
  - split.
    + intros H. injection H as <-. exists []. split; [constructor | reflexivity].
    + intros (contents & HF & ->). apply Forall2_nil_inv_l in HF. subst contents. reflexivity.
  - destruct (Architect.combined_content fs (p :: rest)) as [e | blocks] eqn:E.
    + split; [discriminate|]. intros (contents & HF & _).
      assert (H : Architect.combined_content fs (p :: rest)
                  = inr (zip_with Architect.entry (p :: rest) contents))
        by (apply combined_content_spec; eauto).
      congruence.
    + apply combined_content_spec in E. destruct E as (contents & HF & ->).
      split.
      * intros H. injection H as <-. eauto.
      * intros (contents' & HF' & ->).
        assert (contents' = contents); [| subst; reflexivity].
        clear -HF HF'. revert contents contents' HF HF'.
        generalize (p :: rest). intros l. induction l as [| x l IH]; intros c1 c2 H1 H2.
        -- apply Forall2_nil_inv_l in H1, H2. congruence.
        -- apply Forall2_cons_inv_l in H1, H2.
           destruct H1 as (a & c1' & (_ & Ea) & H1 & ->).
           destruct H2 as (b & c2' & (_ & Eb) & H2 & ->).
           rewrite Ea in Eb. injection Eb as <-. f_equal. exact (IH _ _ H1 H2).
Qed.

(** X23.  A path that does not exist is not an error for a feature or a
    context: it is taken as the text itself, also when it ends with [.md];
    among the existing files it is an error, reported as not found whatever
    its suffix and whatever follows it. *)
Theorem missing_file_text_or_error
    (fs : Architect.FileSystem) (p input_type : str) (rest : list str) :
  fs !! p = None ->
  Architect.process_input fs p input_type = inr p /\
  Architect.process_existing_files fs (p :: rest) = inl (Architect.not_found p).
Proof.
  intros H. unfold Architect.process_input, Architect.process_existing_files.
  cbn [Architect.combined_content]. unfold Architect.path_exists. rewrite H.
  split; [destruct (Text.endswith Architect.md p) |]; reflexivity.
Qed.

(** X27.  A value whose look-up fails for another reason than absence (a
    long description, longer than a file name may be) is taken as the text
    when it does not end with [.md].  When it ends with [.md],
    [process_input] raises the [OSError] of the look-up as it is, not the
    [ValueError] of a file that cannot be read; among the existing files the
    [OSError] is raised whatever the suffix. *)
Theorem unreachable_path_raises
    (fs : Architect.FileSystem) (p input_type why : str) (rest : list str) :
  fs !! p = Some (Architect.Unreachable why) ->
  Architect.process_input fs p input_type
  = (if Text.endswith Architect.md p then inl (Architect.OSError why) else inr p) /\
  Architect.process_existing_files fs (p :: rest) = inl (Architect.OSError why).
Proof.
  intros H. unfold Architect.process_input, Architect.process_existing_files.
  cbn [Architect.combined_content]. unfold Architect.path_exists. rewrite H.
  split; reflexivity.
Qed.

Lemma text_startswith_spec (sub s : str) :
  Text.startswith sub s = true <-> exists post, s = sub ++ post.
Proof.
  revert s. induction sub as [| x sub IH]; intros s; cbn [Text.startswith].
  - split; [intros _; exists s; reflexivity | reflexivity].
  - destruct s as [| c s].
    + split; [discriminate | intros (post & H); discriminate H].
    + rewrite andb_true_iff, N.eqb_eq, IH. split.
      * intros (-> & post & ->). exists post. reflexivity.
      * intros (post & H). cbn [app] in H. injection H as -> ->. split; eauto.
Qed.

Lemma text_startswith_drop (sub s : str) :
  Text.startswith sub s = true -> s = sub ++ drop (length sub) s.
Proof.
  intros H. apply text_startswith_spec in H. destruct H as (post & ->).
  rewrite drop_app_length. reflexivity.
Qed.

Lemma before_after (sub s pre : str) :
  Architect.before sub s = Some pre ->
  exists post, Architect.after sub s = Some post /\ first_at sub pre post s.
Proof.
  revert pre. induction s as [| c s IH]; intros pre; cbn [Architect.before Architect.after].
  - destruct (Text.startswith sub []) eqn:E; [| discriminate].
    intros H. injection H as <-. eexists. split; [reflexivity|]. split.
    + cbn [app]. apply text_startswith_drop. exact E.
    + intros. cbn [length]. lia.
  - destruct (Text.startswith sub (c :: s)) eqn:E.
    + intros H. injection H as <-. eexists. split; [reflexivity|]. split.
      * cbn [app]. apply text_startswith_drop. exact E.
      * intros. cbn [length]. lia.
    + destruct (Architect.before sub s) as [pre0 |] eqn:Eb; [| discriminate].
      cbn [option_map]. intros H. injection H as <-.
      destruct (IH pre0 eq_refl) as (post & Ea & Hs & Hmin).
      exists post. split; [exact Ea|]. split.
      * cbn [app]. f_equal. exact Hs.
      * intros pre' post' H. destruct pre' as [| c' pre'].
        -- cbn [app] in H. exfalso.
           assert (Text.startswith sub (c :: s) = true)
             by (apply text_startswith_spec; eauto).
           congruence.
        -- cbn [app] in H. injection H as _ H. cbn [length].
           specialize (Hmin _ _ H). lia.
Qed.

Lemma before_found (sub pre post : str) :
  is_Some (Architect.before sub (pre ++ sub ++ post)).
Proof.
  induction pre as [| c pre IH].
  - cbn [app]. destruct (sub ++ post) eqn:E; cbn [Architect.before];
      rewrite <- E, text_startswith_refl; eauto.
  - cbn [app Architect.before].
    destruct (Text.startswith sub (c :: pre ++ sub ++ post)); [eauto|].
    destruct IH as (x & ->). cbn [option_map]. eauto.
Qed.

Lemma first_at_unique (sub s p1 q1 p2 q2 : str) :
  first_at sub p1 q1 s -> first_at sub p2 q2 s -> p1 = p2 /\ q1 = q2.
Proof.
  intros (H1 & M1) (H2 & M2).
  pose proof (M1 _ _ H2). pose proof (M2 _ _ H1).
  assert (E : length p1 = length p2) by lia.
  rewrite H1 in H2. apply app_inj_1 in H2; [| exact E].
  destruct H2 as (-> & H2). apply app_inv_head in H2. auto.
Qed.

Lemma first_at_before (sub pre post s : str) :
  first_at sub pre post s ->
  Architect.before sub s = Some pre /\ Architect.after sub s = Some post.
Proof.
  intros H. pose proof H as (Hs & _).
  destruct (before_found sub pre post) as (pre0 & E). rewrite <- Hs in E.
  destruct (before_after _ _ _ E) as (post0 & Ea & H0).
  destruct (first_at_unique _ _ _ _ _ _ H0 H) as (-> & ->). auto.
Qed.

Lemma after_before (sub s post : str) :
  Architect.after sub s = Some post ->
  exists pre, Architect.before sub s = Some pre /\ first_at sub pre post s.
Proof.
  revert post. induction s as [| c s IH]; intros post; cbn [Architect.before Architect.after].
  - destruct (Text.startswith sub []) eqn:E; [| discriminate].
    intros H. injection H as <-. exists []. split; [reflexivity|]. split.
    + cbn [app]. apply text_startswith_drop. exact E.
    + intros. cbn [length]. lia.
  - destruct (Text.startswith sub (c :: s)) eqn:E.
    + intros H. injection H as <-. exists []. split; [reflexivity|]. split.
      * cbn [app]. apply text_startswith_drop. exact E.
      * intros. cbn [length]. lia.
    + intros H. destruct (IH _ H) as (pre0 & Eb & H0).
      rewrite Eb. cbn [option_map]. eexists. split; [reflexivity|].
      destruct H0 as (Hs & Hmin). split.
      * cbn [app]. f_equal. exact Hs.
      * intros pre' post' H'. destruct pre' as [| c' pre'].
        -- cbn [app] in H'. exfalso.
           assert (Text.startswith sub (c :: s) = true)
             by (apply text_startswith_spec; eauto).
           congruence.
        -- cbn [app] in H'. injection H' as _ H'. cbn [length].
           specialize (Hmin _ _ H'). lia.
Qed.

(** X24.  A section of the response is the text between the first opening
    tag and the first closing tag that follows it.  There is one exactly
    when the response holds an opening tag with a closing tag somewhere
    after it, whatever lies between, line ends and further opening tags
    included. *)
Theorem search_section_first_section (tag response : str) :
  (forall inner,
     Architect.search_section tag response = Some inner <->
     exists pre rest post,
       first_at (Architect.open_tag tag) pre rest response /\
       first_at (Architect.close_tag tag) inner post rest) /\
  (is_Some (Architect.search_section tag response) <->
   exists pre inner post,
     response = pre ++ Architect.open_tag tag ++ inner ++ Architect.close_tag tag ++ post).
Proof.
  unfold Architect.search_section. split.
  - intros inner. split.
    + destruct (Architect.after (Architect.open_tag tag) response) as [rest |] eqn:Ea;
        [| discriminate].
      intros Eb. apply after_before in Ea. destruct Ea as (pre & _ & H1).
      apply before_after in Eb. destruct Eb as (post & _ & H2).
      exists pre, rest, post. auto.
    + intros (pre & rest & post & H1 & H2).
      apply first_at_before in H1. destruct H1 as (_ & ->).
      apply first_at_before in H2. destruct H2 as (-> & _). reflexivity.
  - split.
    + destruct (Architect.after (Architect.open_tag tag) response) as [rest |] eqn:Ea;
        [| intros (x & H); discriminate H].
      intros (inner & Eb).
      apply after_before in Ea. destruct Ea as (pre & _ & H1 & _).
      apply before_after in Eb. destruct Eb as (post & _ & H2 & _).
      exists pre, inner, post. rewrite H1, H2. reflexivity.
    + intros (pre & inner & post & H).
      destruct (before_found (Architect.open_tag tag) pre
                  (inner ++ Architect.close_tag tag ++ post)) as (pre0 & E).
      rewrite <- H in E. apply before_after in E.
      destruct E as (rest & -> & H0 & Hmin).
      pose proof (Hmin _ _ H) as Hle.
      assert (Hrest : exists mid, rest = mid ++ inner ++ Architect.close_tag tag ++ post).
      { rewrite H0 in H.
        assert (Hp : pre = pre0 ++ drop (length pre0) pre).
        { rewrite <- (take_drop (length pre0) pre) at 1. f_equal.
          apply (f_equal (take (length pre0))) in H.
          rewrite take_app_length in H.
          rewrite take_app_le in H by lia. symmetry. exact H. }
        rewrite Hp in H. rewrite <- app_assoc in H. apply app_inv_head in H.
        (* open ++ rest = d ++ open ++ tail, rest is the longer tail *)
        set (d := drop (length pre0) pre) in *.
        set (o := Architect.open_tag tag) in *.
        set (tail := inner ++ Architect.close_tag tag ++ post) in *.
        exists (drop (length o) (d ++ o)).
        apply (f_equal (drop (length o))) in H.
        rewrite drop_app_length in H. rewrite H.
        rewrite (app_assoc d o tail).
        rewrite drop_app_le; [reflexivity|]. rewrite length_app. lia. }
      destruct Hrest as (mid & ->).
      rewrite (app_assoc mid inner). apply before_found.
Qed.

Lemma components_file (file : str) :
  file <> [] -> file <> Text.of_string "." -> 47%N ∉ file ->
  Architect.components file = [file].
Proof.
  intros H1 H2 H3. unfold Architect.components.
  rewrite (text_split_line _ _ H3). cbn [List.filter].
  unfold Text.eqb. rewrite !bool_decide_eq_false_2 by assumption. reflexivity.
Qed.

Lemma in_specs_file (file : str) :
  file <> [] -> file <> Text.of_string "." -> 47%N ∉ file ->
  Architect.in_specs file = Text.of_string "specs/" ++ file.
Proof.
  intros H1 H2 H3. unfold Architect.in_specs.
  rewrite (components_file _ H1 H2 H3).
  destruct file as [| c file]; [congruence|].
  assert (Hc : (47 =? c)%N = false).
  { apply N.eqb_neq. intros <-. apply H3. left. }
  change (Text.startswith (Text.of_string "/") (c :: file)) with ((47 =? c)%N && true).
  rewrite Hc. reflexivity.
Qed.

Lemma components_no_slash (p c : str) : c ∈ Architect.components p -> 47%N ∉ c.
Proof.
  unfold Architect.components. intros H.
  apply list_elem_of_In, filter_In in H. destruct H as (H & _).
  apply list_elem_of_In in H. exact (text_split_lines _ _ _ H).
Qed.

Lemma name_no_slash (p : str) : 47%N ∉ Architect.name p.
Proof.
  unfold Architect.name.
  assert (H : forall c, c ∈ Architect.components p -> 47%N ∉ c)
    by (intros c; apply components_no_slash).
  induction (Architect.components p) as [| c l IH]; cbn [List.last].
  - apply not_elem_of_nil.
  - destruct l as [| c' l'].
    + apply H. left.
    + apply IH. intros x Hx. apply H. right. exact Hx.
Qed.

Lemma literal_no_slash (a b : str) :
  forallb (fun c => negb (c =? 47)%N) a = true -> 47%N ∉ b -> 47%N ∉ a ++ b.
Proof.
  intros Ha Hb H. apply elem_of_app in H. destruct H as [H | H]; [| exact (Hb H)].
  rewrite forallb_forall in Ha. apply list_elem_of_In in H.
  specialize (Ha _ H). discriminate Ha.
Qed.

Lemma literal_no_slash_r (a b : str) :
  47%N ∉ a -> forallb (fun c => negb (c =? 47)%N) b = true -> 47%N ∉ a ++ b.
Proof.
  intros Ha Hb H. apply elem_of_app in H. destruct H as [H | H]; [exact (Ha H)|].
  rewrite forallb_forall in Hb. apply list_elem_of_In in H.
  specialize (Hb _ H). discriminate Hb.
Qed.

Lemma longer_than_dot (a b : str) : (2 <= length a + length b)%nat ->
  a ++ b <> [] /\ a ++ b <> Text.of_string ".".
Proof.
  intros H. split; intros E; apply (f_equal length) in E;
    rewrite length_app in E; cbn in E; lia.
Qed.

Lemma section_in_specs (tag suffix missing response slug : str) :
  47%N ∉ slug ->
  forallb (fun c => negb (c =? 47)%N) suffix = true -> (2 <= length suffix)%nat ->
  Forall directly_in_specs (written (Architect.save_section tag suffix missing response slug)).
Proof.
  intros Hs Hl Hn. unfold Architect.save_section.
  destruct (Architect.search_section tag response); cbn [written flat_map app];
    [| constructor].
  constructor; [| constructor].
  destruct (longer_than_dot slug suffix ltac:(lia)) as (H1 & H2).
  pose proof (literal_no_slash_r _ _ Hs Hl) as H3.
  exists (slug ++ suffix). split; [apply in_specs_file; assumption | split; assumption].
Qed.

Lemma updates_in_specs (response : str) (existing_files : option (list str)) :
  Forall directly_in_specs (written (Architect.save_updates response existing_files)).
Proof.
  unfold Architect.save_updates.
  destruct (Architect.search_section Architect.updated_tag response) as [content |];
    [| constructor].
  destruct existing_files as [[| f fs] |]; [constructor | | constructor].
  generalize (f :: fs). intros l. induction l as [| x l IH]; [constructor|].
  cbn [map written flat_map app]. constructor; [| exact IH].
  assert (H3 : 47%N ∉ Text.of_string "updated_" ++ Architect.name x)
    by (apply literal_no_slash; [reflexivity | apply name_no_slash]).
  destruct (longer_than_dot (Text.of_string "updated_") (Architect.name x)) as (H1 & H2);
    [cbn; lia|].
  exists (Text.of_string "updated_" ++ Architect.name x).
  split; [apply in_specs_file; assumption | split; assumption].
Qed.

Lemma written_app (l1 l2 : list Architect.action) : written (l1 ++ l2) = written l1 ++ written l2.
Proof. unfold written. apply flat_map_app. Qed.

(** X25.  With a slug that holds no slash, every file that is written lies
    directly in [specs], whatever the response and whatever the paths of the
    existing files: of an existing file only the last component is used.
    This holds for the calls made up to any point, so also when one of them
    fails. *)
Theorem outputs_directly_in_specs
    (response slug : str) (existing_files : option (list str)) (calls : list Architect.action) :
  47%N ∉ slug ->
  calls `prefix_of` Architect.parse_and_save_outputs response slug existing_files ->
  Forall directly_in_specs (written calls).
Proof.
  intros Hs (more & H).
  assert (Hall : Forall directly_in_specs
                   (written (Architect.parse_and_save_outputs response slug existing_files))).
  { unfold Architect.parse_and_save_outputs. rewrite !written_app.
    apply Forall_app_2; [| apply Forall_app_2; [| apply Forall_app_2]].
    - constructor.
    - apply section_in_specs; [exact Hs | reflexivity | cbn; lia].
    - apply section_in_specs; [exact Hs | reflexivity | cbn; lia].
    - apply updates_in_specs. }
  rewrite H, written_app in Hall. apply Forall_app in Hall. exact (proj1 Hall).
Qed.

(** * The code at the failing inputs *)

(** C1, the code at the failing input.  [podman build] fails: the run ends
    with status 1 after the [finally] block ran ([git worktree list] is
    spawned), and the copied credentials and the generated [.claude.json] are
    still in the build context, no file having been unlinked.  When the build
    succeeds they are unlinked. *)
Theorem build_failure_leaves_artifacts :
  let aborted := main (scripted build_fails) plain_args (boot home_files "/repo") in
  let built := main (scripted build_succeeds) plain_args (boot home_files "/repo") in
  fst aborted = 1 /\
  existsb (spawned ["git"; "worktree"; "list"]) (trace (snd aborted)) = true /\
  exists_on (files (snd aborted)) "/" "/opt/adi/.credentials.json" = true /\
  exists_on (files (snd aborted)) "/" "/opt/adi/.claude.json" = true /\
  existsb is_unlink (trace (snd aborted)) = false /\
  fst built = 0 /\
  exists_on (files (snd built)) "/" "/opt/adi/.credentials.json" = false /\
  exists_on (files (snd built)) "/" "/opt/adi/.claude.json" = false.
Proof. vm_compute. repeat split. Qed.

(** C2, the code at the failing input.  With [--worktree-branch
    feature/login] and every command succeeding, the checkout is created by
    [git worktree add -b claude_wt wt_temp/]: no command mentions the ref,
    the working tree is at [wt_temp], and the path that is recorded, mounted
    and never created is [claude_wt]. *)
Theorem worktree_created_elsewhere :
  let out := main (scripted build_succeeds) feature_args (boot home_files "/repo") in
  existsb is_worktree_add_ok (trace (snd out)) = true /\
  existsb (mentions "feature/login") (trace (snd out)) = false /\
  worktree_created (snd out) = true /\
  worktree_path (snd out) = Some "/repo/claude_wt" /\
  exists_on (files (snd out)) "/" "/repo/wt_temp" = true /\
  exists_on (files (snd out)) "/" "/repo/claude_wt" = false /\
  existsb (mentions "/repo/claude_wt:/home/dev/dev:Z") (trace (snd out)) = true /\
  existsb (mentions "/repo/wt_temp:/home/dev/dev:Z") (trace (snd out)) = false.
Proof. vm_compute. repeat split. Qed.

(** C8, the code at the failing input.  A working tree [claude_wt] is in
    the repository before the run, and no [wt_temp].  The run creates its
    checkout with [git worktree add -b claude_wt wt_temp/] and ends with
    status 0, [worktree_created] and the cleanup flag being set; its only
    removal is [git worktree remove /repo/claude_wt --force].  Afterwards the
    tree that was there before the run is gone, and the tree that the run
    created is still there. *)
Theorem removal_hits_another_checkout :
  let out := main (git_removes (scripted claude_wt_listed)) plain_args
               (boot repo_files "/repo") in
  exists_on repo_files "/" "/repo/claude_wt" = true /\
  exists_on repo_files "/" "/repo/wt_temp" = false /\
  fst out = 0 /\
  List.filter is_worktree_add_ok (trace (snd out)) = [Spawn worktree_add ok] /\
  worktree_created (snd out) = true /\
  cleanup_worktree (snd out) = true /\
  List.filter is_worktree_remove (trace (snd out))
  = [Spawn ["git"; "worktree"; "remove"; "/repo/claude_wt"; "--force"] ok] /\
  exists_on (files (snd out)) "/" "/repo/claude_wt" = false /\
  exists_on (files (snd out)) "/" "/repo/wt_temp" = true.
Proof. vm_compute. repeat split. Qed.

(** C3, the claim as stated fails: the image exists, its creation time can
    be queried, the recipe is present and older than the last build, and
    [should_build_image] still answers true. *)
Lemma stale_marker_still_builds :
  let h := scripted image_ready in
  let self := launcher_of h "/repo" in
  let s := started h home_files "/repo" in
  let t := mkStamps 100 200 in
  image_exists h self s = true /\
  recipe_present h self s = true /\
  (last_build t <? recipe_mtime t) = false /\
  fst (should_build_image h self false s)
    <> Ret (spec_should_build false (image_exists h self s) (recipe_present h self s) t).
Proof. vm_compute. repeat split. discriminate. Qed.

(** * The theorems at concrete runs *)

Ltac find_in := vm_compute; repeat (first [left; reflexivity | right]).
Ltac evaluate := vm_compute; first [reflexivity | discriminate].

(** C4 at two runs: one that creates the checkout and reconciles changes,
    one given [--worktree-path] for the same changes. *)
Lemma reconciler_only_for_created_checkout_witness :
  (reconciled (trace (snd (main (scripted pushes_fail) plain_args (boot repo_files "/repo"))))
     = true /\
   worktree_created (snd (main (scripted pushes_fail) plain_args (boot repo_files "/repo")))
     = true)
  /\
  reconciled (trace (snd (main (scripted pushes_fail) override_args (boot repo_files "/repo"))))
    = false.
Proof.
  split.
  - assert (Hr : reconciled
                   (trace (snd (main (scripted pushes_fail) plain_args
                                  (boot repo_files "/repo")))) = true) by evaluate.
    split; [exact Hr |].
    exact (proj1 (reconciler_only_for_created_checkout
                    (scripted pushes_fail) plain_args repo_files "/repo") Hr).
  - assert (He : exists_on repo_files "/repo" "/repo/claude_wt" = true) by evaluate.
    exact (proj2 (reconciler_only_for_created_checkout
                    (scripted pushes_fail) override_args repo_files "/repo")
             "/repo/claude_wt" eq_refl He).
Defined.

(** C5 at a run where [git worktree add] exits with 128: the container
    runs on the current directory. *)
Lemma failed_checkout_falls_back_witness :
  worktree_created (snd (main (scripted add_fails) plain_args (boot home_files "/repo")))
    = false /\
  worktree_path (snd (main (scripted add_fails) plain_args (boot home_files "/repo")))
    = Some "/repo" /\
  In fallback_warning
     (trace (snd (main (scripted add_fails) plain_args (boot home_files "/repo")))) /\
  exists cmd r,
    In (Spawn cmd r)
       (trace (snd (main (scripted add_fails) plain_args (boot home_files "/repo")))) /\
    podman_run_on (scripted add_fails) "/repo" cmd.
Proof.
  assert (Hin : In (Spawn worktree_add (mkCompleted 128 EmptyString))
                  (trace (snd (main (scripted add_fails) plain_args
                                 (boot home_files "/repo"))))) by find_in.
  assert (Hrc : returncode (mkCompleted 128 EmptyString) <> 0) by evaluate.
  assert (Hz : fst (main (scripted add_fails) plain_args (boot home_files "/repo")) = 0)
    by evaluate.
  destruct (failed_checkout_falls_back (scripted add_fails) plain_args home_files "/repo"
              (mkCompleted 128 EmptyString) Hin Hrc)
    as (s2 & r8 & s8 & _ & _ & _ & _ & _ & _ & _ & (hook & Th & _) & Hc & Hp & Hw & _ & _
        & Hrun).
  destruct (Hrun Hz) as (cmd & r & Hcmd & Hon).
  split; [exact Hc|]. split; [exact Hp|]. split; [exact Hw|].
  exists cmd, r. split; [| exact Hon].
  rewrite Th. apply in_or_app. left. exact Hcmd.
Defined.

(** C6 at a run where both pushes fail. *)
Lemma push_retried_once_then_warned_witness :
  exists pre r2 post,
    trace (snd (main (scripted pushes_fail) plain_args (boot repo_files "/repo"))) =
      pre ++ [Spawn ["git"; "push"; "origin"; "claude_wt"] failed;
              Spawn ["git"; "push"; "--set-upstream"; "origin"; "claude_wt"] r2] ++ post.
Proof.
  assert (Hin : In (Spawn ["git"; "push"; "origin"; "claude_wt"] failed)
                  (trace (snd (main (scripted pushes_fail) plain_args
                                 (boot repo_files "/repo"))))) by find_in.
  assert (Hrc : returncode failed <> 0) by evaluate.
  destruct (push_retried_once_then_warned (scripted pushes_fail) plain_args repo_files "/repo"
              "claude_wt" failed Hin Hrc) as (pre & r2 & post & Ht & _).
  exists pre, r2, post. exact Ht.
Defined.

(** C7 at a run with nothing to commit. *)
Lemma no_changes_nothing_committed_witness :
  committed (trace (snd (main (scripted image_ready) plain_args (boot repo_files "/repo"))))
    = false /\
  In no_changes_line
     (trace (snd (main (scripted image_ready) plain_args (boot repo_files "/repo")))).
Proof.
  assert (H1 : In (Spawn ["git"; "diff"; "--quiet"] ok)
                 (trace (snd (main (scripted image_ready) plain_args
                                (boot repo_files "/repo"))))) by find_in.
  assert (H2 : In (Spawn ["git"; "diff"; "--cached"; "--quiet"] ok)
                 (trace (snd (main (scripted image_ready) plain_args
                                (boot repo_files "/repo"))))) by find_in.
  assert (H3 : In (Spawn ["git"; "ls-files"; "--others"; "--exclude-standard"] ok)
                 (trace (snd (main (scripted image_ready) plain_args
                                (boot repo_files "/repo"))))) by find_in.
  assert (Z3 : Str.strip (stdout ok) = "") by evaluate.
  destruct (no_changes_nothing_committed (scripted image_ready) plain_args repo_files "/repo"
              ok ok ok H1 H2 H3 eq_refl eq_refl Z3) as (_ & Hc & Hl & _).
  exact (conj Hc Hl).
Defined.

(** C9 at a host without the container, and at a run that finds one. *)
Lemma stale_container_stopped_before_run_witness :
  trace (snd (stop_existing_container (scripted no_container)
                (launcher_of (scripted no_container) "/repo")
                (started (scripted no_container) home_files "/repo")))
    = trace (started (scripted no_container) home_files "/repo")
      ++ [Spawn (container_query (launcher_of (scripted no_container) "/repo")) failed]
  /\
  stopped_before (launcher_of (scripted image_ready) "/repo")
    (firstn 31 (trace (snd (main (scripted image_ready) plain_args
                              (boot repo_files "/repo"))))).
Proof.
  split.
  - assert (Hq : returncode
                   (fst (subprocess (scripted no_container)
                           (started (scripted no_container) home_files "/repo")
                           (container_query (launcher_of (scripted no_container) "/repo"))))
                 <> 0) by evaluate.
    exact (proj2 (proj1 (stale_container_stopped_before_run
                           (scripted no_container) plain_args home_files "/repo")
                    (launcher_of (scripted no_container) "/repo")
                    (started (scripted no_container) home_files "/repo")) Hq).
  - assert (Hs : trace (snd (main (scripted image_ready) plain_args (boot repo_files "/repo")))
                 = firstn 31 (trace (snd (main (scripted image_ready) plain_args
                                            (boot repo_files "/repo"))))
                   ++ Spawn (run_args (launcher_of (scripted image_ready) "/repo")
                               "/repo/claude_wt") ok
                   :: skipn 32 (trace (snd (main (scripted image_ready) plain_args
                                              (boot repo_files "/repo"))))) by evaluate.
    exact (proj2 (stale_container_stopped_before_run
                    (scripted image_ready) plain_args repo_files "/repo")
             _ _ _ _ Hs eq_refl).
Defined.

(** C10 at a run with [--message], without and with
    [--permission-mode]. *)
Lemma entry_command_permissions_witness :
  (exists mount_path r,
      In (Spawn (run_args (launcher_of (scripted image_ready) "/repo") mount_path
                 ++ ["bash"; "-c";
                     "claude --dangerously-skip-permissions -p "
                     +:+ Str.dquote +:+ "fix the bug" +:+ Str.dquote
                     +:+ " --output-format stream-json --verbose"]) r)
         (trace (snd (main (scripted image_ready) message_args (boot repo_files "/repo")))))
  /\
  (exists mount_path r,
      In (Spawn (run_args (launcher_of (scripted image_ready) "/repo") mount_path
                 ++ ["bash"; "-c";
                     "claude --permission-mode " +:+ "plan" +:+ " -p "
                     +:+ Str.dquote +:+ "fix the bug" +:+ Str.dquote
                     +:+ " --output-format stream-json --verbose"]) r)
         (trace (snd (main (scripted image_ready) mode_args (boot repo_files "/repo"))))).
Proof.
  assert (Ht : "fix the bug" <> EmptyString) by discriminate.
  assert (Hm : "plan" <> EmptyString) by discriminate.
  split.
  - destruct (entry_command_permissions (scripted image_ready) message_args repo_files "/repo"
                "fix the bug" eq_refl Ht) as (Hall & Hsome).
    assert (Hz : fst (main (scripted image_ready) message_args (boot repo_files "/repo")) = 0)
      by evaluate.
    destruct (Hsome Hz) as (cmd & r & Hin & Hk).
    destruct (Hall cmd r Hin Hk) as (mp & Hskip & _).
    exists mp, r. rewrite <- (Hskip eq_refl). exact Hin.
  - destruct (entry_command_permissions (scripted image_ready) mode_args repo_files "/repo"
                "fix the bug" eq_refl Ht) as (Hall & Hsome).
    assert (Hz : fst (main (scripted image_ready) mode_args (boot repo_files "/repo")) = 0)
      by evaluate.
    destruct (Hsome Hz) as (cmd & r & Hin & Hk).
    destruct (Hall cmd r Hin Hk) as (mp & _ & Hmode).
    exists mp, r. rewrite <- (Hmode "plan" eq_refl Hm). exact Hin.
Defined.

(** C3 at a session that has to build the image. *)
Lemma build_decision_witness :
  exists rb,
    In (Spawn (build_args (launcher_of (scripted build_succeeds) "/repo") false) rb)
       (trace (snd (session (scripted build_succeeds)
                      (launcher_of (scripted build_succeeds) "/repo")
                      plain_args "/repo"
                      (started (scripted build_succeeds) home_files "/repo")))).
Proof.
  set (h := scripted build_succeeds).
  set (self := launcher_of h "/repo").
  set (s := started h home_files "/repo").
  assert (E1 : prepare_claude_config h self s
               = (Ret tt, snd (prepare_claude_config h self s))) by evaluate.
  assert (E2 : should_build_image h self (no_cache plain_args)
                 (snd (prepare_claude_config h self s))
               = (Ret true,
                  snd (should_build_image h self (no_cache plain_args)
                         (snd (prepare_claude_config h self s))))) by evaluate.
  assert (E3 : session h self plain_args "/repo" s
               = (fst (session h self plain_args "/repo" s),
                  snd (session h self plain_args "/repo" s)))
    by (destruct (session h self plain_args "/repo" s); reflexivity).
  destruct (proj2 (proj2 (build_decision h self plain_args "/repo")) _ _ _ _ _ _ E1 E2 E3)
    as (evs & Ht & Hb).
  destruct (proj1 Hb eq_refl) as (rb & Hin).
  exists rb. rewrite Ht, in_app_iff. right. exact Hin.
Defined.

(** X5 at a run whose reconciler changes directory. *)
Lemma directory_restored_witness :
  pwd (snd (main (scripted pushes_fail) plain_args (boot repo_files "/repo"))) = "/repo".
Proof.
  assert (Ha : Path.is_absolute "/repo" = true) by evaluate.
  exact (proj1 (directory_restored (scripted pushes_fail) plain_args repo_files "/repo" Ha)).
Defined.

(** X6 at a run given [--worktree-path] for a directory that exists. *)
Lemma given_directory_never_runs_git_witness :
  In (Spawn (run_args (launcher_of (scripted image_ready) "/repo") "/repo/claude_wt") ok)
     (trace (snd (main (scripted image_ready) override_args (boot repo_files "/repo")))) /\
  starts_with ["git"]
    (run_args (launcher_of (scripted image_ready) "/repo") "/repo/claude_wt") = false /\
  podman_run_on (scripted image_ready) "/repo/claude_wt"
    (run_args (launcher_of (scripted image_ready) "/repo") "/repo/claude_wt").
Proof.
  assert (Hg : given_mount override_args repo_files "/repo" = Some "/repo/claude_wt")
    by evaluate.
  assert (Hin : In (Spawn (run_args (launcher_of (scripted image_ready) "/repo")
                             "/repo/claude_wt") ok)
                   (trace (snd (main (scripted image_ready) override_args
                                  (boot repo_files "/repo"))))) by find_in.
  destruct (given_directory_never_runs_git (scripted image_ready) override_args repo_files
              "/repo" "/repo/claude_wt" Hg _ _ Hin) as (Hgit & Hon).
  exact (conj Hin (conj Hgit (Hon eq_refl))).
Defined.

(** X7 at a run given a path that is not there. *)
Lemma missing_worktree_path_ignored_witness :
  main (scripted image_ready) missing_path_args (boot home_files "/repo")
  = main (scripted image_ready) (without_worktree_path missing_path_args)
      (boot home_files "/repo").
Proof.
  assert (Hex : exists_on (files (started (scripted image_ready) home_files "/repo"))
                  "/repo" "/nowhere" = false) by evaluate.
  exact (missing_worktree_path_ignored (scripted image_ready) missing_path_args home_files
           "/repo" "/nowhere" eq_refl Hex).
Defined.

(** X8 at a run outside a repository. *)
Lemma outside_repository_aborts_witness :
  fst (main (scripted outside_repository) plain_args (boot home_files "/repo")) = 1.
Proof.
  assert (Hin : In (Spawn rev_parse (mkCompleted 128 EmptyString))
                   (trace (snd (main (scripted outside_repository) plain_args
                                  (boot home_files "/repo"))))) by find_in.
  assert (Hrc : returncode (mkCompleted 128 EmptyString) <> 0) by evaluate.
  exact (proj1 (outside_repository_aborts (scripted outside_repository) plain_args home_files
                  "/repo" (mkCompleted 128 EmptyString) Hin Hrc)).
Defined.

(** X9 at the first configuration of a run. *)
Lemma prepare_claude_config_outcome_witness :
  exists_on
    (files (snd (prepare_claude_config (scripted image_ready)
                   (launcher_of (scripted image_ready) "/repo")
                   (started (scripted image_ready) home_files "/repo"))))
    (pwd (started (scripted image_ready) home_files "/repo"))
    (credentials_dest (launcher_of (scripted image_ready) "/repo")) = true.
Proof.
  assert (Hc : exists_on (files (started (scripted image_ready) home_files "/repo"))
                 (pwd (started (scripted image_ready) home_files "/repo"))
                 (credentials_src (scripted image_ready)) = true) by evaluate.
  assert (Hcopy : forall s',
             copy2_answer (scripted image_ready) s' (credentials_src (scripted image_ready))
               (credentials_dest (launcher_of (scripted image_ready) "/repo")) = Copied)
    by reflexivity.
  exact (proj1 (proj2 (prepare_claude_config_outcome (scripted image_ready)
                         (launcher_of (scripted image_ready) "/repo")
                         (started (scripted image_ready) home_files "/repo"))) Hc Hcopy).
Defined.

(** X26 at a profile that is a JSON list. *)
Lemma profile_not_an_object_escapes_witness :
  fst (prepare_claude_config (with_profile (JList []) (scripted image_ready))
         (launcher_of (scripted image_ready) "/repo")
         (started (scripted image_ready) home_files "/repo"))
  = Raise (Error "AttributeError").
Proof.
  assert (Hc : exists_on (files (started (scripted image_ready) home_files "/repo"))
                 (pwd (started (scripted image_ready) home_files "/repo"))
                 (credentials_src (with_profile (JList []) (scripted image_ready))) = true)
    by evaluate.
  assert (Hu : exists_on (files (started (scripted image_ready) home_files "/repo"))
                 (pwd (started (scripted image_ready) home_files "/repo"))
                 (user_config (with_profile (JList []) (scripted image_ready))) = true)
    by evaluate.
  assert (Ht : exists_on (files (started (scripted image_ready) home_files "/repo"))
                 (pwd (started (scripted image_ready) home_files "/repo"))
                 (template_file (launcher_of (scripted image_ready) "/repo")) = true)
    by evaluate.
  assert (Hno : forall user, JList [] <> JDict user) by discriminate.
  exact (proj1 (profile_not_an_object_escapes
                  (with_profile (JList []) (scripted image_ready))
                  (launcher_of (scripted image_ready) "/repo")
                  (started (scripted image_ready) home_files "/repo")
                  (JList []) TEMPLATE_CONTENT Hc Hu Ht
                  (fun _ => eq_refl) (fun _ => eq_refl) (fun _ => eq_refl) Hno)).
Defined.

(** X11 at a run whose [git commit] fails. *)
Lemma failed_commit_step_aborts_witness :
  fst (main (scripted commit_fails) plain_args (boot repo_files "/repo")) = 1 /\
  exists rl,
    In (Spawn worktree_list rl)
       (trace (snd (main (scripted commit_fails) plain_args (boot repo_files "/repo")))).
Proof.
  assert (Hf : existsb commit_step_failed
                 (trace (snd (main (scripted commit_fails) plain_args
                                (boot repo_files "/repo")))) = true) by evaluate.
  destruct (failed_commit_step_aborts (scripted commit_fails) plain_args repo_files "/repo" Hf)
    as (Hcode & _ & Htear).
  destruct (Htear eq_refl) as (rl & Hin & _).
  split; [exact Hcode | exists rl; exact Hin].
Defined.

(** X12 at a profile with an empty [userID] and a [userId]. *)
Lemma update_template_merges_witness :
  exists merged,
    update_template "dev" old_profile TEMPLATE_CONTENT = inr (JDict merged) /\
    dict_get "userID" merged = Some (JStr "u-42").
Proof.
  destruct (update_template "dev" old_profile TEMPLATE_CONTENT) as [e | result] eqn:E;
    [vm_compute in E; discriminate E|].
  destruct (update_template_merges "dev" old_profile TEMPLATE_CONTENT result E)
    as (user & template & merged & Hu & _ & -> & Hid & _).
  exists merged. split; [reflexivity|].
  rewrite Hid. injection Hu as <-. reflexivity.
Defined.

(** X15 at a run without [--message]. *)
Lemma permission_mode_needs_message_witness :
  main (scripted image_ready) (with_permission_mode (Some "plan") plain_args)
    (boot repo_files "/repo")
  = main (scripted image_ready) plain_args (boot repo_files "/repo").
Proof.
  exact (permission_mode_needs_message (scripted image_ready) plain_args repo_files "/repo"
           (Some "plan") eq_refl).
Defined.

(** X17 at a source of two plain lines. *)
Lemma source_without_markers_unchanged_witness :
  Standalone.standalone plain_source sample_dockerfile sample_template = plain_source.
Proof.
  apply source_without_markers_unchanged.
  intros l Hl. vm_compute in Hl.
  destruct Hl as [<- | [<- | [<- | []]]]; split; vm_compute; reflexivity.
Defined.

(** X19 at a source with the class line. *)
Lemma contents_embedded_verbatim_witness :
  Text.contains
    (Standalone.triple_quote ++ sample_dockerfile ++ Standalone.triple_quote)
    (Standalone.standalone class_source sample_dockerfile sample_template) = true /\
  Text.contains
    (Standalone.triple_quote ++ sample_template ++ Standalone.triple_quote)
    (Standalone.standalone class_source sample_dockerfile sample_template) = true.
Proof.
  apply (contents_embedded_verbatim class_source sample_dockerfile sample_template
           Standalone.class_line).
  - vm_compute. right. left. reflexivity.
  - vm_compute. reflexivity.
Defined.

(** X20 at a build whose source has [CR LF] line ends. *)
Lemma standalone_main_outcome_witness :
  exists w1,
    Standalone.main sample_world = Some w1 /\
    Standalone.output_script ∈ Standalone.executable w1 /\
    exists output,
      Standalone.contents w1 !! Standalone.output_script = Some (Standalone.Chars output) /\
      13%N ∉ output.
Proof.
  destruct (Standalone.main sample_world) as [w1 |] eqn:E;
    [| vm_compute in E; discriminate E].
  exists w1. split; [reflexivity|].
  destruct (standalone_main_outcome sample_world w1 E) as (_ & Hx & Hout & _).
  split; [exact Hx | exact Hout].
Defined.

(** X23 at a path that is not there. *)
Lemma missing_file_text_or_error_witness :
  Architect.process_input ∅ notes (Text.of_string "features") = inr notes /\
  Architect.process_existing_files ∅ [notes] = inl (Architect.not_found notes).
Proof.
  apply missing_file_text_or_error. apply lookup_empty.
Defined.

(** X27 at a description that ends with [.md] and is too long for a name. *)
Lemma unreachable_path_raises_witness :
  Architect.process_input
    {[ long_description := Architect.Unreachable name_too_long ]}
    long_description (Text.of_string "features")
  = inl (Architect.OSError name_too_long).
Proof.
  exact (proj1 (unreachable_path_raises
                  {[ long_description := Architect.Unreachable name_too_long ]}
                  long_description (Text.of_string "features") name_too_long []
                  (lookup_singleton_eq _ _))).
Defined.

(** X25 at a response with two sections and two existing files of the same
    name. *)
Lemma outputs_directly_in_specs_witness :
  Forall directly_in_specs
    (written (Architect.parse_and_save_outputs sample_response (Text.of_string "shop")
                sample_existing)).
Proof.
  apply (outputs_directly_in_specs sample_response (Text.of_string "shop") sample_existing).
  - intros H. apply list_elem_of_In in H. vm_compute in H.
    repeat (destruct H as [H | H]; [discriminate H|]). exact H.
  - exists []. symmetry. apply app_nil_r.
Defined.
